(** * Heart-failure analysis: evaluation and correlation scripts

    A shallow embedding of [scripts/model_evaluation.py] and
    [src/correlation_analysis.py].

    Both scripts are sequential glue around pandas, NumPy and scikit-learn.
    The library calls they make are embedded by their documented behaviour,
    each next to the source line that makes the call.  Counts are [nat],
    labels are [Z], scores are exact rationals [Q], and values that pass
    through a square root (standardised features, Pearson correlations) are
    real numbers [R], so these are the values of exact arithmetic.  The
    correlation matrix is also embedded in binary64, where its diagonal
    depends on overflow and underflow. *)

From Stdlib Require Import List String Ascii Bool Arith ZArith QArith Qround Qabs Lia.
From Stdlib Require Import Reals Psatz Qreals.
From Stdlib Require Floats.
Import ListNotations.

#[local] Open Scope nat_scope.

(* ===================================================================== *)
(** * Exceptions and results *)
(* ===================================================================== *)

(** The Python exceptions the two scripts can meet.  [KeyError key] is
    what a lookup of the single label [key] raises.  A lookup of a list of
    labels raises a [KeyError] whose message names the labels that were not
    found; [KeyErrorNotInIndex] carries those labels, in the order of the
    message.  [MaxRowsError] is altair's refusal of a chart with too many
    rows of data. *)
Inductive Exn : Type :=
| KeyError (key : string)
| KeyErrorNotInIndex (names : list string)
| ValueError (msg : string)
| MaxRowsError.

(** A computation that returns a value or raises. *)
Inductive result (A : Type) : Type :=
| Ok (a : A)
| Raise (e : Exn).

Arguments Ok {A} a.
Arguments Raise {A} e.

Definition bind {A B : Type} (c : result A) (k : A -> result B) : result B :=
  match c with
  | Ok a => k a
  | Raise e => Raise e
  end.

Declare Scope result_scope.
Delimit Scope result_scope with result.
Notation "'let*' x ':=' c 'in' k" := (bind c (fun x => k))
  (at level 10, x name, c at level 100, k at level 200) : result_scope.

Definition is_ok {A : Type} (c : result A) : bool :=
  match c with Ok _ => true | Raise _ => false end.

(* ===================================================================== *)
(** * Data frames *)
(* ===================================================================== *)

Module Pandas.

(** A column has one dtype, as in pandas: [int64], [float64] or [bool].
    A CSV literal is a decimal, so a float cell is an exact rational. *)
Inductive Series : Type :=
| IntCol (l : list Z)
| FloatCol (l : list Q)
| BoolCol (l : list bool).

(** Columns in file order. *)
Definition DataFrame : Type := list (string * Series).

Definition series_length (s : Series) : nat :=
  match s with
  | IntCol l => List.length l
  | FloatCol l => List.length l
  | BoolCol l => List.length l
  end.

Definition nrows (df : DataFrame) : nat :=
  match df with
  | [] => 0
  | (_, s) :: _ => series_length s
  end.

(** [df[name]]: the first column of that name, [KeyError] if absent. *)
Fixpoint getitem (df : DataFrame) (name : string) : result Series :=
  match df with
  | [] => Raise (KeyError name)
  | (n, s) :: rest => if String.eqb n name then Ok s else getitem rest name
  end.

Definition has_column (df : DataFrame) (name : string) : bool :=
  existsb (fun c => String.eqb (fst c) name) df.

(** [df[name] = s] on a frame: replaces the column in place when it
    exists, appends it otherwise. *)
Fixpoint setitem (df : DataFrame) (name : string) (s : Series) : DataFrame :=
  match df with
  | [] => [(name, s)]
  | (n, old) :: rest =>
      if String.eqb n name then (n, s) :: rest
      else (n, old) :: setitem rest name s
  end.

(** [Series.astype(bool)]: a number is [True] unless it is zero. *)
Definition astype_bool (s : Series) : Series :=
  match s with
  | IntCol l => BoolCol (map (fun z => negb (Z.eqb z 0)) l)
  | FloatCol l => BoolCol (map (fun q => negb (Qeq_bool q 0)) l)
  | BoolCol l => BoolCol l
  end.

(** [np.unique] on integer labels: ascending, without repetition. *)
Fixpoint insert_unique (x : Z) (l : list Z) : list Z :=
  match l with
  | [] => [x]
  | y :: t =>
      match Z.compare x y with
      | Lt => x :: l
      | Eq => l
      | Gt => y :: insert_unique x t
      end
  end.

Definition unique (l : list Z) : list Z := fold_right insert_unique [] l.

(** Number of rows whose (row key, column key) is [(r, c)]. *)
Definition count_pair (pairs : list (Z * Z)) (r c : Z) : nat :=
  List.length (filter (fun p => Z.eqb (fst p) r && Z.eqb (snd p) c) pairs).

(** A table of counts: the name of the row axis, the name of the column
    axis when it has one, the row keys, the column keys and the cells. *)
Record Crosstab : Type := mkCrosstab {
  rownames : string;
  colnames : option string;
  index : list Z;
  columns : list Z;
  cells : list (list nat)
}.

(** [pd.crosstab(index, columns, rownames=[r], colnames=[c])]: one row per
    value that occurs in [index], one column per value that occurs in
    [columns], both ascending; a cell counts the rows with that pair and
    a pair that never occurs is filled with 0. *)
Definition crosstab (idx cols : list Z) (rname cname : string) : Crosstab :=
  let pairs := combine idx cols in
  let rs := unique (map fst pairs) in
  let cs := unique (map snd pairs) in
  {| rownames := rname;
     colnames := Some cname;
     index := rs;
     columns := cs;
     cells := map (fun r => map (fun c => count_pair pairs r c) cs) rs |}.

(** The cell for (row key, column key), when both keys are in the table. *)
Fixpoint position (x : Z) (l : list Z) : option nat :=
  match l with
  | [] => None
  | y :: t => if Z.eqb y x then Some 0%nat
              else option_map S (position x t)
  end.

Definition cell (t : Crosstab) (r c : Z) : option nat :=
  match position r (index t), position c (columns t) with
  | Some i, Some j => nth_error (nth i (cells t) []) j
  | _, _ => None
  end.

Definition shape (t : Crosstab) : nat * nat :=
  (List.length (cells t), List.length (columns t)).

Definition total (t : Crosstab) : nat :=
  list_sum (map (@list_sum) (cells t)).

(** [DataFrame.to_csv(path)]: the header line is the name of the row axis
    followed by the column keys, and every other line is a row key followed
    by its cells.  The name of the column axis is not written, so the table
    the file holds has none. *)
Definition to_csv (t : Crosstab) : Crosstab :=
  {| rownames := rownames t;
     colnames := None;
     index := index t;
     columns := columns t;
     cells := cells t |}.

End Pandas.

(* ===================================================================== *)
(** * Classification scores (sklearn.metrics) *)
(* ===================================================================== *)

Module Metrics.

(** The scores are computed for the positive class, [pos_label=1], the
    default of [precision_score], [recall_score] and [f1_score]. *)
Definition pos_label : Z := 1.

Definition count_rows (f : Z -> Z -> bool) (y_true y_pred : list Z) : nat :=
  List.length (filter (fun p => f (fst p) (snd p)) (combine y_true y_pred)).

(** What the library counts for the positive class: the rows that are
    positive in both, the rows predicted positive, the rows that are
    truly positive. *)
Definition tp_sum (y_true y_pred : list Z) : nat :=
  count_rows (fun a p => Z.eqb a pos_label && Z.eqb p pos_label) y_true y_pred.

Definition pred_sum (y_true y_pred : list Z) : nat :=
  count_rows (fun _ p => Z.eqb p pos_label) y_true y_pred.

Definition true_sum (y_true y_pred : list Z) : nat :=
  count_rows (fun a _ => Z.eqb a pos_label) y_true y_pred.

(** [_prf_divide] with [zero_division="warn"]: a ratio with a zero
    denominator is 0 (and a warning is issued). *)
Definition prf_divide (num den : nat) : Q :=
  if Nat.eqb den 0 then 0%Q else (Z.of_nat num # Pos.of_nat den)%Q.

Definition multiclass_msg : string :=
  "Target is multiclass but average='binary'. Please choose another average setting.".

Definition pos_label_msg : string :=
  "pos_label=1 is not a valid label.".

Definition length_msg : string :=
  "Found input variables with inconsistent numbers of samples".

Definition check_consistent_length (y_true y_pred : list Z) : result unit :=
  if Nat.eqb (List.length y_true) (List.length y_pred) then Ok tt
  else Raise (ValueError length_msg).

(** The checks of [average="binary"]: the labels present in the targets
    and the predictions together are at most two, and when two labels are
    present one of them is [pos_label]. *)
Definition check_binary (y_true y_pred : list Z) : result unit :=
  let present := Pandas.unique (y_true ++ y_pred) in
  if Nat.ltb 2 (List.length present) then Raise (ValueError multiclass_msg)
  else if negb (existsb (Z.eqb pos_label) present)
          && Nat.leb 2 (List.length present)
       then Raise (ValueError pos_label_msg)
       else Ok tt.

Local Open Scope result_scope.

(** [accuracy_score]: the fraction of rows with [y_true == y_pred].  (On
    no rows at all the library divides 0 by 0; the ratio written here is 0
    then, and nothing below relies on it.) *)
Definition accuracy_score (y_true y_pred : list Z) : result Q :=
  let* _ := check_consistent_length y_true y_pred in
  Ok (Z.of_nat (count_rows Z.eqb y_true y_pred)
      # Pos.of_nat (List.length y_true))%Q.

Definition precision_score (y_true y_pred : list Z) : result Q :=
  let* _ := check_consistent_length y_true y_pred in
  let* _ := check_binary y_true y_pred in
  Ok (prf_divide (tp_sum y_true y_pred) (pred_sum y_true y_pred)).

Definition recall_score (y_true y_pred : list Z) : result Q :=
  let* _ := check_consistent_length y_true y_pred in
  let* _ := check_binary y_true y_pred in
  Ok (prf_divide (tp_sum y_true y_pred) (true_sum y_true y_pred)).

(** [f1_score] is [fbeta_score] at [beta = 1]:
    [(1 + beta^2) * tp / (beta^2 * true_sum + pred_sum)]. *)
Definition f1_score (y_true y_pred : list Z) : result Q :=
  let* _ := check_consistent_length y_true y_pred in
  let* _ := check_binary y_true y_pred in
  Ok (prf_divide (2 * tp_sum y_true y_pred)
                 (true_sum y_true y_pred + pred_sum y_true y_pred)).

End Metrics.

(* ===================================================================== *)
(** * scripts/model_evaluation.py *)
(* ===================================================================== *)

Module Evaluator.
Import Pandas.

(** The state of NumPy's global generator, fixed by the seed it was last
    given. *)
Record RandomState : Type := mkRandomState { seeded_with : Z }.

Definition seed_msg : string := "Seed must be between 0 and 2**32 - 1".

(** [np.random.seed(seed)]: the legacy generator takes a 32-bit unsigned
    seed and raises [ValueError] for any other integer. *)
Definition np_random_seed (seed : Z) : result RandomState :=
  if Z.leb 0 seed && Z.ltb seed (2 ^ 32)
  then Ok (mkRandomState seed)
  else Raise (ValueError seed_msg).

(** The unpickled pipeline is opaque: all the script asks of it is
    [predict], which yields one label per row or raises.  A stochastic
    pipeline may read the global generator. *)
Record Pipeline : Type := mkPipeline {
  predict : RandomState -> DataFrame -> result (list Z)
}.

(** A deterministic pipeline predicts the same whatever the generator
    state. *)
Definition deterministic (p : Pipeline) : Prop :=
  forall (g1 g2 : RandomState) (df : DataFrame), predict p g1 df = predict p g2 df.

Definition assign_msg : string :=
  "Length of values does not match length of index".

(** [df.assign(name=values)]: a copy of the frame with the column set;
    the values must have one entry per row. *)
Definition assign (df : DataFrame) (name : string) (values : list Z)
  : result DataFrame :=
  if Nat.eqb (List.length values) (nrows df)
  then Ok (setitem df name (IntCol values))
  else Raise (ValueError assign_msg).

Definition is_integral (q : Q) : bool :=
  Qeq_bool q (inject_Z (Qfloor q)).

Definition continuous_msg : string := "continuous is not supported".

(** The class labels a target column holds.  [True] and [1.0] are the
    label 1; a column with a fractional value is a continuous target,
    which the scores reject. *)
Definition labels (s : Series) : result (list Z) :=
  match s with
  | IntCol l => Ok l
  | BoolCol l => Ok (map Z.b2z l)
  | FloatCol l =>
      if forallb is_integral l then Ok (map Qfloor l)
      else Raise (ValueError continuous_msg)
  end.

(** The single row of [test_scores.csv], in column order. *)
Record Scores : Type := mkScores {
  accuracy : Q;
  precision : Q;
  recall : Q;
  f1 : Q
}.

(** What a written file holds: the table of counts as [to_csv] leaves it,
    or the row of scores. *)
Inductive FileContent : Type :=
| CrosstabCsv (t : Crosstab)
| ScoresCsv (s : Scores).

Fixpoint ends_with_slash (s : string) : bool :=
  match s with
  | EmptyString => false
  | String c EmptyString => Ascii.eqb c "/"%char
  | String _ rest => ends_with_slash rest
  end.

(** [os.path.join(dir, name)] for a relative [name]. *)
Definition path_join (dir name : string) : string :=
  match dir with
  | EmptyString => name
  | _ => if ends_with_slash dir then (dir ++ name)%string
         else (dir ++ "/" ++ name)%string
  end.

Local Open Scope result_scope.

(** [main]: the arguments are the decoded contents of the two input
    files; the result is the files written, in order.  Nothing is
    written before every score is computed (lines 50-52).  The directory
    [results_to] is taken to exist and to be writable. *)
Definition main (scaled_test_data : DataFrame) (pipeline_from : Pipeline)
                (results_to : string) (seed : Z)
  : result (list (string * FileContent)) :=
  let* rng := np_random_seed seed in
  let heart_failure_test := scaled_test_data in
  let heart_failure_fit := pipeline_from in
  let* predicted := predict heart_failure_fit rng heart_failure_test in
  let* heart_failure_predictions :=
    assign heart_failure_test "predicted" predicted in
  let* death_event := getitem heart_failure_predictions "DEATH_EVENT" in
  let* predicted_col := getitem heart_failure_predictions "predicted" in
  let* y_true := labels death_event in
  let* y_pred := labels predicted_col in
  let cm_crosstab := crosstab y_true y_pred "Actual" "Predicted" in
  let* accuracy := Metrics.accuracy_score y_true y_pred in
  let* precision := Metrics.precision_score y_true y_pred in
  let* recall := Metrics.recall_score y_true y_pred in
  let* f1 := Metrics.f1_score y_true y_pred in
  let test_scores := mkScores accuracy precision recall f1 in
  Ok [ (path_join results_to "confusion_matrix.csv",
         CrosstabCsv (to_csv cm_crosstab));
       (path_join results_to "test_scores.csv", ScoresCsv test_scores) ].

End Evaluator.

(* ===================================================================== *)
(** * Feature preprocessing (sklearn.preprocessing, sklearn.compose) *)
(* ===================================================================== *)

Module Preprocessing.
Import Pandas.

Local Open Scope result_scope.

Definition no_samples_msg : string :=
  "Found array with 0 sample(s) while a minimum of 1 is required".

(** The numeric view of a column: what [np.asarray(column, dtype=float)]
    holds. *)
Definition to_floats (s : Series) : list Q :=
  match s with
  | IntCol l => map inject_Z l
  | FloatCol l => l
  | BoolCol l => map (fun b : bool => if b then 1%Q else 0%Q) l
  end.

Definition Qsum (l : list Q) : Q := fold_right Qplus 0%Q l.

Definition Qmean (l : list Q) : Q :=
  (Qsum l / inject_Z (Z.of_nat (List.length l)))%Q.

(** Population variance, [ddof = 0]. *)
Definition Qvar (l : list Q) : Q :=
  let m := Qmean l in
  (Qsum (map (fun x => (x - m) * (x - m)) l)
   / inject_Z (Z.of_nat (List.length l)))%Q.

(** ** StandardScaler *)

Record ScalerParams : Type := mkScaler {
  mean_ : Q;
  var_ : Q;
  n_samples_seen_ : nat
}.

(** The machine epsilon of [float64], [2 ** -52]. *)
Definition eps : Q := 1 # 4503599627370496.

(** [_is_constant_feature(var, mean, n_samples)]: a column counts as
    constant when its variance is within the error bound of the two-pass
    algorithm, [var <= n * eps * var + (n * mean * eps) ** 2].  A variance
    of zero always is. *)
Definition is_constant_feature (var mean : Q) (n_samples : nat) : bool :=
  let n := inject_Z (Z.of_nat n_samples) in
  Qle_bool var (n * eps * var + (n * mean * eps) * (n * mean * eps))%Q.

(** [scale_ = sqrt(var_)], with the scale of a constant column replaced
    by 1 so that such a column is only centred. *)
Definition scale_ (p : ScalerParams) : R :=
  if is_constant_feature (var_ p) (mean_ p) (n_samples_seen_ p)
  then 1%R else sqrt (Q2R (var_ p)).

Definition scaler_fit (x : list Q) : result ScalerParams :=
  match x with
  | [] => Raise (ValueError no_samples_msg)
  | _ => Ok (mkScaler (Qmean x) (Qvar x) (List.length x))
  end.

Definition standardize (p : ScalerParams) (v : Q) : R :=
  ((Q2R v - Q2R (mean_ p)) / scale_ p)%R.

Definition scaler_transform (p : ScalerParams) (x : list Q)
  : result (list R) :=
  match x with
  | [] => Raise (ValueError no_samples_msg)
  | _ => Ok (map (standardize p) x)
  end.

(** ** OneHotEncoder *)

Inductive HandleUnknown : Type := UnknownError | UnknownIgnore.

Definition unknown_msg : string :=
  "Found unknown categories during transform".

Section OneHotEncoder.
Variable A : Type.
Variable cmp : A -> A -> comparison.

Definition same (c x : A) : bool :=
  match cmp c x with Eq => true | _ => false end.

Fixpoint insert_category (x : A) (l : list A) : list A :=
  match l with
  | [] => [x]
  | y :: t =>
      match cmp x y with
      | Lt => x :: l
      | Eq => l
      | Gt => y :: insert_category x t
      end
  end.

(** [categories_]: the distinct values of the fitted column, ascending. *)
Definition categories_of (x : list A) : list A :=
  fold_right insert_category [] x.

Definition encoder_fit (x : list A) : result (list A) :=
  match x with
  | [] => Raise (ValueError no_samples_msg)
  | _ => Ok (categories_of x)
  end.

(** [drop='if_binary']: a feature with exactly two categories loses its
    first one; any other feature keeps them all. *)
Definition kept_categories (cats : list A) : list A :=
  match cats with
  | [_; c] => [c]
  | _ => cats
  end.

Definition known (cats : list A) (v : A) : bool :=
  existsb (fun c => same c v) cats.

(** One output column per kept category: 1 where the value is that
    category, 0 elsewhere ([dtype=int]). *)
Definition indicator (c v : A) : Z := if same c v then 1%Z else 0%Z.

Definition encode_columns (cats : list A) (x : list A)
  : list (A * list Z) :=
  map (fun c => (c, map (indicator c) x)) (kept_categories cats).

(** With [handle_unknown="ignore"] a value that was not seen by [fit]
    is encoded like any other, so every indicator of its row is 0;
    with ["error"] it raises. *)
Definition encoder_transform (hu : HandleUnknown) (cats : list A)
                             (x : list A) : result (list (A * list Z)) :=
  match x with
  | [] => Raise (ValueError no_samples_msg)
  | _ =>
      match hu with
      | UnknownIgnore => Ok (encode_columns cats x)
      | UnknownError =>
          if forallb (known cats) x then Ok (encode_columns cats x)
          else Raise (ValueError unknown_msg)
      end
  end.
End OneHotEncoder.

Arguments same {A} cmp c x.
Arguments insert_category {A} cmp x l.
Arguments categories_of {A} cmp x.
Arguments encoder_fit {A} cmp x.
Arguments kept_categories {A} cats.
Arguments known {A} cmp cats v.
Arguments indicator {A} cmp c v.
Arguments encode_columns {A} cmp cats x.
Arguments encoder_transform {A} cmp hu cats x.

Definition bool_compare (a b : bool) : comparison :=
  match a, b with
  | false, true => Lt
  | true, false => Gt
  | _, _ => Eq
  end.

(** [str(category)], as it appears in an output feature name. *)
Definition bool_repr (b : bool) : string := if b then "True" else "False".

Definition dtype_msg : string :=
  "OneHotEncoder input is not a boolean column".

(** The encoder of this script only ever receives columns that lines
    30-31 have cast to [bool]; other dtypes are outside the model. *)
Definition bool_values (s : Series) : result (list bool) :=
  match s with
  | BoolCol l => Ok l
  | _ => Raise (ValueError dtype_msg)
  end.

(** ** ColumnTransformer *)

Definition missing_column_msg : string :=
  "A given column is not a column of the dataframe".

(** Column selection by name while the transformer is fitted: a missing
    column is a [ValueError]. *)
Definition select (df : DataFrame) (name : string) : result Series :=
  match getitem df name with
  | Ok s => Ok s
  | Raise _ => Raise (ValueError missing_column_msg)
  end.

(** Column selection by name while a fitted transformer is applied: the
    frame is indexed by label, and a missing column is a [KeyError]. *)
Definition select_fitted (df : DataFrame) (name : string) : result Series :=
  match getitem df name with
  | Ok s => Ok s
  | Raise _ => Raise (KeyErrorNotInIndex [name])
  end.

Fixpoint mapM {A B : Type} (f : A -> result B) (l : list A)
  : result (list B) :=
  match l with
  | [] => Ok []
  | a :: t =>
      let* b := f a in
      let* bs := mapM f t in
      Ok (b :: bs)
  end.

(** The state [fit] leaves in the transformer. *)
Record ColumnTransformer : Type := mkColumnTransformer {
  handle_unknown : HandleUnknown;
  scalers : list (string * ScalerParams);
  encoders : list (string * list bool);
  remainder : list string
}.

Definition mem_string (s : string) (l : list string) : bool :=
  existsb (String.eqb s) l.

(** [make_column_transformer((StandardScaler(), numeric_columns),
    (OneHotEncoder(...), binary_columns), remainder='passthrough').fit(X)] *)
Definition fit (hu : HandleUnknown) (numeric_columns binary_columns : list string)
               (X : DataFrame) : result ColumnTransformer :=
  let* sc := mapM (fun c => let* s := select X c in
                            let* p := scaler_fit (to_floats s) in
                            Ok (c, p)) numeric_columns in
  let* en := mapM (fun c => let* s := select X c in
                            let* v := bool_values s in
                            let* cats := encoder_fit bool_compare v in
                            Ok (c, cats)) binary_columns in
  Ok {| handle_unknown := hu;
        scalers := sc;
        encoders := en;
        remainder :=
          filter (fun c => negb (mem_string c numeric_columns
                                 || mem_string c binary_columns))
                 (map fst X) |}.

(** A transformed table: named columns of reals. *)
Definition Table : Type := list (string * list R).

Definition scaled_column (X : DataFrame) (cp : string * ScalerParams)
  : result (string * list R) :=
  let* s := select_fitted X (fst cp) in
  let* v := scaler_transform (snd cp) (to_floats s) in
  Ok (("standardscaler__" ++ fst cp)%string, v).

Definition encoded_columns (hu : HandleUnknown) (X : DataFrame)
                           (cc : string * list bool)
  : result (list (string * list R)) :=
  let* s := select_fitted X (fst cc) in
  let* v := bool_values s in
  let* cols := encoder_transform bool_compare hu (snd cc) v in
  Ok (map (fun kc : bool * list Z =>
             (("onehotencoder__" ++ fst cc ++ "_" ++ bool_repr (fst kc))%string,
              map IZR (snd kc))) cols).

Definition passed_column (X : DataFrame) (c : string)
  : result (string * list R) :=
  let* s := select_fitted X c in
  Ok (("remainder__" ++ c)%string, map Q2R (to_floats s)).

(** [transform(X)]: the scaled columns, then the encoded ones, then the
    columns passed through, each block in the order it was given. *)
Definition transform (t : ColumnTransformer) (X : DataFrame) : result Table :=
  let* a := mapM (scaled_column X) (scalers t) in
  let* b := mapM (encoded_columns (handle_unknown t) X) (encoders t) in
  let* c := mapM (passed_column X) (remainder t) in
  Ok (a ++ List.concat b ++ c).

(** [get_feature_names_out()] *)
Definition get_feature_names_out (t : ColumnTransformer) : list string :=
  map (fun cp => ("standardscaler__" ++ fst cp)%string) (scalers t)
  ++ flat_map (fun cc : string * list bool =>
                 map (fun k => ("onehotencoder__" ++ fst cc ++ "_" ++ bool_repr k)%string)
                     (kept_categories (snd cc)))
              (encoders t)
  ++ map (fun c => ("remainder__" ++ c)%string) (remainder t).

End Preprocessing.

(* ===================================================================== *)
(** * src/correlation_analysis.py *)
(* ===================================================================== *)

Module CorrelationAnalysis.
Import Pandas Preprocessing.

Local Open Scope result_scope.

(** ** preprocess_data *)

(** The two frame objects the caller passes by reference. *)
Record Frames : Type := mkFrames {
  train_df : DataFrame;
  test_df : DataFrame
}.

(** The labels of [cols] that are not columns of [df], in the order of
    [cols]. *)
Definition not_found (df : DataFrame) (cols : list string) : list string :=
  filter (fun c => negb (has_column df c)) cols.

(** [Index.unique()]: the first occurrence of each label, in order. *)
Fixpoint unique_labels (l : list string) : list string :=
  match l with
  | [] => []
  | c :: t => c :: filter (fun d => negb (String.eqb c d)) (unique_labels t)
  end.

(** The labels a [KeyError] of [df[cols]] names ([_raise_if_missing]):
    all of [cols] when none is a column ("None of [...] are in the
    [columns]"), the distinct missing ones otherwise ("[...] not in
    index"). *)
Definition labels_in_message (df : DataFrame) (cols : list string)
  : list string :=
  let missing := not_found df cols in
  if Nat.eqb (List.length missing) (List.length cols) then cols
  else unique_labels missing.

(** [df[columns]]: the listed columns, or a [KeyError] when some label is
    not a column. *)
Definition getitems (df : DataFrame) (cols : list string)
  : result (list (string * Series)) :=
  match not_found df cols with
  | [] => mapM (fun c => let* s := getitem df c in Ok (c, s)) cols
  | _ :: _ => Raise (KeyErrorNotInIndex (labels_in_message df cols))
  end.

(** [df[columns] = values]: assigns column by column, in place. *)
Definition setitems (df : DataFrame) (values : list (string * Series))
  : DataFrame :=
  fold_left (fun d cs => setitem d (fst cs) (snd cs)) values df.

Definition astype_bool_all (sel : list (string * Series))
  : list (string * Series) :=
  map (fun cs => (fst cs, astype_bool (snd cs))) sel.

(** [df[binary_columns] = df[binary_columns].astype(bool)] *)
Definition cast_binary (df : DataFrame) (binary_columns : list string)
  : result DataFrame :=
  let* sel := getitems df binary_columns in
  Ok (setitems df (astype_bool_all sel)).

(** The pure part, lines 34-52, on the frames as lines 30-31 left them. *)
Definition fit_transform (numeric_columns binary_columns : list string)
                         (st : Frames)
  : result (Table * Table * list string) :=
  let* preprocessor :=
    fit UnknownIgnore numeric_columns binary_columns (train_df st) in
  let* train_scaled := transform preprocessor (train_df st) in
  let* test_scaled := transform preprocessor (test_df st) in
  let column_names := get_feature_names_out preprocessor in
  Ok (train_scaled, test_scaled, column_names).

(** [preprocess_data]: the result, and the caller's frames as the call
    leaves them, also when it raises. *)
Definition preprocess_data (st : Frames)
                           (numeric_columns binary_columns : list string)
  : result (Table * Table * list string) * Frames :=
  match cast_binary (train_df st) binary_columns with
  | Raise e => (Raise e, st)
  | Ok train' =>
      let st1 := mkFrames train' (test_df st) in
      match cast_binary (test_df st1) binary_columns with
      | Raise e => (Raise e, st1)
      | Ok test' =>
          let st2 := mkFrames (train_df st1) test' in
          (fit_transform numeric_columns binary_columns st2, st2)
      end
  end.

(** ** plot_correlation_matrix *)

Definition Rsum (l : list R) : R := fold_right Rplus 0%R l.

Definition Rmean (l : list R) : R := (Rsum l / INR (List.length l))%R.

(** Sum of squared deviations of a column from its mean. *)
Definition ssqdm (x : list R) : R :=
  Rsum (map (fun v => ((v - Rmean x) * (v - Rmean x))%R) x).

(** Sum of the products of the paired deviations. *)
Definition covxy (x y : list R) : R :=
  Rsum (map (fun p => ((fst p - Rmean x) * (snd p - Rmean y))%R)
            (combine x y)).

(** One entry of [DataFrame.corr()] (Pearson): [None] is NaN, the entry
    of a pair whose divisor is zero. *)
Definition pearson (x y : list R) : option R :=
  let divisor := sqrt (ssqdm x * ssqdm y) in
  if Req_dec_T divisor 0 then None else Some (covxy x y / divisor)%R.

(** [scaled_train.corr()]: a row per feature, an entry per feature. *)
Definition corr (df : Table) : list (string * list (option R)) :=
  map (fun r => (fst r, map (fun c => pearson (snd r) (snd c)) df)) df.

(** The entry at row [i], column [j]. *)
Definition entry (m : list (string * list (option R))) (i j : nat)
  : option (option R) :=
  match nth_error m i with
  | Some row => nth_error (snd row) j
  | None => None
  end.

(** [correlation_matrix.reset_index().melt(id_vars='index')] with the
    columns renamed: variable by variable, a triple per matrix row. *)
Definition melt (names : list string) (m : list (string * list (option R)))
  : list (string * string * option R) :=
  List.concat (map (fun jn : nat * string =>
                 map (fun row => (fst row, snd jn, nth (fst jn) (snd row) None)) m)
              (combine (seq 0 (List.length names)) names)).

Record Chart : Type := mkChart {
  data : list (string * string * option R);
  width : Z;
  height : Z;
  title : string
}.

(** What reaches standard error: a message echoed with [err=True], or
    the traceback the interpreter prints for an exception that nothing
    catches. *)
Inductive ErrOutput : Type :=
| Echoed (msg : string)
| Traceback (e : Exn).

(** What the process can observe and change. *)
Record World : Type := mkWorld {
  stdout : list string;
  stderr : list ErrOutput;
  dirs : list string;
  files : list (string * Chart);
  shown : list Chart
}.

Definition click_echo (msg : string) (w : World) : World :=
  mkWorld (stdout w ++ [msg]) (stderr w) (dirs w) (files w) (shown w).

Definition click_echo_err (msg : string) (w : World) : World :=
  mkWorld (stdout w) (stderr w ++ [Echoed msg]) (dirs w) (files w) (shown w).

Definition is_slash (c : ascii) : bool := Ascii.eqb c "/"%char.

Definition is_dot (c : ascii) : bool := Ascii.eqb c "."%char.

Fixpoint drop_while (f : ascii -> bool) (l : list ascii) : list ascii :=
  match l with
  | [] => []
  | c :: t => if f c then drop_while f t else l
  end.

Fixpoint take_while (f : ascii -> bool) (l : list ascii) : list ascii :=
  match l with
  | [] => []
  | c :: t => if f c then c :: take_while f t else []
  end.

(** [os.path.dirname]: the path up to its last slash, without trailing
    slashes unless it is made of slashes only. *)
Definition dirname (p : string) : string :=
  let head := drop_while (fun c => negb (is_slash c))
                         (rev (list_ascii_of_string p)) in
  if forallb is_slash head then string_of_list_ascii head
  else string_of_list_ascii (rev (drop_while is_slash head)).

Definition path_exists (d : string) (w : World) : bool :=
  existsb (String.eqb d) (dirs w).

(** The directory [d] and the directories above it, nearest first; the
    root is left out.  The search is bounded by [fuel], and the length of
    [d] is enough since each step shortens the path. *)
Definition only_slashes (d : string) : bool :=
  forallb is_slash (list_ascii_of_string d).

Fixpoint ancestors (fuel : nat) (d : string) : list string :=
  match fuel with
  | 0 => []
  | S fuel' =>
      if only_slashes d then [] else d :: ancestors fuel' (dirname d)
  end.

(** [os.makedirs(d)]: creates [d] and every directory above it that does
    not exist yet. *)
Definition makedirs (d : string) (w : World) : World :=
  mkWorld (stdout w) (stderr w)
          (filter (fun a => negb (path_exists a w))
                  (ancestors (String.length d) d) ++ dirs w)
          (files w) (shown w).

(** The components of a path, split at its slashes. *)
Fixpoint split_path (l cur : list ascii) : list (list ascii) :=
  match l with
  | [] => [rev cur]
  | c :: t => if is_slash c then rev cur :: split_path t []
              else split_path t (c :: cur)
  end.

(** [pathlib.PurePath(path).name]: the last component, empty components
    and the component "." having been dropped. *)
Definition path_name (path : string) : list ascii :=
  last (filter (fun part => match part with
                            | [] => false
                            | [c] => negb (is_dot c)
                            | _ => true
                            end)
               (split_path (list_ascii_of_string path) []))
       [].

(** The format [Chart.save] infers from a path,
    [pathlib.Path(path).suffix.lstrip(".")]: what follows the last dot of
    the name, provided that dot is neither the first nor the last
    character of the name. *)
Definition save_format (path : string) : string :=
  let r := rev (path_name path) in
  let ext := rev (take_while (fun c => negb (is_dot c)) r) in
  match drop_while (fun c => negb (is_dot c)) r with
  | _ :: _ :: _ => string_of_list_ascii ext
  | _ => ""
  end.

Definition supported_formats : list string :=
  ["json"; "html"; "png"; "svg"; "pdf"; "vega"]%string.

Definition unsupported_msg (format : string) : string :=
  ("Unsupported format: '" ++ format ++ "'")%string.

(** The most rows of data the default data transformer lets a chart
    carry. *)
Definition max_rows : nat := 50 * 100.

(** [chart.save(path)]: the chart is first turned into its specification,
    which raises [MaxRowsError] when it has more than [max_rows] rows of
    data; it is then written in the format of the path's extension, or
    [ValueError] is raised when that is none of the formats [save] knows.
    Nothing is written when it raises. *)
Definition chart_save (c : Chart) (path : string) (w : World) : result World :=
  if Nat.ltb max_rows (List.length (data c)) then Raise MaxRowsError
  else if mem_string (save_format path) supported_formats
  then Ok (mkWorld (stdout w) (stderr w) (dirs w) ((path, c) :: files w)
                   (shown w))
  else Raise (ValueError (unsupported_msg (save_format path))).

Definition chart_show (c : Chart) (w : World) : World :=
  mkWorld (stdout w) (stderr w) (dirs w) (files w) (c :: shown w).

(** The chart of lines 66-79. *)
Definition heatmap (scaled_train : Table) : Chart :=
  let correlation_matrix := corr scaled_train in
  let correlation_long := melt (map fst scaled_train) correlation_matrix in
  mkChart correlation_long 600 600 "Correlation Heatmap".

(** [plot_correlation_matrix]: whether it returned or raised, and the
    world as it left it. *)
Definition plot_correlation_matrix (scaled_train : Table)
                                   (output_file : option string)
                                   (w : World) : result unit * World :=
  let chart := heatmap scaled_train in
  match output_file with
  | Some path =>
      if String.eqb path "" then (Ok tt, chart_show chart w)
      else
        let output_dir := dirname path in
        let w1 :=
          if negb (String.eqb output_dir "") && negb (path_exists output_dir w)
          then click_echo ("Directory " ++ output_dir ++ " created.")
                          (makedirs output_dir w)
          else w in
        match chart_save chart path w1 with
        | Ok w2 => (Ok tt, click_echo ("Heatmap saved to " ++ path ++ ".") w2)
        | Raise e => (Raise e, w1)
        end
  | None => (Ok tt, chart_show chart w)
  end.

(** ** validate_feature_correlations *)

Definition violation_msg : string :=
  "Feature-feature correlation exceeds the maximum acceptable threshold.".

Section Deepchecks.
(** The statistic of deepchecks' [FeatureFeatureCorrelation]: how many
    feature pairs of a table correlate above a threshold. *)
Variable pairs_above_threshold : Table -> Q -> nat.

(** The condition [max_number_of_pairs_above_threshold(threshold,
    n_pairs=0)] passes when at most [n_pairs] pairs are above. *)
Definition passed_conditions (dataset : Table) (threshold : Q) : bool :=
  Nat.leb (pairs_above_threshold dataset threshold) 0.

Definition validate_feature_correlations (scaled_train : Table)
                                         (threshold_feature_feature : Q)
  : result unit :=
  if negb (passed_conditions scaled_train threshold_feature_feature)
  then Raise (ValueError violation_msg)
  else Ok tt.
End Deepchecks.

(** ** main *)

(** How the process ends: its exit status. *)
Inductive Exit : Type :=
| Exited (status : Z).

(** An exception that nothing catches: the interpreter prints its
    traceback to standard error and the process ends with status 1. *)
Definition uncaught (e : Exn) (w : World) : World * Exit :=
  (mkWorld (stdout w) (stderr w ++ [Traceback e]) (dirs w) (files w) (shown w),
   Exited 1).

Definition numeric_columns : list string :=
  ["age"; "creatinine_phosphokinase"; "ejection_fraction"; "platelets";
   "serum_creatinine"; "serum_sodium"; "time"]%string.

Definition binary_columns : list string :=
  ["anaemia"; "diabetes"; "high_blood_pressure"; "sex"; "smoking"]%string.

Definition passed_msg : string :=
  "All feature-feature correlation checks passed.".

(** The body of the [try] at lines 141-143.  Line 142, the call of
    [validate_feature_correlations], is a comment: what is left cannot
    raise. *)
Definition try_body (scaled_train : Table) (threshold_feature_feature : Q)
                    (w : World) : result World :=
  Ok (click_echo passed_msg w).

(** [main]: the arguments are the decoded contents of the two CSV files. *)
Definition main (train_file test_file : DataFrame)
                (output_file : option string)
                (threshold_feature_feature : Q) (w : World)
  : World * Exit :=
  let train_df := train_file in
  let test_df := test_file in
  match fst (preprocess_data (mkFrames train_df test_df)
                             numeric_columns binary_columns) with
  | Raise e => uncaught e w
  | Ok (scaled_train, _, _) =>
      match plot_correlation_matrix scaled_train output_file w with
      | (Raise e, w1) => uncaught e w1
      | (Ok _, w1) =>
          match try_body scaled_train threshold_feature_feature w1 with
          | Ok w2 => (w2, Exited 0)
          | Raise (ValueError msg) => (click_echo_err msg w1, Exited 1)
          | Raise e => uncaught e w1
          end
      end
  end.

End CorrelationAnalysis.

(* ===================================================================== *)
(** * The correlation matrix in binary64 (pandas._libs.algos.nancorr) *)
(* ===================================================================== *)

Module Nancorr.
Import PrimFloat.

Local Open Scope float_scope.











End Nancorr.

(* ===================================================================== *)
(** * Vocabulary of the statements *)
(* ===================================================================== *)

Set Implicit Arguments.

Section Vocabulary.
Import Pandas Metrics Evaluator Preprocessing CorrelationAnalysis.

(** Ascending without repetition, as a predicate on adjacent bounds. *)
Fixpoint increasing_from (lo : Z) (l : list Z) : Prop :=
  match l with
  | [] => True
  | y :: t => (lo < y)%Z /\ increasing_from y t
  end.

(** A list is ascending without repetition. *)
Definition increasing (l : list Z) : Prop :=
  match l with
  | [] => True
  | y :: t => increasing_from y t
  end.

(** What one row adds to the cell [(r, c)]. *)
Definition hit (p : Z * Z) (r c : Z) : nat :=
  if Z.eqb (fst p) r && Z.eqb (snd p) c then 1 else 0.

(** Every column of a frame has one entry per row. *)
Definition well_formed (df : DataFrame) : Prop :=
  Forall (fun c => series_length (snd c) = nrows df) df.

(** Labels drawn from 0 and 1. *)
Definition binary (l : list Z) : Prop :=
  Forall (fun z => z = 0%Z \/ z = 1%Z) l.

(** A seed the generator accepts. *)
Definition valid_seed (seed : Z) : Prop := (0 <= seed < 2 ^ 32)%Z.

(** The four scores of lines 45-48, for labels that pass their checks. *)
Definition scores_of (y_true y_pred : list Z) : Scores :=
  {| accuracy := (Z.of_nat (count_rows Z.eqb y_true y_pred)
                  # Pos.of_nat (List.length y_true))%Q;
     precision := prf_divide (tp_sum y_true y_pred) (pred_sum y_true y_pred);
     recall := prf_divide (tp_sum y_true y_pred) (true_sum y_true y_pred);
     f1 := prf_divide (2 * tp_sum y_true y_pred)
                      (true_sum y_true y_pred + pred_sum y_true y_pred) |}.

(** The two files of a run that reaches line 50 with these labels. *)
Definition outputs (results_to : string) (y_true y_pred : list Z)
  : list (string * FileContent) :=
  [ (path_join results_to "confusion_matrix.csv",
     CrosstabCsv (to_csv (crosstab y_true y_pred "Actual" "Predicted")));
    (path_join results_to "test_scores.csv",
     ScoresCsv (scores_of y_true y_pred)) ].

(** The conditions under which a run on binary labels [y_true] and
    predictions [y_pred] reaches its end. *)
Record evaluator_input (test : DataFrame) (fit : Pipeline) (seed : Z)
                       (y_true y_pred : list Z) : Prop := {
  input_well_formed : well_formed test;
  input_seed : valid_seed seed;
  input_actual : exists death_event,
      getitem test "DEATH_EVENT" = Ok death_event
      /\ labels death_event = Ok y_true;
  input_predicted : predict fit (mkRandomState seed) test = Ok y_pred;
  input_one_per_row : List.length y_pred = nrows test;
  input_actual_binary : binary y_true;
  input_predicted_binary : binary y_pred
}.

(** Rows with a given actual and predicted label. *)
Definition rows_where (a p : Z) (y_true y_pred : list Z) : nat :=
  count_rows (fun x y => Z.eqb x a && Z.eqb y p) y_true y_pred.

(** True positives, false positives, false negatives, true negatives. *)
Definition TP := rows_where 1 1.
Definition FP := rows_where 0 1.
Definition FN := rows_where 1 0.
Definition TN := rows_where 0 0.

(** A natural number as a rational. *)
Definition QN (n : nat) : Q := inject_Z (Z.of_nat n).

(** The column has dtype [bool]. *)
Definition is_bool_dtype (s : Series) : bool :=
  match s with BoolCol _ => true | _ => false end.

(** A column the transformer can use: present and with at least one row. *)
Definition usable (X : DataFrame) (c : string) : Prop :=
  exists s, getitem X c = Ok s /\ series_length s <> 0.

(** A column the encoder can use: moreover boolean. *)
Definition usable_bool (X : DataFrame) (c : string) : Prop :=
  exists l, getitem X c = Ok (BoolCol l) /\ l <> [].

(** The frames a call can work on: the listed columns are in both, the
    test frame has every column of the training frame, and no column is
    empty. *)
Record well_shaped (st : Frames) (num bin : list string) : Prop := {
  shaped_train : forall c, In c (num ++ bin) -> has_column (train_df st) c = true;
  shaped_test : forall c, has_column (train_df st) c = true ->
                          has_column (test_df st) c = true;
  shaped_train_rows : forall c s, getitem (train_df st) c = Ok s ->
                                  series_length s <> 0;
  shaped_test_rows : forall c s, getitem (test_df st) c = Ok s ->
                                 series_length s <> 0
}.

(** No column of the frame is empty. *)
Definition nonempty_columns (df : DataFrame) : bool :=
  forallb (fun cs => negb (Nat.eqb (series_length (snd cs)) 0)) df.

(** What the encoded block [blk] of a binary column [c] must be, when the
    encoder saw the column of [train] and encodes the column of [X]:
    - if both values were seen, the block is the single column for [True],
      1 where the value is true and 0 elsewhere;
    - every entry of the block is 0 or 1;
    - a row whose value was not seen is 0 in every column of the block. *)
Definition one_hot (train X : DataFrame) (c : string)
                   (blk : list (string * list R)) : Prop :=
  exists seen values,
    getitem train c = Ok (BoolCol seen)
    /\ getitem X c = Ok (BoolCol values)
    /\ (In false seen -> In true seen ->
        blk = [ (("onehotencoder__" ++ c ++ "_True")%string,
                 map (fun b : bool => if b then 1%R else 0%R) values) ])
    /\ (forall col x, In col blk -> In x (snd col) -> x = 0%R \/ x = 1%R)
    /\ (forall i v, nth_error values i = Some v -> ~ In v seen ->
        forall col, In col blk -> nth_error (snd col) i = Some 0%R).

(** Population variance of a column of reals. *)
Definition Rvar (x : list R) : R := (ssqdm x / INR (List.length x))%R.

(** The ages 40, 50, 60 standardised with their own mean and variance. *)
Definition schema_age_scaled : list R :=
  map (standardize (mkScaler (Qmean (map inject_Z [40; 50; 60]%Z))
                             (Qvar (map inject_Z [40; 50; 60]%Z))
                             (List.length (map inject_Z [40; 50; 60]%Z))))
      (map inject_Z [40; 50; 60]%Z).

(** A cell of a cross-tabulation, a cell that is not in the table read
    as 0. *)
Definition cell_or_zero (t : Crosstab) (r c : Z) : nat :=
  match cell t r c with
  | Some n => n
  | None => 0
  end.





End Vocabulary.

Unset Implicit Arguments.

(* ===================================================================== *)
(** * Sample inputs *)
(* ===================================================================== *)

Module Samples.
Import Pandas Evaluator.

(** A four-row test set; [DEATH_EVENT] is the outcome. *)
Definition test4 : DataFrame :=
[ ("age"%string, FloatCol [75#1; 55#1; 65#1; 50#1]%Q);
  ("ejection_fraction"%string, IntCol [20; 60; 38; 45]%Z);
  ("DEATH_EVENT"%string, IntCol [1; 0; 1; 0]%Z) ].

(** A fitted pipeline that predicts death below an ejection fraction of
    30 and never draws a random number. *)
Definition threshold_pipeline : Pipeline :=
{| predict := fun _ df =>
     match getitem df "ejection_fraction" with
     | Ok (IntCol l) => Ok (map (fun z => if Z.ltb z 30 then 1%Z else 0%Z) l)
     | Ok _ => Raise (ValueError "could not convert column")
     | Raise e => Raise e
     end |}.

(** A two-row test set on which the pipeline above predicts 0 throughout. *)
Definition test2 : DataFrame :=
[ ("ejection_fraction"%string, IntCol [60; 45]%Z);
  ("DEATH_EVENT"%string, IntCol [1; 0]%Z) ].

End Samples.

Module CorrelationSamples.
Import Pandas Preprocessing CorrelationAnalysis.

(** Five training rows with one numeric and one binary column. *)
Definition small_train : DataFrame :=
[ ("age"%string, IntCol [40; 50; 60; 70; 80]%Z);
  ("sex"%string, IntCol [0; 1; 0; 1; 0]%Z);
  ("DEATH_EVENT"%string, IntCol [1; 0; 0; 1; 0]%Z) ].

Definition small_test : DataFrame :=
[ ("age"%string, IntCol [45; 65]%Z);
  ("sex"%string, IntCol [1; 0]%Z);
  ("DEATH_EVENT"%string, IntCol [0; 1]%Z) ].

(** Training rows in which every subject has [sex = 0]. *)
Definition one_sex_train : DataFrame :=
[ ("age"%string, IntCol [40; 50; 60]%Z);
  ("sex"%string, IntCol [0; 0; 0]%Z);
  ("DEATH_EVENT"%string, IntCol [1; 0; 0]%Z) ].

(** Three training rows with the full schema; [time] repeats [age]. *)
Definition schema_train : DataFrame :=
[ ("age"%string, IntCol [40; 50; 60]%Z);
  ("anaemia"%string, IntCol [0; 1; 0]%Z);
  ("creatinine_phosphokinase"%string, IntCol [582; 7861; 146]%Z);
  ("diabetes"%string, IntCol [0; 0; 1]%Z);
  ("ejection_fraction"%string, IntCol [20; 38; 25]%Z);
  ("high_blood_pressure"%string, IntCol [1; 0; 0]%Z);
  ("platelets"%string, FloatCol [265000 # 1; 26335803 # 100; 162000 # 1]%Q);
  ("serum_creatinine"%string, FloatCol [19 # 10; 11 # 10; 13 # 10]%Q);
  ("serum_sodium"%string, IntCol [130; 136; 129]%Z);
  ("sex"%string, IntCol [1; 1; 0]%Z);
  ("smoking"%string, IntCol [0; 0; 1]%Z);
  ("time"%string, IntCol [40; 50; 60]%Z);
  ("DEATH_EVENT"%string, IntCol [1; 1; 0]%Z) ].

Definition schema_test : DataFrame :=
[ ("age"%string, IntCol [65; 45]%Z);
  ("anaemia"%string, IntCol [1; 0]%Z);
  ("creatinine_phosphokinase"%string, IntCol [160; 2413]%Z);
  ("diabetes"%string, IntCol [1; 0]%Z);
  ("ejection_fraction"%string, IntCol [20; 38]%Z);
  ("high_blood_pressure"%string, IntCol [0; 0]%Z);
  ("platelets"%string, FloatCol [327000 # 1; 140000 # 1]%Q);
  ("serum_creatinine"%string, FloatCol [27 # 10; 14 # 10]%Q);
  ("serum_sodium"%string, IntCol [116; 140]%Z);
  ("sex"%string, IntCol [0; 1]%Z);
  ("smoking"%string, IntCol [0; 1]%Z);
  ("time"%string, IntCol [8; 280]%Z);
  ("DEATH_EVENT"%string, IntCol [1; 0]%Z) ].

Definition empty_world : World :=
{| stdout := []; stderr := []; dirs := []; files := []; shown := [] |}.

(** A Pearson instance of the statistic of the disabled check: the number
    of pairs of distinct columns whose absolute correlation is above the
    threshold. *)
Definition above (threshold : Q) (x y : list R) : bool :=
  match pearson x y with
  | Some r => if Rlt_dec (Q2R threshold) (Rabs r) then true else false
  | None => false
  end.

Fixpoint pearson_pairs_above (t : Table) (threshold : Q) : nat :=
  match t with
  | [] => 0
  | c :: rest =>
      List.length (filter (fun d => above threshold (snd c) (snd d)) rest)
      + pearson_pairs_above rest threshold
  end.

End CorrelationSamples.

(* ===================================================================== *)
(** * Facts about the data-frame operations *)
(* ===================================================================== *)

Section PandasFacts.
Import Pandas.

Lemma getitem_setitem_same (df : DataFrame) (name : string) (s : Series) :
  getitem (setitem df name s) name = Ok s.
Proof.
  induction df as [| [n old] rest IH]; simpl.
  - now rewrite String.eqb_refl.
  - destruct (String.eqb n name) eqn:E; simpl; rewrite E; auto.
Qed.

Lemma getitem_setitem_other (df : DataFrame) (name other : string) (s : Series) :
  name <> other ->
  getitem (setitem df name s) other = getitem df other.
Proof.
  intros Hne.
  induction df as [| [n old] rest IH]; simpl.
  - apply String.eqb_neq in Hne. now rewrite Hne.
  - destruct (String.eqb n name) eqn:E; simpl.
    + apply String.eqb_eq in E; subst n.
      apply String.eqb_neq in Hne. now rewrite Hne.
    + destruct (String.eqb n other); auto.
Qed.

Lemma map_fst_setitem_present (df : DataFrame) (name : string) (s : Series) :
  has_column df name = true ->
  map fst (setitem df name s) = map fst df.
Proof.
  unfold has_column.
  induction df as [| [n old] rest IH]; simpl; intros H.
  - discriminate.
  - destruct (String.eqb n name) eqn:E; simpl in *.
    + reflexivity.
    + now rewrite IH.
Qed.

Lemma has_column_setitem (df : DataFrame) (name other : string) (s : Series) :
  has_column df other = true ->
  has_column (setitem df name s) other = true.
Proof.
  unfold has_column.
  induction df as [| [n old] rest IH]; simpl; intros H.
  - discriminate.
  - destruct (String.eqb n name) eqn:E; simpl in *; auto.
    apply orb_true_iff in H. apply orb_true_iff.
    destruct H; auto.
Qed.

Lemma getitem_ok_has_column (df : DataFrame) (name : string) (s : Series) :
  getitem df name = Ok s -> has_column df name = true.
Proof.
  unfold has_column.
  induction df as [| [n old] rest IH]; simpl; intros H.
  - discriminate.
  - destruct (String.eqb n name); auto.
Qed.

(** *** [unique] lists each value once *)

Lemma in_insert_unique (x y : Z) (l : list Z) :
  In y (insert_unique x l) <-> y = x \/ In y l.
Proof.
  induction l as [| z t IH]; simpl.
  - intuition.
  - destruct (Z.compare_spec x z) as [E | L | G]; simpl.
    + subst. intuition.
    + intuition.
    + rewrite IH. intuition.
Qed.

Lemma in_unique (y : Z) (l : list Z) : In y (unique l) <-> In y l.
Proof.
  induction l as [| x t IH]; simpl.
  - reflexivity.
  - rewrite in_insert_unique, IH. intuition.
Qed.

Lemma increasing_from_insert (lo x : Z) (l : list Z) :
  (lo < x)%Z -> increasing_from lo l -> increasing_from lo (insert_unique x l).
Proof.
  revert lo.
  induction l as [| z t IH]; simpl; intros lo Hx Hl.
  - auto.
  - destruct Hl as [Hz Ht].
    destruct (Z.compare_spec x z) as [E | L | G]; simpl; auto.
Qed.

Lemma increasing_insert (x : Z) (l : list Z) :
  increasing l -> increasing (insert_unique x l).
Proof.
  destruct l as [| z t]; simpl; intros H.
  - exact I.
  - destruct (Z.compare_spec x z) as [E | L | G]; simpl; auto.
    now apply increasing_from_insert.
Qed.

Lemma increasing_unique (l : list Z) : increasing (unique l).
Proof.
  induction l as [| x t IH]; simpl.
  - exact I.
  - now apply increasing_insert.
Qed.

Lemma increasing_from_bound (lo : Z) (l : list Z) :
  increasing_from lo l -> forall y, In y l -> (lo < y)%Z.
Proof.
  revert lo.
  induction l as [| z t IH]; simpl; intros lo H y Hy.
  - contradiction.
  - destruct H as [Hz Ht]. destruct Hy as [-> | Hy]; auto.
    specialize (IH z Ht y Hy). lia.
Qed.

Lemma increasing_from_NoDup (lo : Z) (l : list Z) :
  increasing_from lo l -> NoDup l.
Proof.
  revert lo.
  induction l as [| z t IH]; simpl; intros lo H.
  - constructor.
  - destruct H as [Hz Ht]. constructor.
    + intros Hin. pose proof (increasing_from_bound _ _ Ht _ Hin). lia.
    + eapply IH; eauto.
Qed.

Lemma NoDup_unique (l : list Z) : NoDup (unique l).
Proof.
  pose proof (increasing_unique l) as H.
  destruct (unique l) as [| z t]; simpl in H.
  - constructor.
  - constructor.
    + intros Hin. pose proof (increasing_from_bound _ _ H _ Hin). lia.
    + eapply increasing_from_NoDup; eauto.
Qed.

(** *** Every row falls in one cell *)

Lemma count_pair_cons (p : Z * Z) (pairs : list (Z * Z)) (r c : Z) :
  count_pair (p :: pairs) r c = hit p r c + count_pair pairs r c.
Proof.
  unfold count_pair, hit; simpl.
  destruct (Z.eqb (fst p) r && Z.eqb (snd p) c); reflexivity.
Qed.

Lemma list_sum_map_add {A : Type} (f g : A -> nat) (l : list A) :
  list_sum (map (fun a => f a + g a) l)
  = list_sum (map f l) + list_sum (map g l).
Proof.
  induction l as [| a t IH]; simpl; lia.
Qed.

Lemma list_sum_map_zero {A : Type} (f : A -> nat) (l : list A) :
  (forall a, In a l -> f a = 0) -> list_sum (map f l) = 0.
Proof.
  induction l as [| a t IH]; simpl; intros H; auto.
  rewrite (H a) by auto. rewrite IH; auto.
Qed.

Lemma list_sum_map_ext {A : Type} (f g : A -> nat) (l : list A) :
  (forall a, In a l -> f a = g a) -> list_sum (map f l) = list_sum (map g l).
Proof.
  induction l as [| a t IH]; simpl; intros H.
  - reflexivity.
  - rewrite (H a) by auto. rewrite IH; auto.
Qed.

(** Over keys without repetition, a value that is among them is hit
    exactly once. *)
Lemma hit_once (x : Z) (keys : list Z) :
  NoDup keys -> In x keys ->
  list_sum (map (fun k => if Z.eqb x k then 1 else 0) keys) = 1.
Proof.
  induction keys as [| k t IH]; simpl; intros Hnd Hin.
  - contradiction.
  - inversion Hnd as [| ? ? Hk Ht]; subst.
    destruct (Z.eqb_spec x k) as [-> | Hne].
    + rewrite list_sum_map_zero; auto.
      intros a Ha. destruct (Z.eqb_spec k a); auto. subst; contradiction.
    + destruct Hin as [-> | Hin]; [congruence |].
      now rewrite IH.
Qed.

Lemma hit_row_sum (p : Z * Z) (rs cs : list Z) :
  NoDup rs -> NoDup cs -> In (fst p) rs -> In (snd p) cs ->
  list_sum (map (fun r => list_sum (map (fun c => hit p r c) cs)) rs) = 1.
Proof.
  intros Hr Hc Hir Hic.
  rewrite (list_sum_map_ext _ (fun r => if Z.eqb (fst p) r then 1 else 0)).
  - now apply hit_once.
  - intros r _. unfold hit.
    destruct (Z.eqb (fst p) r); simpl.
    + now apply hit_once.
    + apply list_sum_map_zero. auto.
Qed.

Lemma cells_sum (pairs : list (Z * Z)) (rs cs : list Z) :
  NoDup rs -> NoDup cs ->
  (forall p, In p pairs -> In (fst p) rs /\ In (snd p) cs) ->
  list_sum (map (fun r => list_sum (map (fun c => count_pair pairs r c) cs)) rs)
  = List.length pairs.
Proof.
  intros Hr Hc.
  induction pairs as [| p t IH]; intros Hin.
  - apply list_sum_map_zero. intros r _.
    apply list_sum_map_zero. reflexivity.
  - rewrite (list_sum_map_ext _
      (fun r => list_sum (map (fun c => hit p r c) cs)
                + list_sum (map (fun c => count_pair t r c) cs))).
    + rewrite list_sum_map_add, IH.
      * destruct (Hin p (or_introl eq_refl)) as [H1 H2].
        rewrite hit_row_sum; auto.
      * intros q Hq. apply Hin. now right.
    + intros r _. rewrite <- list_sum_map_add.
      apply list_sum_map_ext. intros c _. apply count_pair_cons.
Qed.

(** [to_csv] leaves the keys and the cells as they are. *)
Lemma index_to_csv (t : Crosstab) : index (to_csv t) = index t.
Proof. reflexivity. Qed.

Lemma columns_to_csv (t : Crosstab) : columns (to_csv t) = columns t.
Proof. reflexivity. Qed.

Lemma cell_to_csv (t : Crosstab) (r c : Z) : cell (to_csv t) r c = cell t r c.
Proof. reflexivity. Qed.

Lemma total_to_csv (t : Crosstab) : total (to_csv t) = total t.
Proof. reflexivity. Qed.


Lemma total_crosstab (idx cols : list Z) (rname cname : string) :
  total (crosstab idx cols rname cname) = List.length (combine idx cols).
Proof.
  unfold total, crosstab; simpl.
  rewrite map_map.
  apply cells_sum; auto using NoDup_unique.
  intros p Hp. rewrite !in_unique. split; now apply in_map.
Qed.

End PandasFacts.

(* ===================================================================== *)
(** * Facts about the evaluation script *)
(* ===================================================================== *)

Set Implicit Arguments.

Section EvaluatorFacts.
Import Pandas Metrics Evaluator.

Local Open Scope result_scope.

Lemma np_random_seed_valid (seed : Z) :
  valid_seed seed -> np_random_seed seed = Ok (mkRandomState seed).
Proof.
  unfold valid_seed, np_random_seed. intros [H1 H2].
  apply Z.leb_le in H1. apply Z.ltb_lt in H2. now rewrite H1, H2.
Qed.

Lemma np_random_seed_invalid (seed : Z) :
  ~ valid_seed seed -> np_random_seed seed = Raise (ValueError seed_msg).
Proof.
  unfold valid_seed, np_random_seed. intros H.
  destruct (Z.leb_spec 0 seed), (Z.ltb_spec seed (2 ^ 32)); simpl; auto; lia.
Qed.

(** [main], with the frame bookkeeping of lines 35-43 carried out. *)
Lemma main_steps (test : DataFrame) (fit : Pipeline) (dir : string) (seed : Z) :
  main test fit dir seed =
  let* rng := np_random_seed seed in
  let* y_pred := predict fit rng test in
  if Nat.eqb (List.length y_pred) (nrows test) then
    let* death_event := getitem test "DEATH_EVENT" in
    let* y_true := labels death_event in
    let* _ := check_consistent_length y_true y_pred in
    let* _ := check_binary y_true y_pred in
    Ok (outputs dir y_true y_pred)
  else Raise (ValueError assign_msg).
Proof.
  unfold main.
  destruct (np_random_seed seed) as [rng |]; simpl; auto.
  destruct (predict fit rng test) as [y_pred |]; simpl; auto.
  unfold assign.
  destruct (Nat.eqb (List.length y_pred) (nrows test)); simpl; auto.
  rewrite getitem_setitem_other by discriminate.
  rewrite getitem_setitem_same.
  destruct (getitem test "DEATH_EVENT") as [de |]; simpl; auto.
  destruct (labels de) as [y_true |]; simpl; auto.
  unfold accuracy_score, precision_score, recall_score, f1_score.
  destruct (check_consistent_length y_true y_pred) as [[] |]; simpl; auto.
  destruct (check_binary y_true y_pred) as [[] |]; simpl; auto.
Qed.

Lemma labels_length (s : Series) (l : list Z) :
  labels s = Ok l -> List.length l = series_length s.
Proof.
  destruct s as [zs | qs | bs]; simpl.
  - now intros [= <-].
  - destruct (forallb is_integral qs); intros [= <-]. apply length_map.
  - intros [= <-]. apply length_map.
Qed.

Lemma getitem_in (df : DataFrame) (name : string) (s : Series) :
  getitem df name = Ok s -> In (name, s) df.
Proof.
  induction df as [| [n old] rest IH]; simpl.
  - discriminate.
  - destruct (String.eqb_spec n name) as [-> |].
    + intros [= ->]. now left.
    + intros H. right. auto.
Qed.

Lemma getitem_length (df : DataFrame) (name : string) (s : Series) :
  well_formed df -> getitem df name = Ok s -> series_length s = nrows df.
Proof.
  intros Hwf Hget. apply getitem_in in Hget.
  unfold well_formed in Hwf. rewrite Forall_forall in Hwf.
  exact (Hwf _ Hget).
Qed.

(** *** Binary labels pass the checks of the scores *)

Lemma binary_app (a b : list Z) : binary a -> binary b -> binary (a ++ b).
Proof. unfold binary. intros. apply Forall_app. auto. Qed.

Lemma binary_unique (l : list Z) : binary l -> binary (unique l).
Proof.
  unfold binary. rewrite !Forall_forall. intros H x Hx.
  apply H. now apply in_unique.
Qed.

(** An ascending list of binary labels is one of four. *)
Lemma binary_increasing_cases (l : list Z) :
  binary l -> increasing l ->
  l = [] \/ l = [0%Z] \/ l = [1%Z] \/ l = [0%Z; 1%Z].
Proof.
  unfold binary. intros Hb Hi.
  destruct l as [| a [| b [| c t]]]; auto.
  - inversion Hb as [| ? ? Ha _]; subst. destruct Ha; subst; auto.
  - inversion Hb as [| ? ? Ha Hb']; subst.
    inversion Hb' as [| ? ? Hb0 _]; subst.
    simpl in Hi. destruct Hi as [Hlt _].
    destruct Ha, Hb0; subst; auto; lia.
  - exfalso.
    inversion Hb as [| ? ? Ha Hb']; subst.
    inversion Hb' as [| ? ? Hb0 Hb'']; subst.
    inversion Hb'' as [| ? ? Hc _]; subst.
    simpl in Hi. destruct Hi as [H1 [H2 _]].
    destruct Ha, Hb0, Hc; subst; lia.
Qed.

Lemma unique_binary_cases (l : list Z) :
  binary l ->
  unique l = [] \/ unique l = [0%Z] \/ unique l = [1%Z]
  \/ unique l = [0%Z; 1%Z].
Proof.
  intros H. apply binary_increasing_cases.
  - now apply binary_unique.
  - apply increasing_unique.
Qed.

Lemma check_binary_ok (y_true y_pred : list Z) :
  binary y_true -> binary y_pred -> check_binary y_true y_pred = Ok tt.
Proof.
  intros Ht Hp. unfold check_binary.
  destruct (unique_binary_cases (binary_app Ht Hp))
    as [E | [E | [E | E]]]; rewrite E; reflexivity.
Qed.

Lemma evaluator_input_lengths test fit seed y_true y_pred :
  evaluator_input test fit seed y_true y_pred ->
  List.length y_true = nrows test /\ List.length y_pred = nrows test.
Proof.
  intros [Hwf _ [de [Hget Hlab]] _ Hlen _ _]. split; auto.
  rewrite (labels_length _ Hlab). eapply getitem_length; eauto.
Qed.

Lemma main_succeeds test fit dir seed y_true y_pred :
  evaluator_input test fit seed y_true y_pred ->
  main test fit dir seed = Ok (outputs dir y_true y_pred).
Proof.
  intros Hin.
  destruct (evaluator_input_lengths Hin) as [L1 L2].
  destruct Hin as [Hwf Hseed [de [Hget Hlab]] Hpred Hlen Hbt Hbp].
  rewrite main_steps, (np_random_seed_valid Hseed); simpl.
  rewrite Hpred; simpl.
  rewrite Hlen, Nat.eqb_refl, Hget; simpl.
  rewrite Hlab; simpl.
  unfold check_consistent_length.
  rewrite L1, Hlen, Nat.eqb_refl; simpl.
  now rewrite check_binary_ok.
Qed.

End EvaluatorFacts.

(* ===================================================================== *)
(** * Properties of the evaluation script *)
(* ===================================================================== *)

Section EvaluatorProperties.
Import Pandas Metrics Evaluator Samples.

(** Decides [binary] on a literal list. *)
Ltac binary_literal :=
  unfold binary;
  repeat first [ apply Forall_nil
               | apply Forall_cons; [ first [ left; reflexivity | right; reflexivity ] | ] ].

Lemma threshold_pipeline_deterministic : deterministic threshold_pipeline.
Proof. intros g1 g2 df. reflexivity. Qed.

Lemma test4_input :
  evaluator_input test4 threshold_pipeline 123 [1; 0; 1; 0]%Z [1; 0; 0; 0]%Z.
Proof.
  constructor.
  - repeat constructor.
  - unfold valid_seed. lia.
  - exists (IntCol [1; 0; 1; 0]%Z). split; reflexivity.
  - reflexivity.
  - reflexivity.
  - binary_literal.
  - binary_literal.
Defined.

Lemma test2_input :
  evaluator_input test2 threshold_pipeline 123 [1; 0]%Z [0; 0]%Z.
Proof.
  constructor.
  - repeat constructor.
  - unfold valid_seed. lia.
  - exists (IntCol [1; 0]%Z). split; reflexivity.
  - reflexivity.
  - reflexivity.
  - binary_literal.
  - binary_literal.
Defined.

(** ** The seed *)

(** C2, as stated, fails: the pipeline is deterministic, yet seed 123
    writes both files while seed -1 is refused by [np.random.seed] at line
    24 and writes nothing. *)
Lemma C2_seed_out_of_range_counterexample :
  deterministic threshold_pipeline
  /\ main test4 threshold_pipeline "results" 123
     = Ok (outputs "results" [1; 0; 1; 0]%Z [1; 0; 0; 0]%Z)
  /\ main test4 threshold_pipeline "results" (-1)
     = Raise (ValueError seed_msg)
  /\ main test4 threshold_pipeline "results" 123
     <> main test4 threshold_pipeline "results" (-1).
Proof.
  split; [exact threshold_pipeline_deterministic |].
  split; [apply main_succeeds; exact test4_input |].
  split; [reflexivity |].
  rewrite (main_succeeds "results" test4_input). discriminate.
Qed.

(** C2 (amended): for every test set, every deterministic pipeline and any
    two seeds in [0, 2^32 - 1], the run is the same: the same two files
    with the same contents, or the same exception.  A seed outside that
    range raises [ValueError] before anything is written. *)
Theorem C2_seed_has_no_effect
  (test : DataFrame) (fit : Pipeline) (dir : string) (seed1 seed2 : Z) :
  deterministic fit ->
  (valid_seed seed1 -> valid_seed seed2 ->
   main test fit dir seed1 = main test fit dir seed2)
  /\ (~ valid_seed seed1 ->
      main test fit dir seed1 = Raise (ValueError seed_msg)).
Proof.
  intros Hdet. split.
  - intros H1 H2.
    rewrite !main_steps.
    rewrite (np_random_seed_valid H1), (np_random_seed_valid H2); simpl.
    now rewrite (Hdet (mkRandomState seed1) (mkRandomState seed2) test).
  - intros H. rewrite main_steps, (np_random_seed_invalid H). reflexivity.
Qed.

Lemma C2_seed_has_no_effect_witness :
  deterministic threshold_pipeline
  /\ main test4 threshold_pipeline "results" 123
     = main test4 threshold_pipeline "results" 7.
Proof.
  split.
  - exact threshold_pipeline_deterministic.
  - apply (C2_seed_has_no_effect test4 "results" 123 7
             threshold_pipeline_deterministic);
      unfold valid_seed; lia.
Defined.

(** ** The confusion matrix *)

Lemma map_fst_combine_eq {A B : Type} (a : list A) (b : list B) :
  List.length a = List.length b -> map fst (combine a b) = a.
Proof.
  revert b. induction a as [| x t IH]; destruct b as [| y u]; simpl;
    intros H; try discriminate; auto.
  f_equal. apply IH. lia.
Qed.

Lemma map_snd_combine_eq {A B : Type} (a : list A) (b : list B) :
  List.length a = List.length b -> map snd (combine a b) = b.
Proof.
  revert b. induction a as [| x t IH]; destruct b as [| y u]; simpl;
    intros H; try discriminate; auto.
  f_equal. apply IH. lia.
Qed.

Lemma crosstab_axes (y_true y_pred : list Z) (r c : string) :
  List.length y_true = List.length y_pred ->
  index (crosstab y_true y_pred r c) = unique y_true
  /\ columns (crosstab y_true y_pred r c) = unique y_pred
  /\ shape (crosstab y_true y_pred r c)
     = (List.length (unique y_true), List.length (unique y_pred)).
Proof.
  intros H. unfold shape, crosstab; simpl.
  rewrite length_map, (map_fst_combine_eq _ _ H), (map_snd_combine_eq _ _ H).
  auto.
Qed.






(** A run that writes its files had one prediction per row and as many
    actual labels. *)
Lemma main_ok_inv (test : DataFrame) (fit : Pipeline) (dir : string) (seed : Z)
      (written : list (string * FileContent)) :
  main test fit dir seed = Ok written ->
  exists y_true y_pred,
    written = outputs dir y_true y_pred
    /\ List.length y_pred = nrows test
    /\ List.length y_true = List.length y_pred.
Proof.
  rewrite main_steps. intros H.
  destruct (np_random_seed seed) as [rng |]; simpl in H; try discriminate.
  destruct (predict fit rng test) as [y_pred |]; simpl in H; try discriminate.
  destruct (Nat.eqb_spec (List.length y_pred) (nrows test)) as [L |];
    try discriminate.
  destruct (getitem test "DEATH_EVENT") as [de |]; simpl in H; try discriminate.
  destruct (labels de) as [y_true |]; simpl in H; try discriminate.
  unfold check_consistent_length in H.
  destruct (Nat.eqb_spec (List.length y_true) (List.length y_pred)) as [L' |];
    simpl in H; try discriminate.
  destruct (check_binary y_true y_pred) as [[] |]; simpl in H; try discriminate.
  injection H as <-. exists y_true, y_pred. auto.
Qed.

(** C4: for every test set with N rows, the cells of the matrix written
    sum to N.  This holds of every run that writes its files, and a run on
    a well-formed frame with one binary prediction per row does write
    them. *)
Theorem C4_confusion_matrix_total
  (test : DataFrame) (fit : Pipeline) (dir : string) (seed : Z) :
  (forall written,
      main test fit dir seed = Ok written ->
      exists cm sc,
        written
        = [ (path_join dir "confusion_matrix.csv", CrosstabCsv cm);
            (path_join dir "test_scores.csv", ScoresCsv sc) ]
        /\ total cm = nrows test)
  /\ (forall y_true y_pred,
        evaluator_input test fit seed y_true y_pred ->
        exists written, main test fit dir seed = Ok written).
Proof.
  split.
  - intros written H.
    destruct (main_ok_inv _ _ _ _ H) as [y_true [y_pred [-> [L1 L2]]]].
    exists (to_csv (crosstab y_true y_pred "Actual" "Predicted")),
           (scores_of y_true y_pred).
    split; [reflexivity |].
    rewrite total_to_csv, total_crosstab, length_combine. lia.
  - intros y_true y_pred Hin.
    exists (outputs dir y_true y_pred). exact (main_succeeds dir Hin).
Qed.

Lemma C4_confusion_matrix_total_witness :
  exists cm sc,
    main test4 threshold_pipeline "results" 123
    = Ok [ (path_join "results" "confusion_matrix.csv", CrosstabCsv cm);
           (path_join "results" "test_scores.csv", ScoresCsv sc) ]
    /\ total cm = nrows test4.
Proof.
  destruct (proj2 (C4_confusion_matrix_total test4 threshold_pipeline
                     "results" 123) _ _ test4_input) as [written Hw].
  destruct (proj1 (C4_confusion_matrix_total test4 threshold_pipeline
                     "results" 123) written Hw) as [cm [sc [E T]]].
  exists cm, sc. split; [congruence | exact T].
Defined.

(** ** The scores *)

Lemma binary_counts (y_true y_pred : list Z) :
  binary y_true -> binary y_pred ->
  tp_sum y_true y_pred = TP y_true y_pred
  /\ pred_sum y_true y_pred = TP y_true y_pred + FP y_true y_pred
  /\ true_sum y_true y_pred = TP y_true y_pred + FN y_true y_pred
  /\ count_rows Z.eqb y_true y_pred = TP y_true y_pred + TN y_true y_pred
  /\ List.length (combine y_true y_pred)
     = TP y_true y_pred + FP y_true y_pred
       + FN y_true y_pred + TN y_true y_pred.
Proof.
  unfold TP, FP, FN, TN, rows_where, tp_sum, pred_sum, true_sum, count_rows,
    pos_label, binary.
  intros Ht. revert y_pred.
  induction Ht as [| a t Ha Ht IH]; intros y_pred Hp.
  - simpl. auto.
  - destruct Hp as [| p u Hp Hu].
    + simpl. auto.
    + specialize (IH u Hu). simpl.
      destruct Ha, Hp; subst; simpl; lia.
Qed.

Lemma Zpos_of_nat (n : nat) : n <> 0 -> Z.pos (Pos.of_nat n) = Z.of_nat n.
Proof.
  intros H. rewrite <- positive_nat_Z, Nat2Pos.id; auto.
Qed.

Lemma prf_divide_ratio (num den : nat) :
  (prf_divide num den == QN num / QN den)%Q.
Proof.
  unfold prf_divide, QN.
  destruct (Nat.eqb_spec den 0) as [-> | Hne].
  - simpl. unfold Qdiv, Qinv; simpl. ring.
  - rewrite Qmake_Qdiv, Zpos_of_nat; auto. reflexivity.
Qed.

Lemma prf_divide_zero_den (num : nat) : prf_divide num 0 = 0%Q.
Proof. reflexivity. Qed.

Lemma prf_divide_bounds (num den : nat) :
  num <= den -> (0 <= prf_divide num den <= 1)%Q.
Proof.
  intros H. unfold prf_divide.
  destruct (Nat.eqb_spec den 0) as [-> | Hne].
  - split; unfold Qle; simpl; lia.
  - split; unfold Qle; simpl; rewrite ?Zpos_of_nat; auto; lia.
Qed.

Lemma QN_pos (n : nat) : n <> 0 -> (0 < QN n)%Q.
Proof.
  intros H. unfold QN. rewrite <- (Zlt_Qlt 0). lia.
Qed.

Lemma QN_add (a b : nat) : (QN (a + b) == QN a + QN b)%Q.
Proof. unfold QN. now rewrite Nat2Z.inj_add, inject_Z_plus. Qed.

Lemma QN_double (a : nat) : (QN (2 * a) == 2 * QN a)%Q.
Proof.
  unfold QN. rewrite Nat2Z.inj_mul, inject_Z_mult. reflexivity.
Qed.

(** [2 tp / (true + pred)] is the harmonic mean of [tp / pred] and
    [tp / true]. *)
Lemma f1_harmonic (tp pred true : nat) :
  tp <= pred -> tp <= true ->
  (prf_divide (2 * tp) (true + pred)
   == 2 * prf_divide tp pred * prf_divide tp true
      / (prf_divide tp pred + prf_divide tp true))%Q.
Proof.
  intros Hp Ht.
  destruct (Nat.eq_dec tp 0) as [-> | Htp].
  - assert (Z1 : (prf_divide 0 pred == 0)%Q).
    { unfold prf_divide. destruct (Nat.eqb pred 0); reflexivity. }
    assert (Z2 : (prf_divide 0 true == 0)%Q).
    { unfold prf_divide. destruct (Nat.eqb true 0); reflexivity. }
    assert (Z3 : (prf_divide (2 * 0) (true + pred) == 0)%Q).
    { unfold prf_divide. simpl. destruct (Nat.eqb (true + pred) 0); reflexivity. }
    rewrite Z1, Z2, Z3. reflexivity.
  - rewrite !prf_divide_ratio, QN_double, QN_add.
    pose proof (@QN_pos tp Htp) as H1.
    pose proof (@QN_pos pred ltac:(lia)) as H2.
    pose proof (@QN_pos true ltac:(lia)) as H3.
    set (x := QN tp) in *. set (y := QN pred) in *. set (z := QN true) in *.
    field. repeat split; try nra.
Qed.

(** C5: on a non-empty test set with binary labels, accuracy is the
    fraction of correct rows, precision is TP/(TP+FP) and is 0 when no row
    is predicted positive, recall is TP/(TP+FN), f1 is the harmonic mean of
    precision and recall; each score is in [0, 1], and f1 is 0 when
    precision and recall both are.  (Rational division by zero is 0, the
    value the library also gives a ratio with no denominator.) *)
Theorem C5_scores
  (test : DataFrame) (fit : Pipeline) (dir : string) (seed : Z)
  (y_true y_pred : list Z) :
  evaluator_input test fit seed y_true y_pred ->
  nrows test <> 0 ->
  exists cm sc,
    main test fit dir seed
    = Ok [ (path_join dir "confusion_matrix.csv", CrosstabCsv cm);
           (path_join dir "test_scores.csv", ScoresCsv sc) ]
    /\ (accuracy sc
        == QN (TP y_true y_pred + TN y_true y_pred) / QN (nrows test))%Q
    /\ (precision sc
        == QN (TP y_true y_pred)
           / QN (TP y_true y_pred + FP y_true y_pred))%Q
    /\ (TP y_true y_pred + FP y_true y_pred = 0 -> precision sc = 0%Q)
    /\ (recall sc
        == QN (TP y_true y_pred)
           / QN (TP y_true y_pred + FN y_true y_pred))%Q
    /\ (f1 sc
        == 2 * precision sc * recall sc / (precision sc + recall sc))%Q
    /\ (0 <= accuracy sc <= 1)%Q
    /\ (0 <= precision sc <= 1)%Q
    /\ (0 <= recall sc <= 1)%Q
    /\ (0 <= f1 sc <= 1)%Q
    /\ ((precision sc == 0)%Q -> (recall sc == 0)%Q -> (f1 sc == 0)%Q).
Proof.
  intros Hin Hne.
  destruct (evaluator_input_lengths Hin) as [L1 L2].
  destruct (binary_counts (input_actual_binary Hin) (input_predicted_binary Hin))
    as [Htp [Hpred [Htrue [Hacc Hlen]]]].
  rewrite length_combine, L1, L2, Nat.min_id in Hlen.
  assert (Hf1 : (f1 (scores_of y_true y_pred)
                 == 2 * precision (scores_of y_true y_pred)
                      * recall (scores_of y_true y_pred)
                    / (precision (scores_of y_true y_pred)
                       + recall (scores_of y_true y_pred)))%Q).
  { simpl. apply f1_harmonic; lia. }
  exists (to_csv (crosstab y_true y_pred "Actual" "Predicted")), (scores_of y_true y_pred).
  split; [exact (main_succeeds dir Hin) |].
  split.
  { simpl. rewrite Qmake_Qdiv, Zpos_of_nat, Hacc, L1 by lia. reflexivity. }
  split.
  { simpl. rewrite prf_divide_ratio, Htp, Hpred. reflexivity. }
  split.
  { intros H0. simpl. rewrite Hpred, H0. reflexivity. }
  split.
  { simpl. rewrite prf_divide_ratio, Htp, Htrue. reflexivity. }
  split; [exact Hf1 |].
  split.
  { simpl. rewrite Hacc, L1.
    split; unfold Qle; simpl; rewrite ?Zpos_of_nat by lia; lia. }
  split; [simpl; apply prf_divide_bounds; lia |].
  split; [simpl; apply prf_divide_bounds; lia |].
  split; [simpl; apply prf_divide_bounds; lia |].
  intros Hp Hr. rewrite Hf1, Hp, Hr. reflexivity.
Qed.

Lemma C5_scores_witness :
  exists cm sc,
    main test4 threshold_pipeline "results" 123
    = Ok [ (path_join "results" "confusion_matrix.csv", CrosstabCsv cm);
           (path_join "results" "test_scores.csv", ScoresCsv sc) ]
    /\ (accuracy sc
        == QN (TP [1; 0; 1; 0]%Z [1; 0; 0; 0]%Z + TN [1; 0; 1; 0]%Z [1; 0; 0; 0]%Z)
           / QN (nrows test4))%Q
    /\ (precision sc
        == QN (TP [1; 0; 1; 0]%Z [1; 0; 0; 0]%Z)
           / QN (TP [1; 0; 1; 0]%Z [1; 0; 0; 0]%Z + FP [1; 0; 1; 0]%Z [1; 0; 0; 0]%Z))%Q
    /\ (TP [1; 0; 1; 0]%Z [1; 0; 0; 0]%Z + FP [1; 0; 1; 0]%Z [1; 0; 0; 0]%Z = 0
        -> precision sc = 0%Q)
    /\ (recall sc
        == QN (TP [1; 0; 1; 0]%Z [1; 0; 0; 0]%Z)
           / QN (TP [1; 0; 1; 0]%Z [1; 0; 0; 0]%Z + FN [1; 0; 1; 0]%Z [1; 0; 0; 0]%Z))%Q
    /\ (f1 sc
        == 2 * precision sc * recall sc / (precision sc + recall sc))%Q
    /\ (0 <= accuracy sc <= 1)%Q
    /\ (0 <= precision sc <= 1)%Q
    /\ (0 <= recall sc <= 1)%Q
    /\ (0 <= f1 sc <= 1)%Q
    /\ ((precision sc == 0)%Q -> (recall sc == 0)%Q -> (f1 sc == 0)%Q).
Proof.
  apply (C5_scores "results" test4_input). simpl. lia.
Defined.

(** C6: on the four rows with actual labels [1,0,1,0] and predicted labels
    [1,0,0,0] the matrix written has the cells (1,1):1, (1,0):1, (0,0):2,
    (0,1):0, and the scores are accuracy 0.75, precision 1.0, recall 0.5
    and f1 = 2/3, which is 0.667 to three decimals. *)
Theorem C6_four_row_scenario
  (test : DataFrame) (fit : Pipeline) (dir : string) (seed : Z) :
  evaluator_input test fit seed [1; 0; 1; 0]%Z [1; 0; 0; 0]%Z ->
  exists cm sc,
    main test fit dir seed
    = Ok [ (path_join dir "confusion_matrix.csv", CrosstabCsv cm);
           (path_join dir "test_scores.csv", ScoresCsv sc) ]
    /\ cell cm 1 1 = Some 1
    /\ cell cm 1 0 = Some 1
    /\ cell cm 0 0 = Some 2
    /\ cell cm 0 1 = Some 0
    /\ shape cm = (2, 2)
    /\ (accuracy sc == 75 # 100)%Q
    /\ (precision sc == 1)%Q
    /\ (recall sc == 5 # 10)%Q
    /\ (f1 sc == 2 # 3)%Q
    /\ (Qabs (f1 sc - (667 # 1000)) <= 1 # 1000)%Q.
Proof.
  intros Hin.
  exists (to_csv (crosstab [1; 0; 1; 0]%Z [1; 0; 0; 0]%Z "Actual" "Predicted")),
         (scores_of [1; 0; 1; 0]%Z [1; 0; 0; 0]%Z).
  split; [exact (main_succeeds dir Hin) |].
  repeat split; try reflexivity.
  vm_compute. discriminate.
Qed.

Lemma C6_four_row_scenario_witness :
  exists cm sc,
    main test4 threshold_pipeline "results" 123
    = Ok [ (path_join "results" "confusion_matrix.csv", CrosstabCsv cm);
           (path_join "results" "test_scores.csv", ScoresCsv sc) ]
    /\ cell cm 1 1 = Some 1
    /\ cell cm 1 0 = Some 1
    /\ cell cm 0 0 = Some 2
    /\ cell cm 0 1 = Some 0
    /\ shape cm = (2, 2)
    /\ (accuracy sc == 75 # 100)%Q
    /\ (precision sc == 1)%Q
    /\ (recall sc == 5 # 10)%Q
    /\ (f1 sc == 2 # 3)%Q
    /\ (Qabs (f1 sc - (667 # 1000)) <= 1 # 1000)%Q.
Proof.
  exact (C6_four_row_scenario "results" test4_input).
Defined.

End EvaluatorProperties.

(* ===================================================================== *)
(** * Facts about preprocessing *)
(* ===================================================================== *)

Section PreprocessingFacts.
Import Pandas Preprocessing CorrelationAnalysis.

Local Open Scope result_scope.

Lemma mapM_ok_inv {A B : Type} (f : A -> result B) (l : list A) (bs : list B) :
  mapM f l = Ok bs -> Forall2 (fun a b => f a = Ok b) l bs.
Proof.
  revert bs. induction l as [| a t IH]; simpl; intros bs H.
  - injection H as <-. constructor.
  - destruct (f a) as [b |] eqn:Ea; simpl in H; try discriminate.
    destruct (mapM f t) as [bs' |] eqn:Et; simpl in H; try discriminate.
    injection H as <-. constructor; auto.
Qed.

Lemma mapM_ok_intro {A B : Type} (f : A -> result B) (l : list A) (bs : list B) :
  Forall2 (fun a b => f a = Ok b) l bs -> mapM f l = Ok bs.
Proof.
  induction 1 as [| a b t bs' Hab _ IH]; simpl.
  - reflexivity.
  - now rewrite Hab, IH.
Qed.

Lemma mapM_total {A B : Type} (f : A -> result B) (l : list A) :
  (forall a, In a l -> exists b, f a = Ok b) ->
  exists bs, mapM f l = Ok bs.
Proof.
  induction l as [| a t IH]; simpl; intros H.
  - now exists [].
  - destruct (H a (or_introl eq_refl)) as [b Hb].
    destruct IH as [bs Hbs]; [intros; apply H; now right |].
    exists (b :: bs). now rewrite Hb, Hbs.
Qed.

(** ** Lines 30-31 *)

Lemma getitems_ok_inv (df : DataFrame) (cols : list string)
      (sel : list (string * Series)) :
  getitems df cols = Ok sel ->
  Forall2 (fun c cs => fst cs = c /\ getitem df c = Ok (snd cs)) cols sel.
Proof.
  unfold getitems. intros H.
  destruct (not_found df cols); [| discriminate].
  apply mapM_ok_inv in H.
  induction H as [| c cs t sel' Hc _ IH]; constructor; auto.
  destruct (getitem df c) as [s |]; simpl in Hc; try discriminate.
  injection Hc as <-. auto.
Qed.

Lemma getitems_names (df : DataFrame) (cols : list string)
      (sel : list (string * Series)) :
  getitems df cols = Ok sel ->
  map fst sel = cols
  /\ Forall (fun cs => getitem df (fst cs) = Ok (snd cs)) sel.
Proof.
  intros H. apply getitems_ok_inv in H.
  induction H as [| c cs t sel' [Hn Hg] _ [IH1 IH2]]; simpl; split; auto.
  - now rewrite Hn, IH1.
  - constructor; auto. now rewrite Hn.
Qed.

Lemma setitems_outside (sel : list (string * Series)) (df : DataFrame) (c : string) :
  ~ In c (map fst sel) -> getitem (setitems df sel) c = getitem df c.
Proof.
  revert df. induction sel as [| [n s] t IH]; simpl; intros df H; auto.
  unfold setitems in *; simpl. rewrite IH by tauto.
  apply getitem_setitem_other. tauto.
Qed.

Lemma setitems_names (sel : list (string * Series)) (df : DataFrame) :
  Forall (fun cs => has_column df (fst cs) = true) sel ->
  map fst (setitems df sel) = map fst df.
Proof.
  revert df. induction sel as [| [n s] t IH]; simpl; intros df H; auto.
  inversion H as [| ? ? Hn Ht]; subst; simpl in *.
  unfold setitems in *; simpl. rewrite IH.
  - now apply map_fst_setitem_present.
  - rewrite Forall_forall in *. intros cs Hcs.
    apply has_column_setitem. auto.
Qed.

(** A column that already holds its cast keeps it while further casts of
    columns of [df0] are assigned. *)
Lemma setitems_keeps_cast (df0 : DataFrame) (c : string) (s : Series)
      (sel : list (string * Series)) (df : DataFrame) :
  getitem df0 c = Ok s ->
  Forall (fun cs => getitem df0 (fst cs) = Ok (snd cs)) sel ->
  getitem df c = Ok (astype_bool s) ->
  getitem (setitems df (astype_bool_all sel)) c = Ok (astype_bool s).
Proof.
  intros H0 Hsel. revert df.
  induction Hsel as [| [n s'] t Hn _ IH]; simpl; intros df H; auto.
  unfold setitems in *; simpl. apply IH.
  destruct (string_dec n c) as [-> | Hne].
  - rewrite getitem_setitem_same. simpl in Hn. congruence.
  - now rewrite getitem_setitem_other.
Qed.

Lemma setitems_inside (df0 : DataFrame) (sel : list (string * Series))
      (df : DataFrame) (c : string) (s : Series) :
  Forall (fun cs => getitem df0 (fst cs) = Ok (snd cs)) sel ->
  In c (map fst sel) -> getitem df0 c = Ok s ->
  getitem (setitems df (astype_bool_all sel)) c = Ok (astype_bool s).
Proof.
  intros Hsel. revert df.
  induction Hsel as [| [n s'] t Hn Ht IH]; simpl; intros df Hin H0.
  - contradiction.
  - destruct (in_dec string_dec c (map fst t)) as [Hc | Hc].
    + unfold setitems in *; simpl. now apply IH.
    + destruct Hin as [-> | Hin]; [| contradiction].
      unfold setitems; simpl.
      apply setitems_keeps_cast with (df0 := df0); auto.
      rewrite getitem_setitem_same. simpl in Hn. congruence.
Qed.

(** What line 30 (or 31) does to a frame. *)
Lemma cast_binary_spec (df df' : DataFrame) (cols : list string) :
  cast_binary df cols = Ok df' ->
  map fst df' = map fst df
  /\ (forall c, ~ In c cols -> getitem df' c = getitem df c)
  /\ (forall c, In c cols ->
       exists s, getitem df c = Ok s /\ getitem df' c = Ok (astype_bool s)).
Proof.
  unfold cast_binary. intros H.
  destruct (getitems df cols) as [sel |] eqn:E; simpl in H; try discriminate.
  injection H as <-.
  destruct (getitems_names _ _ E) as [Hn Hv].
  assert (Hn' : map fst (astype_bool_all sel) = cols).
  { unfold astype_bool_all. now rewrite map_map. }
  split; [| split].
  - apply setitems_names. unfold astype_bool_all.
    rewrite Forall_map. simpl.
    eapply Forall_impl; [| exact Hv].
    intros cs Hcs. exact (getitem_ok_has_column _ _ _ Hcs).
  - intros c Hc. apply setitems_outside. now rewrite Hn'.
  - intros c Hc.
    assert (Hex : exists s, getitem df c = Ok s).
    { rewrite <- Hn in Hc. apply in_map_iff in Hc.
      destruct Hc as [[n s] [<- Hcs]].
      rewrite Forall_forall in Hv. exists s. exact (Hv _ Hcs). }
    destruct Hex as [s Hs]. exists s. split; auto.
    apply setitems_inside with (df0 := df); auto. now rewrite Hn.
Qed.

Lemma not_found_nil (df : DataFrame) (cols : list string) :
  not_found df cols = [] <-> (forall c, In c cols -> has_column df c = true).
Proof.
  unfold not_found. split.
  - intros H c Hc. destruct (has_column df c) eqn:E; auto.
    assert (Hin : In c (filter (fun c => negb (has_column df c)) cols))
      by (apply filter_In; rewrite E; auto).
    rewrite H in Hin. contradiction.
  - intros H. induction cols as [| a t IH]; simpl; auto.
    rewrite (H a (or_introl eq_refl)). simpl.
    apply IH. intros c Hc. apply H. now right.
Qed.

Lemma cast_binary_total (df : DataFrame) (cols : list string) :
  (forall c, In c cols -> has_column df c = true) ->
  exists df', cast_binary df cols = Ok df'.
Proof.
  intros H. unfold cast_binary, getitems.
  rewrite (proj2 (not_found_nil df cols) H).
  destruct (@mapM_total _ _ (fun c => let* s := getitem df c in Ok (c, s)) cols)
    as [sel Hsel].
  - intros c Hc. specialize (H c Hc). unfold has_column in H.
    assert (Hg : exists s, getitem df c = Ok s).
    { clear Hc. induction df as [| [n s] rest IH]; simpl in *; try discriminate.
      destruct (String.eqb n c); eauto. }
    destruct Hg as [s Hs]. exists (c, s). now rewrite Hs.
  - rewrite Hsel. simpl. eauto.
Qed.

Lemma astype_bool_dtype (s : Series) : is_bool_dtype (astype_bool s) = true.
Proof. destruct s; reflexivity. Qed.

(** The three ways a call can end. *)
Lemma preprocess_data_cases (st : Frames) (num bin : list string) :
  (exists e, cast_binary (train_df st) bin = Raise e
             /\ preprocess_data st num bin = (Raise e, st))
  \/ (exists train' e,
         cast_binary (train_df st) bin = Ok train'
         /\ cast_binary (test_df st) bin = Raise e
         /\ preprocess_data st num bin
            = (Raise e, mkFrames train' (test_df st)))
  \/ (exists train' test',
         cast_binary (train_df st) bin = Ok train'
         /\ cast_binary (test_df st) bin = Ok test'
         /\ preprocess_data st num bin
            = (fit_transform num bin (mkFrames train' test'),
               mkFrames train' test')).
Proof.
  unfold preprocess_data.
  destruct (cast_binary (train_df st) bin) as [train' | e] eqn:E1.
  - simpl. destruct (cast_binary (test_df st) bin) as [test' | e] eqn:E2.
    + right. right. exists train', test'. auto.
    + right. left. exists train', e. auto.
  - left. exists e. auto.
Qed.

(** A call that returns went through both casts. *)
Lemma preprocess_data_ok_inv (st st' : Frames) (num bin : list string)
      (out : Table * Table * list string) :
  preprocess_data st num bin = (Ok out, st') ->
  cast_binary (train_df st) bin = Ok (train_df st')
  /\ cast_binary (test_df st) bin = Ok (test_df st')
  /\ fit_transform num bin st' = Ok out.
Proof.
  intros H.
  destruct (preprocess_data_cases st num bin)
    as [[e [_ E]] | [[train' [e [_ [_ E]]]] | [train' [test' [E1 [E2 E]]]]]];
    rewrite E in H; try discriminate.
  injection H as H1 H2. subst st'. simpl. auto.
Qed.

(** ** Lines 34-52 *)

Lemma select_ok (X : DataFrame) (c : string) (s : Series) :
  select X c = Ok s <-> getitem X c = Ok s.
Proof.
  unfold select. destruct (getitem X c); split; congruence.
Qed.

Lemma select_fitted_ok (X : DataFrame) (c : string) (s : Series) :
  select_fitted X c = Ok s <-> getitem X c = Ok s.
Proof.
  unfold select_fitted. destruct (getitem X c); split; congruence.
Qed.

Lemma to_floats_length (s : Series) :
  List.length (to_floats s) = series_length s.
Proof. destruct s; simpl; auto using length_map. Qed.

(** What [fit] leaves in the transformer. *)
Lemma fit_inv (hu : HandleUnknown) (num bin : list string) (X : DataFrame)
      (t : ColumnTransformer) :
  fit hu num bin X = Ok t ->
  handle_unknown t = hu
  /\ Forall2 (fun c cp =>
               fst cp = c
               /\ exists s, getitem X c = Ok s
                            /\ snd cp = mkScaler (Qmean (to_floats s))
                                                 (Qvar (to_floats s))
                                                 (List.length (to_floats s)))
             num (scalers t)
  /\ Forall2 (fun c cc =>
               fst cc = c
               /\ exists l, getitem X c = Ok (BoolCol l)
                            /\ snd cc = categories_of bool_compare l)
             bin (encoders t)
  /\ remainder t
     = filter (fun c => negb (mem_string c num || mem_string c bin))
              (map fst X).
Proof.
  unfold fit. intros H.
  match type of H with
  | bind (mapM ?f num) _ = _ => destruct (mapM f num) as [sc |] eqn:Esc
  end; simpl in H; try discriminate.
  match type of H with
  | bind (mapM ?f bin) _ = _ => destruct (mapM f bin) as [en |] eqn:Een
  end; simpl in H; try discriminate.
  injection H as <-. simpl.
  split; [reflexivity |]. split; [| split; [| reflexivity]].
  - apply mapM_ok_inv in Esc.
    eapply Forall2_impl; [| exact Esc].
    intros c cp Hc. simpl in Hc.
    destruct (select X c) as [s |] eqn:Es; simpl in Hc; try discriminate.
    apply select_ok in Es.
    destruct (to_floats s) as [| q qs] eqn:Ef; simpl in Hc; try discriminate.
    injection Hc as <-. simpl. split; auto. exists s. now rewrite Ef.
  - apply mapM_ok_inv in Een.
    eapply Forall2_impl; [| exact Een].
    intros c cc Hc. simpl in Hc.
    destruct (select X c) as [s |] eqn:Es; simpl in Hc; try discriminate.
    apply select_ok in Es.
    destruct s as [zs | qs | bs]; simpl in Hc; try discriminate.
    destruct bs as [| b bs]; simpl in Hc; try discriminate.
    injection Hc as <-. simpl. split; auto. exists (b :: bs). auto.
Qed.

(** The three blocks of a transformed table. *)
Lemma transform_inv (t : ColumnTransformer) (X : DataFrame) (tab : Table) :
  transform t X = Ok tab ->
  exists a b c,
    tab = a ++ List.concat b ++ c
    /\ Forall2 (fun cp col => scaled_column X cp = Ok col) (scalers t) a
    /\ Forall2 (fun cc blk => encoded_columns (handle_unknown t) X cc = Ok blk)
               (encoders t) b
    /\ Forall2 (fun n col => passed_column X n = Ok col) (remainder t) c.
Proof.
  unfold transform. intros H.
  destruct (mapM (scaled_column X) (scalers t)) as [a |] eqn:Ea;
    simpl in H; try discriminate.
  destruct (mapM (encoded_columns (handle_unknown t) X) (encoders t))
    as [b |] eqn:Eb; simpl in H; try discriminate.
  destruct (mapM (passed_column X) (remainder t)) as [c |] eqn:Ec;
    simpl in H; try discriminate.
  injection H as <-.
  exists a, b, c. auto using mapM_ok_inv.
Qed.

Lemma fit_transform_inv (num bin : list string) (st : Frames)
      (train_scaled test_scaled : Table) (names : list string) :
  fit_transform num bin st = Ok (train_scaled, test_scaled, names) ->
  exists t,
    fit UnknownIgnore num bin (train_df st) = Ok t
    /\ transform t (train_df st) = Ok train_scaled
    /\ transform t (test_df st) = Ok test_scaled
    /\ names = get_feature_names_out t.
Proof.
  unfold fit_transform. intros H.
  destruct (fit UnknownIgnore num bin (train_df st)) as [t |] eqn:Et;
    simpl in H; try discriminate.
  destruct (transform t (train_df st)) as [a |] eqn:Ea;
    simpl in H; try discriminate.
  destruct (transform t (test_df st)) as [b |] eqn:Eb;
    simpl in H; try discriminate.
  injection H as <- <- <-. exists t. auto.
Qed.

(** The scaled block of a table transformed with parameters fitted on
    [train]: column by column, the values of [X] standardised with the
    mean and variance of the column of [train]. *)
Lemma scaled_block (num : list string) (train X : DataFrame)
      (params : list (string * ScalerParams)) (a : list (string * list R)) :
  Forall2 (fun c cp =>
             fst cp = c
             /\ exists s, getitem train c = Ok s
                          /\ snd cp = mkScaler (Qmean (to_floats s))
                                               (Qvar (to_floats s))
                                               (List.length (to_floats s)))
          num params ->
  Forall2 (fun cp col => scaled_column X cp = Ok col) params a ->
  Forall2 (fun c col =>
             exists s_train s,
               getitem train c = Ok s_train
               /\ getitem X c = Ok s
               /\ col = (("standardscaler__" ++ c)%string,
                         map (standardize
                                (mkScaler (Qmean (to_floats s_train))
                                          (Qvar (to_floats s_train))
                                          (List.length (to_floats s_train))))
                             (to_floats s)))
          num a.
Proof.
  intros Hfit. revert a.
  induction Hfit as [| c cp num' params' [Hn [s_train [Hg Hp]]] _ IH];
    intros a Ha; inversion Ha as [| ? col ? a' Hcol Ha']; subst.
  - constructor.
  - constructor; auto.
    unfold scaled_column in Hcol.
    destruct (select_fitted X (fst cp)) as [s |] eqn:Es; simpl in Hcol;
      try discriminate.
    apply select_fitted_ok in Es.
    unfold scaler_transform in Hcol.
    destruct (to_floats s) as [| q qs] eqn:Ef; simpl in Hcol;
      try discriminate.
    injection Hcol as <-.
    exists s_train, s. rewrite Hp, Ef. auto.
Qed.

(** ** The encoder on boolean columns *)

Lemma bool_categories (l : list bool) :
  categories_of bool_compare l
  = (if existsb negb l then [false] else [])
    ++ (if existsb (fun b => b) l then [true] else []).
Proof.
  unfold categories_of.
  induction l as [| b t IH]; simpl.
  - reflexivity.
  - rewrite IH.
    destruct b, (existsb negb t), (existsb (fun b => b) t); reflexivity.
Qed.

Lemma in_bool_categories (l : list bool) (b : bool) :
  In b (categories_of bool_compare l) <-> In b l.
Proof.
  rewrite bool_categories, in_app_iff. split.
  - intros [H | H].
    + destruct (existsb negb l) eqn:E; [| contradiction].
      apply existsb_exists in E. destruct E as [x [Hx Hn]].
      destruct H as [<- | []]. destruct x; [discriminate | exact Hx].
    + destruct (existsb (fun b => b) l) eqn:E; [| contradiction].
      apply existsb_exists in E. destruct E as [x [Hx Hn]].
      destruct H as [<- | []]. destruct x; [exact Hx | discriminate].
  - intros H. destruct b.
    + right. replace (existsb (fun b => b) l) with true; [now left |].
      symmetry. apply existsb_exists. exists true. auto.
    + left. replace (existsb negb l) with true; [now left |].
      symmetry. apply existsb_exists. exists false. auto.
Qed.

Lemma two_bool_categories (l : list bool) :
  In false l -> In true l -> categories_of bool_compare l = [false; true].
Proof.
  intros Hf Ht. rewrite bool_categories.
  replace (existsb negb l) with true.
  - replace (existsb (fun b => b) l) with true; [reflexivity |].
    symmetry. apply existsb_exists. exists true. auto.
  - symmetry. apply existsb_exists. exists false. auto.
Qed.

Lemma in_kept_categories {A : Type} (cats : list A) (k : A) :
  In k (kept_categories cats) -> In k cats.
Proof.
  destruct cats as [| a [| b [| c t]]]; simpl; tauto.
Qed.

Lemma indicator_bool (k v : bool) :
  indicator bool_compare k v = if Bool.eqb k v then 1%Z else 0%Z.
Proof. destruct k, v; reflexivity. Qed.

(** The encoded block of a table transformed with categories fitted on
    [train]. *)
Lemma encoded_block (bin : list string) (train X : DataFrame)
      (encs : list (string * list bool)) (b : list (list (string * list R))) :
  Forall2 (fun c cc =>
             fst cc = c
             /\ exists l, getitem train c = Ok (BoolCol l)
                          /\ snd cc = categories_of bool_compare l)
          bin encs ->
  Forall2 (fun cc blk => encoded_columns UnknownIgnore X cc = Ok blk) encs b ->
  Forall2 (fun c blk =>
             exists seen values,
               getitem train c = Ok (BoolCol seen)
               /\ getitem X c = Ok (BoolCol values)
               /\ blk
                  = map (fun kc : bool * list Z =>
                           (("onehotencoder__" ++ c ++ "_" ++ bool_repr (fst kc))%string,
                            map IZR (snd kc)))
                        (encode_columns bool_compare
                           (categories_of bool_compare seen) values))
          bin b.
Proof.
  intros Hfit. revert b.
  induction Hfit as [| c cc bin' encs' [Hn [seen [Hg Hc]]] _ IH];
    intros b Hb; inversion Hb as [| ? blk ? b' Hblk Hb']; subst.
  - constructor.
  - constructor; auto.
    unfold encoded_columns in Hblk.
    destruct (select_fitted X (fst cc)) as [s |] eqn:Es; simpl in Hblk;
      try discriminate.
    apply select_fitted_ok in Es.
    destruct s as [zs | qs | values]; simpl in Hblk; try discriminate.
    destruct values as [| v vs]; simpl in Hblk; try discriminate.
    injection Hblk as <-.
    exists seen, (v :: vs). rewrite Hc. auto.
Qed.

(** ** When a call returns *)

Lemma has_column_getitem (df : DataFrame) (c : string) :
  has_column df c = true <-> exists s, getitem df c = Ok s.
Proof.
  unfold has_column. induction df as [| [n s] rest IH]; simpl.
  - split; [discriminate | intros [s H]; discriminate].
  - destruct (String.eqb n c); simpl; [| exact IH].
    split; eauto.
Qed.

Lemma has_column_in_names (df : DataFrame) (c : string) :
  has_column df c = true <-> In c (map fst df).
Proof.
  unfold has_column. rewrite existsb_exists. split.
  - intros [[n s] [Hin He]]. apply String.eqb_eq in He. simpl in He. subst.
    apply in_map_iff. exists (c, s). auto.
  - intros H. apply in_map_iff in H. destruct H as [[n s] [<- Hin]].
    exists (n, s). split; auto. apply String.eqb_refl.
Qed.

Lemma astype_bool_length (s : Series) :
  series_length (astype_bool s) = series_length s.
Proof. destruct s; simpl; auto using length_map. Qed.

Lemma cast_binary_usable (df df' : DataFrame) (bin : list string) :
  cast_binary df bin = Ok df' ->
  forall c, usable df c ->
            usable df' c /\ (In c bin -> usable_bool df' c).
Proof.
  intros H c [s [Hg Hl]].
  destruct (cast_binary_spec _ _ H) as [_ [O I]].
  destruct (in_dec string_dec c bin) as [Hc | Hc].
  - destruct (I c Hc) as [s' [Hg' Hc']].
    assert (s' = s) by congruence. subst s'.
    split.
    + exists (astype_bool s). now rewrite astype_bool_length.
    + intros _. destruct (astype_bool s) as [zs | qs | l] eqn:E.
      * pose proof (astype_bool_dtype s) as D. rewrite E in D. discriminate.
      * pose proof (astype_bool_dtype s) as D. rewrite E in D. discriminate.
      * exists l. split; auto.
        intros ->. apply Hl. rewrite <- astype_bool_length, E. reflexivity.
  - split; [| contradiction].
    exists s. rewrite (O c Hc). auto.
Qed.

Lemma fit_total (hu : HandleUnknown) (num bin : list string) (X : DataFrame) :
  (forall c, In c num -> usable X c) ->
  (forall c, In c bin -> usable_bool X c) ->
  exists t, fit hu num bin X = Ok t.
Proof.
  intros Hnum Hbin. unfold fit.
  match goal with
  | |- context [mapM ?f num] =>
      destruct (@mapM_total _ _ f num) as [sc Hsc]
  end.
  { intros c Hc. destruct (Hnum c Hc) as [s [Hg Hl]].
    apply select_ok in Hg. rewrite Hg; simpl.
    rewrite <- to_floats_length in Hl.
    destruct (to_floats s); simpl; [contradiction | eauto]. }
  match goal with
  | |- context [mapM ?f bin] =>
      destruct (@mapM_total _ _ f bin) as [en Hen]
  end.
  { intros c Hc. destruct (Hbin c Hc) as [l [Hg Hl]].
    apply select_ok in Hg. rewrite Hg; simpl.
    destruct l; simpl; [contradiction | eauto]. }
  rewrite Hsc; simpl. rewrite Hen; simpl. eauto.
Qed.

Lemma transform_total (t : ColumnTransformer) (X : DataFrame) :
  handle_unknown t = UnknownIgnore ->
  (forall cp, In cp (scalers t) -> usable X (fst cp)) ->
  (forall cc, In cc (encoders t) -> usable_bool X (fst cc)) ->
  (forall c, In c (remainder t) -> usable X c) ->
  exists tab, transform t X = Ok tab.
Proof.
  intros Hhu Hsc Hen Hre. unfold transform.
  destruct (@mapM_total _ _ (scaled_column X) (scalers t)) as [a Ha].
  { intros cp Hcp. destruct (Hsc cp Hcp) as [s [Hg Hl]].
    unfold scaled_column. apply select_fitted_ok in Hg. rewrite Hg; simpl.
    rewrite <- to_floats_length in Hl.
    destruct (to_floats s); simpl; [contradiction | eauto]. }
  destruct (@mapM_total _ _ (encoded_columns (handle_unknown t) X) (encoders t))
    as [b Hb].
  { intros cc Hcc. destruct (Hen cc Hcc) as [l [Hg Hl]].
    unfold encoded_columns. apply select_fitted_ok in Hg. rewrite Hg, Hhu; simpl.
    destruct l; simpl; [contradiction | eauto]. }
  destruct (@mapM_total _ _ (passed_column X) (remainder t)) as [c Hc].
  { intros n Hn. destruct (Hre n Hn) as [s [Hg Hl]].
    unfold passed_column. apply select_fitted_ok in Hg. rewrite Hg; simpl. eauto. }
  rewrite Ha; simpl. rewrite Hb; simpl. rewrite Hc; simpl. eauto.
Qed.

Lemma Forall2_fst_in {B : Type} (P : string -> string * B -> Prop)
      (l : list string) (l' : list (string * B)) :
  Forall2 (fun c x => fst x = c /\ P c x) l l' ->
  forall x, In x l' -> In (fst x) l.
Proof.
  induction 1 as [| c x l l' [Hc _] _ IH]; simpl; intros y Hy.
  - contradiction.
  - destruct Hy as [<- | Hy]; auto.
Qed.

(** On such frames the call returns, whatever the values of the binary
    columns of the test frame. *)
Lemma preprocess_data_returns (st : Frames) (num bin : list string) :
  well_shaped st num bin ->
  is_ok (fst (preprocess_data st num bin)) = true.
Proof.
  intros [Htr Hte Hrtr Hrte].
  assert (Utr : forall c, has_column (train_df st) c = true ->
                          usable (train_df st) c).
  { intros c Hc. apply has_column_getitem in Hc. destruct Hc as [s Hs].
    exists s. eauto. }
  assert (Ute : forall c, has_column (train_df st) c = true ->
                          usable (test_df st) c).
  { intros c Hc. apply Hte, has_column_getitem in Hc. destruct Hc as [s Hs].
    exists s. eauto. }
  destruct (cast_binary_total (train_df st) bin) as [train' E1].
  { intros c Hc. apply Htr, in_or_app. now right. }
  destruct (cast_binary_total (test_df st) bin) as [test' E2].
  { intros c Hc. apply Hte, Htr, in_or_app. now right. }
  unfold preprocess_data. rewrite E1; simpl. rewrite E2; simpl.
  pose proof (@cast_binary_usable _ _ _ E1) as G1.
  pose proof (@cast_binary_usable _ _ _ E2) as G2.
  destruct (cast_binary_spec _ _ E1) as [N1 _].
  unfold fit_transform; simpl.
  destruct (@fit_total UnknownIgnore num bin train') as [t Ht].
  { intros c Hc. apply G1, Utr, Htr, in_or_app. now left. }
  { intros c Hc. apply G1; auto. apply Utr, Htr, in_or_app. now right. }
  rewrite Ht; simpl.
  destruct (fit_inv _ _ _ _ Ht) as [Hhu [Hsc [Hen Hre]]].
  assert (Hrem : forall c, In c (remainder t) -> has_column (train_df st) c = true).
  { intros c Hc. rewrite Hre in Hc. apply filter_In in Hc.
    apply has_column_in_names. rewrite <- N1. tauto. }
  destruct (@transform_total t train') as [a Ha]; auto.
  { intros cp Hcp. apply G1, Utr, Htr, in_or_app. left.
    eapply Forall2_fst_in; [exact Hsc | exact Hcp]. }
  { intros cc Hcc. assert (Hin : In (fst cc) bin)
      by (eapply Forall2_fst_in; [exact Hen | exact Hcc]).
    apply G1; auto. apply Utr, Htr, in_or_app. now right. }
  { intros c Hc. apply G1, Utr, Hrem, Hc. }
  destruct (@transform_total t test') as [b Hb]; auto.
  { intros cp Hcp. apply G2, Ute, Htr, in_or_app. left.
    eapply Forall2_fst_in; [exact Hsc | exact Hcp]. }
  { intros cc Hcc. assert (Hin : In (fst cc) bin)
      by (eapply Forall2_fst_in; [exact Hen | exact Hcc]).
    apply G2; auto. apply Ute, Htr, in_or_app. now right. }
  { intros c Hc. apply G2, Ute, Hrem, Hc. }
  rewrite Ha; simpl. rewrite Hb; simpl. reflexivity.
Qed.

Lemma nonempty_columns_spec (df : DataFrame) :
  nonempty_columns df = true ->
  forall c s, getitem df c = Ok s -> series_length s <> 0.
Proof.
  unfold nonempty_columns. rewrite forallb_forall. intros H c s Hg.
  apply getitem_in in Hg. specialize (H _ Hg). simpl in H.
  destruct (Nat.eqb_spec (series_length s) 0); [discriminate | auto].
Qed.

Lemma well_shaped_intro (st : Frames) (num bin : list string) :
  forallb (has_column (train_df st)) (num ++ bin) = true ->
  forallb (has_column (test_df st)) (map fst (train_df st)) = true ->
  nonempty_columns (train_df st) = true ->
  nonempty_columns (test_df st) = true ->
  well_shaped st num bin.
Proof.
  intros H1 H2 H3 H4. constructor.
  - rewrite forallb_forall in H1. exact H1.
  - rewrite forallb_forall in H2. intros c Hc. apply H2.
    now apply has_column_in_names.
  - now apply nonempty_columns_spec.
  - now apply nonempty_columns_spec.
Defined.

End PreprocessingFacts.

(* ===================================================================== *)
(** * Properties of the correlation script *)
(* ===================================================================== *)

Section CorrelationProperties.
Import Pandas Preprocessing CorrelationAnalysis CorrelationSamples.

(** C10: [preprocess_data] changes the frames it is given.  Whatever the
    outcome, the frames keep their columns and every column outside
    [binary_columns] keeps its content; when the call returns, every
    column of [binary_columns] holds, in both frames, the boolean cast of
    what it held, so a frame with a binary column that was not boolean is
    no longer the frame that was passed. *)
Theorem C10_preprocess_data_casts_in_place
  (st : Frames) (num bin : list string) :
  let r := fst (preprocess_data st num bin) in
  let st' := snd (preprocess_data st num bin) in
  (map fst (train_df st') = map fst (train_df st)
   /\ map fst (test_df st') = map fst (test_df st))
  /\ (forall c, ~ In c bin ->
       getitem (train_df st') c = getitem (train_df st) c
       /\ getitem (test_df st') c = getitem (test_df st) c)
  /\ (is_ok r = true ->
      forall c, In c bin ->
      exists s1 s2,
        getitem (train_df st) c = Ok s1
        /\ getitem (train_df st') c = Ok (astype_bool s1)
        /\ getitem (test_df st) c = Ok s2
        /\ getitem (test_df st') c = Ok (astype_bool s2)
        /\ is_bool_dtype (astype_bool s1) = true
        /\ is_bool_dtype (astype_bool s2) = true)
  /\ (is_ok r = true ->
      forall c s, In c bin -> getitem (train_df st) c = Ok s ->
      is_bool_dtype s = false -> train_df st' <> train_df st).
Proof.
  intros r st'. subst r st'.
  destruct (preprocess_data_cases st num bin)
    as [[e [E1 E]] | [[train' [e [E1 [E2 E]]]] | [train' [test' [E1 [E2 E]]]]]];
    rewrite E; simpl.
  - repeat split; auto; discriminate.
  - destruct (cast_binary_spec _ _ E1) as [N [O _]].
    repeat split; auto; discriminate.
  - destruct (cast_binary_spec _ _ E1) as [N1 [O1 I1]].
    destruct (cast_binary_spec _ _ E2) as [N2 [O2 I2]].
    split; [auto |]. split; [auto |]. split.
    + intros _ c Hc.
      destruct (I1 c Hc) as [s1 [G1 G1']].
      destruct (I2 c Hc) as [s2 [G2 G2']].
      exists s1, s2. repeat split; auto using astype_bool_dtype.
    + intros _ c s Hc Hg Hdt Heq.
      destruct (I1 c Hc) as [s1 [G1 G1']].
      rewrite Heq in G1'. rewrite Hg in G1, G1'.
      injection G1 as <-. injection G1' as Hs.
      rewrite Hs, astype_bool_dtype in Hdt. discriminate.
Qed.

Lemma C10_preprocess_data_casts_in_place_witness :
  is_ok (fst (preprocess_data (mkFrames small_train small_test)
                              ["age"%string] ["sex"%string])) = true
  /\ getitem (train_df (snd (preprocess_data (mkFrames small_train small_test)
                                             ["age"%string] ["sex"%string])))
             "sex"
     = Ok (BoolCol [false; true; false; true; false])
  /\ train_df (snd (preprocess_data (mkFrames small_train small_test)
                                    ["age"%string] ["sex"%string]))
     <> small_train.
Proof.
  split; [reflexivity |]. split; [reflexivity |].
  apply (C10_preprocess_data_casts_in_place
           (mkFrames small_train small_test) ["age"%string] ["sex"%string])
    with (c := "sex"%string) (s := IntCol [0; 1; 0; 1; 0]%Z);
    [reflexivity | left; reflexivity | reflexivity | reflexivity].
Defined.

(** C9: the column transformer is fitted on the training frame only and
    the test frame is transformed with what that fit learned: each scaled
    test value is the test value of the same row, minus the mean of the
    training column, over the standard deviation of the training column
    (over 1 if the scaler finds that column constant: its variance is zero
    or within the rounding bound of zero).  No statistic of the test frame
    enters. *)
Theorem C9_test_is_scaled_with_train_statistics
  (st st' : Frames) (num bin : list string)
  (train_scaled test_scaled : Table) (names : list string) :
  preprocess_data st num bin = (Ok (train_scaled, test_scaled, names), st') ->
  (exists t,
      fit UnknownIgnore num bin (train_df st') = Ok t
      /\ transform t (train_df st') = Ok train_scaled
      /\ transform t (test_df st') = Ok test_scaled)
  /\ (exists scaled rest,
        test_scaled = scaled ++ rest
        /\ Forall2
             (fun c col =>
                exists s_train s_test,
                  getitem (train_df st') c = Ok s_train
                  /\ getitem (test_df st') c = Ok s_test
                  /\ col
                     = (("standardscaler__" ++ c)%string,
                        map (fun v =>
                               ((Q2R v - Q2R (Qmean (to_floats s_train)))
                                / (if is_constant_feature
                                        (Qvar (to_floats s_train))
                                        (Qmean (to_floats s_train))
                                        (List.length (to_floats s_train))
                                   then 1
                                   else sqrt (Q2R (Qvar (to_floats s_train)))))%R)
                            (to_floats s_test)))
             num scaled)
  /\ (forall c, ~ In c bin ->
       getitem (train_df st') c = getitem (train_df st) c
       /\ getitem (test_df st') c = getitem (test_df st) c).
Proof.
  intros H.
  destruct (preprocess_data_ok_inv _ _ _ H) as [C1 [C2 Hft]].
  destruct (fit_transform_inv _ _ _ Hft) as [t [Hfit [Htr [Hte _]]]].
  split; [exists t; auto |].
  split.
  - destruct (fit_inv _ _ _ _ Hfit) as [_ [Hsc _]].
    destruct (transform_inv _ _ Hte) as [a [b [c [-> [Ha _]]]]].
    exists a, (List.concat b ++ c). split; [reflexivity |].
    eapply scaled_block in Ha; [| exact Hsc]. exact Ha.
  - intros c Hc.
    destruct (cast_binary_spec _ _ C1) as [_ [O1 _]].
    destruct (cast_binary_spec _ _ C2) as [_ [O2 _]].
    auto.
Qed.

Lemma C9_test_is_scaled_with_train_statistics_witness :
  exists train_scaled test_scaled names st',
    preprocess_data (mkFrames small_train small_test)
                    ["age"%string] ["sex"%string]
    = (Ok (train_scaled, test_scaled, names), st')
    /\ (exists t,
          fit UnknownIgnore ["age"%string] ["sex"%string] (train_df st') = Ok t
          /\ transform t (train_df st') = Ok train_scaled
          /\ transform t (test_df st') = Ok test_scaled)
    /\ (exists scaled rest,
          test_scaled = scaled ++ rest
          /\ Forall2
               (fun c col =>
                  exists s_train s_test,
                    getitem (train_df st') c = Ok s_train
                    /\ getitem (test_df st') c = Ok s_test
                    /\ col
                       = (("standardscaler__" ++ c)%string,
                          map (fun v =>
                                 ((Q2R v - Q2R (Qmean (to_floats s_train)))
                                  / (if is_constant_feature
                                          (Qvar (to_floats s_train))
                                          (Qmean (to_floats s_train))
                                          (List.length (to_floats s_train))
                                     then 1
                                     else sqrt (Q2R (Qvar (to_floats s_train)))))%R)
                              (to_floats s_test)))
               ["age"%string] scaled)
    /\ (forall c, ~ In c ["sex"%string] ->
         getitem (train_df st') c = getitem small_train c
         /\ getitem (test_df st') c = getitem small_test c).
Proof.
  do 4 eexists. split; [reflexivity |].
  eapply (C9_test_is_scaled_with_train_statistics
            (mkFrames small_train small_test)).
  reflexivity.
Defined.

(** The scaled value of a test row does not change when the other test
    rows do: two test frames that agree on one row of a numeric column get
    the same scaled value there. *)
Lemma standardize_row_local (p : ScalerParams) (x y : list Q) (i j : nat) (v : Q) :
  nth_error x i = Some v -> nth_error y j = Some v ->
  nth_error (map (standardize p) x) i = nth_error (map (standardize p) y) j.
Proof.
  intros Hx Hy. rewrite !nth_error_map, Hx, Hy. reflexivity.
Qed.

Lemma encoded_block_one_hot (train X : DataFrame) (c : string)
      (seen values : list bool) (blk : list (string * list R)) :
  getitem train c = Ok (BoolCol seen) ->
  getitem X c = Ok (BoolCol values) ->
  blk = map (fun kc : bool * list Z =>
               (("onehotencoder__" ++ c ++ "_" ++ bool_repr (fst kc))%string,
                map IZR (snd kc)))
            (encode_columns bool_compare
               (categories_of bool_compare seen) values) ->
  one_hot train X c blk.
Proof.
  intros Hs Hv ->. exists seen, values.
  split; [exact Hs |]. split; [exact Hv |]. split; [| split].
  - intros Hf Ht. rewrite (two_bool_categories _ Hf Ht).
    unfold encode_columns; simpl. do 2 f_equal.
    rewrite map_map. apply map_ext. intros [|]; reflexivity.
  - intros col x Hcol Hx.
    apply in_map_iff in Hcol. destruct Hcol as [[k zs] [<- Hk]].
    unfold encode_columns in Hk. apply in_map_iff in Hk.
    destruct Hk as [k' [Hk' _]]. injection Hk' as -> <-.
    simpl in Hx. rewrite map_map in Hx. apply in_map_iff in Hx.
    destruct Hx as [v [<- _]]. unfold indicator.
    destruct (same bool_compare k v); auto.
  - intros i v Hi Hun col Hcol.
    apply in_map_iff in Hcol. destruct Hcol as [[k zs] [<- Hk]].
    unfold encode_columns in Hk. apply in_map_iff in Hk.
    destruct Hk as [k' [Hk' Hkept]]. injection Hk' as -> <-.
    simpl. rewrite map_map, nth_error_map, Hi. simpl.
    apply in_kept_categories in Hkept.
    rewrite in_bool_categories in Hkept.
    rewrite indicator_bool.
    destruct (Bool.eqb k v) eqn:E; [| reflexivity].
    apply Bool.eqb_prop in E. subst k. contradiction.
Qed.

(** C8: on frames that have the listed columns and at least one row the
    call returns, whatever categories the test rows hold; and in every call
    that returns, the columns of the two tables that come from a binary
    column are as [one_hot] says: a column with both categories among the
    training rows becomes exactly one 0/1 column (the level [False] is
    dropped), and a row whose category was not among the training rows is
    zero in every column of its feature. *)
Theorem C8_binary_column_encoding
  (st : Frames) (num bin : list string) :
  (well_shaped st num bin ->
   is_ok (fst (preprocess_data st num bin)) = true)
  /\ (forall (st' : Frames) (train_scaled test_scaled : Table)
             (names : list string),
        preprocess_data st num bin
        = (Ok (train_scaled, test_scaled, names), st') ->
        exists a_train b_train c_train a_test b_test c_test,
          train_scaled = a_train ++ List.concat b_train ++ c_train
          /\ test_scaled = a_test ++ List.concat b_test ++ c_test
          /\ List.length a_train = List.length num
          /\ List.length a_test = List.length num
          /\ Forall2 (one_hot (train_df st') (train_df st')) bin b_train
          /\ Forall2 (one_hot (train_df st') (test_df st')) bin b_test).
Proof.
  split; [apply preprocess_data_returns |].
  intros st' train_scaled test_scaled names H.
  destruct (preprocess_data_ok_inv _ _ _ H) as [_ [_ Hft]].
  destruct (fit_transform_inv _ _ _ Hft) as [t [Hfit [Htr [Hte _]]]].
  destruct (fit_inv _ _ _ _ Hfit) as [Hhu [Hsc [Hen _]]].
  destruct (transform_inv _ _ Htr) as [a1 [b1 [c1 [-> [Ha1 [Hb1 _]]]]]].
  destruct (transform_inv _ _ Hte) as [a2 [b2 [c2 [-> [Ha2 [Hb2 _]]]]]].
  rewrite Hhu in Hb1, Hb2.
  exists a1, b1, c1, a2, b2, c2.
  split; [reflexivity |]. split; [reflexivity |].
  split.
  { rewrite <- (Forall2_length Ha1). symmetry. exact (Forall2_length Hsc). }
  split.
  { rewrite <- (Forall2_length Ha2). symmetry. exact (Forall2_length Hsc). }
  split.
  - eapply encoded_block in Hb1; [| exact Hen].
    eapply Forall2_impl; [| exact Hb1].
    intros c blk [seen [values [Hs [Hv Hblk]]]].
    apply encoded_block_one_hot with (seen := seen) (values := values);
      assumption.
  - eapply encoded_block in Hb2; [| exact Hen].
    eapply Forall2_impl; [| exact Hb2].
    intros c blk [seen [values [Hs [Hv Hblk]]]].
    apply encoded_block_one_hot with (seen := seen) (values := values);
      assumption.
Qed.

(** The witness is a training frame in which only [sex = 0] occurs and a
    test frame whose first row has [sex = 1]. *)
Lemma C8_binary_column_encoding_witness :
  well_shaped (mkFrames one_sex_train small_test) ["age"%string] ["sex"%string]
  /\ is_ok (fst (preprocess_data (mkFrames one_sex_train small_test)
                                 ["age"%string] ["sex"%string])) = true
  /\ exists train_scaled test_scaled names st',
      preprocess_data (mkFrames one_sex_train small_test)
                      ["age"%string] ["sex"%string]
      = (Ok (train_scaled, test_scaled, names), st')
      /\ exists a_train b_train c_train a_test b_test c_test,
          train_scaled = a_train ++ List.concat b_train ++ c_train
          /\ test_scaled = a_test ++ List.concat b_test ++ c_test
          /\ List.length a_train = List.length ["age"%string]
          /\ List.length a_test = List.length ["age"%string]
          /\ Forall2 (one_hot (train_df st') (train_df st'))
                     ["sex"%string] b_train
          /\ Forall2 (one_hot (train_df st') (test_df st'))
                     ["sex"%string] b_test.
Proof.
  assert (W : well_shaped (mkFrames one_sex_train small_test)
                          ["age"%string] ["sex"%string])
    by (apply well_shaped_intro; reflexivity).
  split; [exact W |].
  split.
  - exact (proj1 (C8_binary_column_encoding
                    (mkFrames one_sex_train small_test)
                    ["age"%string] ["sex"%string]) W).
  - do 4 eexists. split; [reflexivity |].
    eapply (proj2 (C8_binary_column_encoding
                     (mkFrames one_sex_train small_test)
                     ["age"%string] ["sex"%string])).
    reflexivity.
Defined.

(** The same run, computed: the test row with the unseen category is 0 in
    the one column of its feature. *)
Example unseen_category_is_all_zero :
  exists train_scaled age_scaled names st',
    preprocess_data (mkFrames one_sex_train small_test)
                    ["age"%string] ["sex"%string]
    = (Ok (train_scaled,
           [ age_scaled;
             ("onehotencoder__sex_False"%string, [0%R; 1%R]);
             ("remainder__DEATH_EVENT"%string, [Q2R 0; Q2R 1]) ],
           names), st').
Proof. do 4 eexists. reflexivity. Qed.

(** With both categories among the training rows there is one column,
    and it repeats the input. *)
Example two_categories_one_column :
  exists age_scaled test_scaled names st',
    preprocess_data (mkFrames small_train small_test)
                    ["age"%string] ["sex"%string]
    = (Ok ([ age_scaled;
             ("onehotencoder__sex_True"%string, [0%R; 1%R; 0%R; 1%R; 0%R]);
             ("remainder__DEATH_EVENT"%string,
              [Q2R 1; Q2R 0; Q2R 0; Q2R 1; Q2R 0]) ],
           test_scaled, names), st').
Proof. do 4 eexists. reflexivity. Qed.

(** ** The correlation matrix *)

Lemma Rsum_nonneg (l : list R) :
  Forall (fun v => 0 <= v)%R l -> (0 <= Rsum l)%R.
Proof.
  unfold Rsum. induction 1 as [| v t Hv _ IH]; simpl; lra.
Qed.

Lemma ssqdm_nonneg (x : list R) : (0 <= ssqdm x)%R.
Proof.
  unfold ssqdm. apply Rsum_nonneg.
  rewrite Forall_map, Forall_forall. intros v _. apply Rle_0_sqr.
Qed.




Lemma covxy_diag (x : list R) : covxy x x = ssqdm x.
Proof.
  unfold covxy, ssqdm, Rsum. generalize (Rmean x). intros m.
  induction x as [| u t IH]; simpl; auto.
  now rewrite IH.
Qed.


Lemma pearson_diag (x : list R) : ssqdm x <> 0%R -> pearson x x = Some 1%R.
Proof.
  intros H. unfold pearson.
  rewrite sqrt_square by apply ssqdm_nonneg.
  destruct (Req_dec_T (ssqdm x) 0) as [E | _]; [contradiction |].
  rewrite covxy_diag. f_equal. now field.
Qed.

Lemma entry_corr (df : Table) (i j : nat) (ci cj : string * list R) :
  nth_error df i = Some ci -> nth_error df j = Some cj ->
  entry (corr df) i j = Some (pearson (snd ci) (snd cj)).
Proof.
  intros Hi Hj. unfold entry, corr.
  rewrite nth_error_map, Hi. simpl.
  now rewrite nth_error_map, Hj.
Qed.

(** ** The correlation policy *)

Lemma last_snoc {A : Type} (l : list A) (x d : A) : last (l ++ [x]) d = x.
Proof.
  induction l as [| a t IH]; simpl; auto.
  destruct (t ++ [x]) eqn:E; auto.
  destruct t; discriminate.
Qed.

(** Plotting writes nothing to standard error, whether it returns or
    raises. *)
Lemma plot_keeps_stderr (scaled_train : Table) (output_file : option string)
      (w : World) :
  stderr (snd (plot_correlation_matrix scaled_train output_file w)) = stderr w.
Proof.
  unfold plot_correlation_matrix, chart_save.
  destruct output_file as [path |]; [| reflexivity].
  destruct (String.eqb path ""); [reflexivity |].
  destruct (Nat.ltb max_rows (List.length (data (heatmap scaled_train))));
    destruct (mem_string (save_format path) supported_formats);
    match goal with
    | |- context [if ?b then click_echo _ _ else _] => destruct b
    end; reflexivity.
Qed.

(** C1 fails on the code: [main] never runs the check.  Whenever
    preprocessing returns and the heatmap has been saved or shown, and
    although the statistic of the check counts at least one pair above the
    threshold, so that [validate_feature_correlations] would raise, [main]
    writes nothing to standard error, prints the message that all checks
    passed and exits with status 0. *)
Theorem C1_passed_is_reported_without_check
  (pairs_above_threshold : Table -> Q -> nat)
  (train test : DataFrame) (output_file : option string) (threshold : Q)
  (w w1 : World) (scaled_train test_scaled : Table) (names : list string)
  (st' : Frames) :
  preprocess_data (mkFrames train test) numeric_columns binary_columns
  = (Ok (scaled_train, test_scaled, names), st') ->
  plot_correlation_matrix scaled_train output_file w = (Ok tt, w1) ->
  pairs_above_threshold scaled_train threshold <> 0 ->
  validate_feature_correlations pairs_above_threshold scaled_train threshold
  = Raise (ValueError violation_msg)
  /\ exists w',
      main train test output_file threshold w = (w', Exited 0)
      /\ stderr w' = stderr w
      /\ last (stdout w') ""%string = passed_msg.
Proof.
  intros Hpre Hplot Hcount. split.
  - unfold validate_feature_correlations, passed_conditions.
    destruct (pairs_above_threshold scaled_train threshold); [contradiction |].
    reflexivity.
  - unfold main. rewrite Hpre. cbn [fst]. rewrite Hplot. cbn [try_body].
    eexists. split; [reflexivity |]. split.
    + pose proof (plot_keeps_stderr scaled_train output_file w) as Hs.
      rewrite Hplot in Hs. exact Hs.
    + apply last_snoc.
Qed.

(** *** A run on which the skipped check would have failed *)

Lemma above_self (threshold : Q) (x : list R) :
  ssqdm x <> 0%R -> (Q2R threshold < 1)%R -> above threshold x x = true.
Proof.
  intros Hx Ht. unfold above. rewrite (pearson_diag x Hx).
  rewrite Rabs_R1. destruct (Rlt_dec (Q2R threshold) 1); auto.
Qed.

Lemma pairs_above_found (t : Table) (threshold : Q) (i j : nat)
      (ci cj : string * list R) :
  i < j -> nth_error t i = Some ci -> nth_error t j = Some cj ->
  above threshold (snd ci) (snd cj) = true ->
  pearson_pairs_above t threshold <> 0.
Proof.
  revert i j. induction t as [| c rest IH]; intros i j Hij Hi Hj Ha.
  - destruct i; discriminate.
  - simpl. destruct i as [| i'].
    + injection Hi as ->.
      destruct j as [| j']; [lia |]. simpl in Hj.
      apply nth_error_In in Hj.
      assert (Hin : In cj (filter (fun d => above threshold (snd ci) (snd d)) rest))
        by (apply filter_In; auto).
      destruct (filter (fun d => above threshold (snd ci) (snd d)) rest);
        [contradiction | simpl; lia].
    + destruct j as [| j']; [lia |]. simpl in Hi, Hj.
      assert (pearson_pairs_above rest threshold <> 0)
        by (apply (IH i' j'); auto; lia).
      lia.
Qed.

Lemma schema_age_scaled_varies : ssqdm schema_age_scaled <> 0%R.
Proof.
  unfold schema_age_scaled, standardize, scale_.
  set (p := mkScaler (Qmean (map inject_Z [40; 50; 60]%Z))
                     (Qvar (map inject_Z [40; 50; 60]%Z))
                     (List.length (map inject_Z [40; 50; 60]%Z))).
  replace (is_constant_feature (var_ p) (mean_ p) (n_samples_seen_ p))
    with false by reflexivity.
  assert (Hs : (0 < sqrt (Q2R (var_ p)))%R).
  { apply sqrt_lt_R0.
    let v := eval vm_compute in (var_ p) in change (var_ p) with v.
    unfold Q2R; simpl. lra. }
  set (s := sqrt (Q2R (var_ p))) in *.
  let v := eval vm_compute in (mean_ p) in change (mean_ p) with v.
  unfold ssqdm, Rmean, Rsum, Q2R; simpl.
  match goal with
  | |- ?e <> _ => assert (E : e = (200 / (s * s))%R) by (field; lra)
  end.
  rewrite E. apply Rgt_not_eq. apply Rdiv_lt_0_compat; nra.
Defined.

Lemma C1_passed_is_reported_without_check_witness :
  exists scaled_train test_scaled names st',
    preprocess_data (mkFrames schema_train schema_test)
                    numeric_columns binary_columns
    = (Ok (scaled_train, test_scaled, names), st')
    /\ pearson_pairs_above scaled_train (92 # 100) <> 0
    /\ validate_feature_correlations pearson_pairs_above scaled_train (92 # 100)
       = Raise (ValueError violation_msg)
    /\ exists w',
        main schema_train schema_test (Some "results/heatmap.png"%string)
             (92 # 100) empty_world
        = (w', Exited 0)
        /\ stderr w' = stderr empty_world
        /\ last (stdout w') ""%string = passed_msg.
Proof.
  do 4 eexists. split; [reflexivity |].
  assert (Hcount : forall t : Table,
             nth_error t 0 = Some ("standardscaler__age"%string, schema_age_scaled) ->
             nth_error t 6 = Some ("standardscaler__time"%string, schema_age_scaled) ->
             pearson_pairs_above t (92 # 100) <> 0).
  { intros t H0 H6.
    apply (@pairs_above_found t (92 # 100) 0 6 _ _ ltac:(lia) H0 H6).
    simpl. apply above_self.
    - exact schema_age_scaled_varies.
    - unfold Q2R; simpl. lra. }
  split.
  - apply Hcount; reflexivity.
  - apply (@C1_passed_is_reported_without_check
             pearson_pairs_above schema_train schema_test
             (Some "results/heatmap.png"%string) (92 # 100) empty_world
             _ _ _ _ _ eq_refl eq_refl).
    apply Hcount; reflexivity.
Defined.

End CorrelationProperties.

(* ===================================================================== *)
(** * The evaluation script: failures *)
(* ===================================================================== *)

Section EvaluatorFailures.
Import Pandas Metrics Evaluator Samples.

Local Open Scope result_scope.

Lemma getitem_absent (df : DataFrame) (name : string) :
  has_column df name = false -> getitem df name = Raise (KeyError name).
Proof.
  unfold has_column.
  induction df as [| [n s] rest IH]; simpl; intros H.
  - reflexivity.
  - destruct (String.eqb n name); simpl in H; [discriminate | auto].
Qed.

(** X1: a test set without the column [DEATH_EVENT] ends the run at line
    39 with [KeyError: 'DEATH_EVENT'], after the pipeline has predicted;
    nothing is written. *)
Theorem X1_missing_outcome_column
  (test : DataFrame) (fit : Pipeline) (dir : string) (seed : Z)
  (y_pred : list Z) :
  valid_seed seed ->
  predict fit (mkRandomState seed) test = Ok y_pred ->
  List.length y_pred = nrows test ->
  has_column test "DEATH_EVENT" = false ->
  main test fit dir seed = Raise (KeyError "DEATH_EVENT").
Proof.
  intros Hs Hp Hl Hc.
  rewrite main_steps, (np_random_seed_valid Hs); simpl.
  rewrite Hp; simpl. rewrite Hl, Nat.eqb_refl.
  now rewrite (getitem_absent _ _ Hc).
Qed.

Lemma X1_missing_outcome_column_witness :
  main [("ejection_fraction"%string, IntCol [20; 60]%Z)]
       threshold_pipeline "results" 123
  = Raise (KeyError "DEATH_EVENT").
Proof.
  apply (@X1_missing_outcome_column
           [("ejection_fraction"%string, IntCol [20; 60]%Z)]
           threshold_pipeline "results" 123 [1; 0]%Z).
  - unfold valid_seed. lia.
  - reflexivity.
  - reflexivity.
  - reflexivity.
Defined.

(** X2: what goes wrong in the prediction step ends the run before any
    score is computed: an exception of [predict] is the outcome of the
    run, and a prediction with another number of labels than the test set
    has rows is refused by [assign] with a [ValueError]. *)
Theorem X2_prediction_failures
  (test : DataFrame) (fit : Pipeline) (dir : string) (seed : Z) :
  valid_seed seed ->
  (forall e, predict fit (mkRandomState seed) test = Raise e ->
             main test fit dir seed = Raise e)
  /\ (forall y_pred, predict fit (mkRandomState seed) test = Ok y_pred ->
                     List.length y_pred <> nrows test ->
                     main test fit dir seed = Raise (ValueError assign_msg)).
Proof.
  intros Hs. split.
  - intros e He.
    rewrite main_steps, (np_random_seed_valid Hs); simpl. now rewrite He.
  - intros y_pred Hp Hl.
    rewrite main_steps, (np_random_seed_valid Hs); simpl.
    rewrite Hp; simpl.
    destruct (Nat.eqb_spec (List.length y_pred) (nrows test)); [contradiction |].
    reflexivity.
Qed.

Lemma X2_prediction_failures_witness :
  main [("DEATH_EVENT"%string, IntCol [1; 0]%Z)] threshold_pipeline "results" 123
  = Raise (KeyError "ejection_fraction").
Proof.
  apply (proj1 (@X2_prediction_failures
                  [("DEATH_EVENT"%string, IntCol [1; 0]%Z)]
                  threshold_pipeline "results" 123 ltac:(unfold valid_seed; lia))).
  reflexivity.
Defined.

Lemma three_distinct_labels (l : list Z) (a b c : Z) :
  In a l -> In b l -> In c l -> a <> b -> a <> c -> b <> c ->
  2 < List.length (unique l).
Proof.
  intros Ha Hb Hc Hab Hac Hbc.
  assert (Hnd : NoDup [a; b; c]).
  { repeat constructor; simpl; intuition. }
  assert (Hincl : incl [a; b; c] (unique l)).
  { intros x [<- | [<- | [<- | []]]]; now apply in_unique. }
  pose proof (NoDup_incl_length Hnd Hincl) as H. simpl in H. lia.
Qed.

(** X3: with three different label values among the actual and predicted
    labels the run stops in [precision_score] ("Target is multiclass ..."):
    the cross-tabulation and the accuracy have been computed by then, but
    neither file is written. *)
Theorem X3_multiclass_labels_write_nothing
  (test : DataFrame) (fit : Pipeline) (dir : string) (seed : Z)
  (death_event : Series) (y_true y_pred : list Z) (a b c : Z) :
  valid_seed seed ->
  getitem test "DEATH_EVENT" = Ok death_event ->
  labels death_event = Ok y_true ->
  predict fit (mkRandomState seed) test = Ok y_pred ->
  List.length y_pred = nrows test ->
  List.length y_true = nrows test ->
  In a (y_true ++ y_pred) -> In b (y_true ++ y_pred) -> In c (y_true ++ y_pred) ->
  a <> b -> a <> c -> b <> c ->
  is_ok (accuracy_score y_true y_pred) = true
  /\ main test fit dir seed = Raise (ValueError multiclass_msg).
Proof.
  intros Hs Hg Hlab Hp Hl Hl' Ha Hb Hc Hab Hac Hbc.
  assert (Hlen : Nat.eqb (List.length y_true) (List.length y_pred) = true)
    by (apply Nat.eqb_eq; congruence).
  split.
  - unfold accuracy_score, check_consistent_length. now rewrite Hlen.
  - rewrite main_steps, (np_random_seed_valid Hs); simpl.
    rewrite Hp; simpl. rewrite Hl, Nat.eqb_refl, Hg; simpl.
    rewrite Hlab; simpl.
    unfold check_consistent_length. rewrite Hlen; simpl.
    unfold check_binary.
    assert (H3 : 2 < List.length (unique (y_true ++ y_pred)))
      by (apply three_distinct_labels with (a := a) (b := b) (c := c); auto).
    apply Nat.ltb_lt in H3. now rewrite H3.
Qed.

Lemma X3_multiclass_labels_write_nothing_witness :
  is_ok (accuracy_score [2; 0]%Z [1; 0]%Z) = true
  /\ main [("ejection_fraction"%string, IntCol [20; 60]%Z);
           ("DEATH_EVENT"%string, IntCol [2; 0]%Z)]
          threshold_pipeline "results" 123
     = Raise (ValueError multiclass_msg).
Proof.
  apply (@X3_multiclass_labels_write_nothing
           [("ejection_fraction"%string, IntCol [20; 60]%Z);
            ("DEATH_EVENT"%string, IntCol [2; 0]%Z)]
           threshold_pipeline "results" 123
           (IntCol [2; 0]%Z) [2; 0]%Z [1; 0]%Z 2%Z 0%Z 1%Z);
    try reflexivity; try discriminate; simpl; auto.
  unfold valid_seed. lia.
Defined.

End EvaluatorFailures.

(* ===================================================================== *)
(** * The evaluation script: the two files *)
(* ===================================================================== *)

Section EvaluatorFiles.
Import Pandas Metrics Evaluator Samples.

Lemma position_in (x : Z) (l : list Z) :
  In x l -> exists i, position x l = Some i /\ nth_error l i = Some x.
Proof.
  induction l as [| y t IH]; simpl; intros H.
  - contradiction.
  - destruct (Z.eqb_spec y x) as [-> | Hne].
    + exists 0. auto.
    + destruct H as [-> | H]; [contradiction |].
      destruct (IH H) as [i [Hp Hn]]. exists (S i).
      rewrite Hp. auto.
Qed.

Lemma position_absent (x : Z) (l : list Z) : ~ In x l -> position x l = None.
Proof.
  induction l as [| y t IH]; simpl; intros H; auto.
  destruct (Z.eqb_spec y x) as [-> | Hne]; [tauto |].
  rewrite IH; auto.
Qed.

Lemma crosstab_cell (y_true y_pred : list Z) (rn cn : string) (r c : Z) :
  List.length y_true = List.length y_pred ->
  In r y_true -> In c y_pred ->
  cell (crosstab y_true y_pred rn cn) r c
  = Some (count_pair (combine y_true y_pred) r c).
Proof.
  intros L Hr Hc. unfold cell, crosstab; simpl.
  rewrite (map_fst_combine_eq _ _ L), (map_snd_combine_eq _ _ L).
  destruct (position_in r (unique y_true)) as [i [Hi Hi']];
    [now apply in_unique |].
  destruct (position_in c (unique y_pred)) as [j [Hj Hj']];
    [now apply in_unique |].
  rewrite Hi, Hj.
  rewrite (nth_error_nth _ _ [] (map_nth_error _ _ _ Hi')).
  now rewrite (map_nth_error _ _ _ Hj').
Qed.

Lemma crosstab_cell_absent (y_true y_pred : list Z) (rn cn : string) (r c : Z) :
  List.length y_true = List.length y_pred ->
  ~ In r y_true \/ ~ In c y_pred ->
  cell (crosstab y_true y_pred rn cn) r c = None.
Proof.
  intros L H. unfold cell, crosstab; simpl.
  rewrite (map_fst_combine_eq _ _ L), (map_snd_combine_eq _ _ L).
  destruct H as [H | H].
  - rewrite (position_absent r (unique y_true)); auto.
    now rewrite in_unique.
  - rewrite (position_absent c (unique y_pred)).
    + destruct (position r (unique y_true)); reflexivity.
    + now rewrite in_unique.
Qed.

Lemma count_pair_absent (y_true y_pred : list Z) (r c : Z) :
  ~ In r y_true \/ ~ In c y_pred ->
  count_pair (combine y_true y_pred) r c = 0.
Proof.
  intros H. unfold count_pair.
  rewrite (proj2 (List.length_zero_iff_nil _)); auto.
  destruct (filter _ (combine y_true y_pred)) as [| p t] eqn:E; auto.
  exfalso.
  assert (Hin : In p (filter (fun p => Z.eqb (fst p) r && Z.eqb (snd p) c)
                             (combine y_true y_pred)))
    by (rewrite E; now left).
  apply filter_In in Hin. destruct Hin as [Hp Hb].
  apply andb_true_iff in Hb. destruct Hb as [H1 H2].
  apply Z.eqb_eq in H1, H2. destruct p as [a b]; simpl in *; subst.
  destruct H as [H | H]; apply H.
  - eapply in_combine_l; eauto.
  - eapply in_combine_r; eauto.
Qed.

Lemma cell_or_zero_to_csv (t : Crosstab) (r c : Z) :
  cell_or_zero (to_csv t) r c = cell_or_zero t r c.
Proof. reflexivity. Qed.

Lemma cell_or_zero_crosstab (y_true y_pred : list Z) (rn cn : string) (r c : Z) :
  List.length y_true = List.length y_pred ->
  cell_or_zero (crosstab y_true y_pred rn cn) r c
  = rows_where r c y_true y_pred.
Proof.
  intros L. unfold cell_or_zero.
  destruct (in_dec Z.eq_dec r y_true) as [Hr | Hr];
    [destruct (in_dec Z.eq_dec c y_pred) as [Hc | Hc] |].
  - now rewrite crosstab_cell.
  - rewrite crosstab_cell_absent by auto.
    symmetry. apply (count_pair_absent y_true y_pred r c). auto.
  - rewrite crosstab_cell_absent by auto.
    symmetry. apply (count_pair_absent y_true y_pred r c). auto.
Qed.

(** A run that writes its files took the actual labels from the column
    [DEATH_EVENT] of the test set and the predicted labels from the
    pipeline, seeded as asked. *)
Lemma main_ok_labels (test : DataFrame) (fit : Pipeline) (dir : string) (seed : Z)
      (written : list (string * FileContent)) :
  main test fit dir seed = Ok written ->
  exists death_event y_true y_pred,
    getitem test "DEATH_EVENT" = Ok death_event
    /\ labels death_event = Ok y_true
    /\ predict fit (mkRandomState seed) test = Ok y_pred
    /\ written = outputs dir y_true y_pred
    /\ List.length y_pred = nrows test
    /\ List.length y_true = List.length y_pred.
Proof.
  rewrite main_steps. intros H. unfold np_random_seed in H.
  destruct (Z.leb 0 seed && Z.ltb seed (2 ^ 32)); simpl in H; try discriminate.
  destruct (predict fit (mkRandomState seed) test) as [y_pred |] eqn:Ep;
    simpl in H; try discriminate.
  destruct (Nat.eqb_spec (List.length y_pred) (nrows test)) as [L |];
    try discriminate.
  destruct (getitem test "DEATH_EVENT") as [de |] eqn:Eg; simpl in H;
    try discriminate.
  destruct (labels de) as [y_true |] eqn:El; simpl in H; try discriminate.
  unfold check_consistent_length in H.
  destruct (Nat.eqb_spec (List.length y_true) (List.length y_pred)) as [L' |];
    simpl in H; try discriminate.
  destruct (check_binary y_true y_pred) as [[] |]; simpl in H; try discriminate.
  injection H as <-. exists de, y_true, y_pred. auto 10.
Qed.

(** X4: in a run that writes its files, with [y_true] the labels of the
    column [DEATH_EVENT] of the test set and [y_pred] the labels the
    pipeline predicts for it, the matrix written lists the values of
    [y_true] as rows and the values of [y_pred] as columns, each once and in
    ascending order; the cell of an actual label [r] and a predicted label
    [c] that both occur is the number of rows with actual label [r] and
    predicted label [c], and there is no cell for a label that does not
    occur. *)
Theorem X4_confusion_matrix_axes_and_cells
  (test : DataFrame) (fit : Pipeline) (dir : string) (seed : Z)
  (written : list (string * FileContent)) :
  main test fit dir seed = Ok written ->
  exists death_event y_true y_pred cm sc,
    getitem test "DEATH_EVENT" = Ok death_event
    /\ labels death_event = Ok y_true
    /\ predict fit (mkRandomState seed) test = Ok y_pred
    /\ written = [ (path_join dir "confusion_matrix.csv", CrosstabCsv cm);
                   (path_join dir "test_scores.csv", ScoresCsv sc) ]
    /\ List.length y_true = nrows test
    /\ List.length y_pred = nrows test
    /\ increasing (index cm) /\ increasing (columns cm)
    /\ (forall r, In r (index cm) <-> In r y_true)
    /\ (forall c, In c (columns cm) <-> In c y_pred)
    /\ (forall r c, In r y_true -> In c y_pred ->
                    cell cm r c = Some (rows_where r c y_true y_pred))
    /\ (forall r c, ~ In r y_true \/ ~ In c y_pred -> cell cm r c = None).
Proof.
  intros H.
  destruct (main_ok_labels _ _ _ _ H)
    as [de [y_true [y_pred [Hg [Hl [Hp [-> [L1 L2]]]]]]]].
  destruct (crosstab_axes y_true y_pred "Actual" "Predicted" L2) as [Hi [Hc _]].
  exists de, y_true, y_pred,
         (to_csv (crosstab y_true y_pred "Actual" "Predicted")),
         (scores_of y_true y_pred).
  do 3 (split; [assumption |]).
  split; [reflexivity |]. split; [congruence |]. split; [exact L1 |].
  rewrite index_to_csv, columns_to_csv, Hi, Hc.
  split; [apply increasing_unique |]. split; [apply increasing_unique |].
  split; [intros r; apply in_unique |]. split; [intros c; apply in_unique |].
  split.
  - intros r c Hr Hc'. rewrite cell_to_csv. now apply crosstab_cell.
  - intros r c Hrc. rewrite cell_to_csv. now apply crosstab_cell_absent.
Qed.

Lemma X4_confusion_matrix_axes_and_cells_witness :
  exists death_event y_true y_pred cm sc,
    getitem test4 "DEATH_EVENT" = Ok death_event
    /\ labels death_event = Ok y_true
    /\ predict threshold_pipeline (mkRandomState 123) test4 = Ok y_pred
    /\ outputs "results" [1; 0; 1; 0]%Z [1; 0; 0; 0]%Z
       = [ (path_join "results" "confusion_matrix.csv", CrosstabCsv cm);
           (path_join "results" "test_scores.csv", ScoresCsv sc) ]
    /\ List.length y_true = nrows test4
    /\ List.length y_pred = nrows test4
    /\ increasing (index cm) /\ increasing (columns cm)
    /\ (forall r, In r (index cm) <-> In r y_true)
    /\ (forall c, In c (columns cm) <-> In c y_pred)
    /\ (forall r c, In r y_true -> In c y_pred ->
                    cell cm r c = Some (rows_where r c y_true y_pred))
    /\ (forall r c, ~ In r y_true \/ ~ In c y_pred -> cell cm r c = None).
Proof.
  apply (@X4_confusion_matrix_axes_and_cells
           test4 threshold_pipeline "results" 123).
  exact (main_succeeds "results" test4_input).
Defined.

(** X5: the two files agree.  On binary labels, the scores written are
    the ratios of the cells of the matrix written, a cell that is not in
    the matrix counting as 0: accuracy is the diagonal over the total,
    precision is cell (1,1) over column 1, recall is cell (1,1) over row 1. *)
Theorem X5_scores_from_confusion_matrix
  (test : DataFrame) (fit : Pipeline) (dir : string) (seed : Z)
  (y_true y_pred : list Z) :
  evaluator_input test fit seed y_true y_pred ->
  nrows test <> 0 ->
  exists cm sc,
    main test fit dir seed
    = Ok [ (path_join dir "confusion_matrix.csv", CrosstabCsv cm);
           (path_join dir "test_scores.csv", ScoresCsv sc) ]
    /\ (accuracy sc
        == QN (cell_or_zero cm 1 1 + cell_or_zero cm 0 0) / QN (total cm))%Q
    /\ (precision sc
        == QN (cell_or_zero cm 1 1)
           / QN (cell_or_zero cm 1 1 + cell_or_zero cm 0 1))%Q
    /\ (recall sc
        == QN (cell_or_zero cm 1 1)
           / QN (cell_or_zero cm 1 1 + cell_or_zero cm 1 0))%Q.
Proof.
  intros Hin Hne.
  destruct (evaluator_input_lengths Hin) as [L1 L2].
  assert (L : List.length y_true = List.length y_pred) by congruence.
  destruct (binary_counts (input_actual_binary Hin) (input_predicted_binary Hin))
    as [Htp [Hpred [Htrue [Hacc Hlen]]]].
  exists (to_csv (crosstab y_true y_pred "Actual" "Predicted")), (scores_of y_true y_pred).
  split; [exact (main_succeeds dir Hin) |].
  rewrite !cell_or_zero_to_csv, total_to_csv.
  rewrite !(cell_or_zero_crosstab y_true y_pred "Actual" "Predicted" _ _ L).
  rewrite total_crosstab, length_combine, L1, L2, Nat.min_id.
  fold (TP y_true y_pred) (FP y_true y_pred) (FN y_true y_pred) (TN y_true y_pred).
  split.
  { simpl. rewrite Qmake_Qdiv, Zpos_of_nat, Hacc, L1 by lia. reflexivity. }
  split.
  { simpl. rewrite prf_divide_ratio, Htp, Hpred. reflexivity. }
  simpl. rewrite prf_divide_ratio, Htp, Htrue. reflexivity.
Qed.

Lemma X5_scores_from_confusion_matrix_witness :
  exists cm sc,
    main test2 threshold_pipeline "results" 123
    = Ok [ (path_join "results" "confusion_matrix.csv", CrosstabCsv cm);
           (path_join "results" "test_scores.csv", ScoresCsv sc) ]
    /\ (accuracy sc
        == QN (cell_or_zero cm 1 1 + cell_or_zero cm 0 0) / QN (total cm))%Q
    /\ (precision sc
        == QN (cell_or_zero cm 1 1)
           / QN (cell_or_zero cm 1 1 + cell_or_zero cm 0 1))%Q
    /\ (recall sc
        == QN (cell_or_zero cm 1 1)
           / QN (cell_or_zero cm 1 1 + cell_or_zero cm 1 0))%Q.
Proof.
  apply (X5_scores_from_confusion_matrix "results" test2_input).
  simpl. lia.
Defined.

(** ** Two particular pipelines *)

Lemma counts_all_negative (y_true y_pred : list Z) :
  Forall (fun p => p = 0%Z) y_pred ->
  List.length y_true = List.length y_pred ->
  tp_sum y_true y_pred = 0
  /\ pred_sum y_true y_pred = 0
  /\ count_rows Z.eqb y_true y_pred = count_occ Z.eq_dec y_true 0%Z.
Proof.
  unfold tp_sum, pred_sum, count_rows, pos_label.
  intros Hp. revert y_true.
  induction Hp as [| p u -> _ IH]; intros [| a t] L; simpl in *;
    try discriminate; auto.
  destruct (IH t ltac:(lia)) as [H1 [H2 H3]].
  rewrite andb_false_r.
  destruct (Z.eq_dec a 0) as [-> | Hne]; simpl.
  - auto.
  - apply Z.eqb_neq in Hne. rewrite Hne. auto.
Qed.

(** X6: a pipeline that predicts the negative class for every row gets
    precision 0, recall 0 and f1 0, and its accuracy is the share of rows
    whose actual label is 0. *)
Theorem X6_all_negative_predictions
  (test : DataFrame) (fit : Pipeline) (dir : string) (seed : Z)
  (y_true y_pred : list Z) :
  evaluator_input test fit seed y_true y_pred ->
  Forall (fun p => p = 0%Z) y_pred ->
  nrows test <> 0 ->
  exists cm sc,
    main test fit dir seed
    = Ok [ (path_join dir "confusion_matrix.csv", CrosstabCsv cm);
           (path_join dir "test_scores.csv", ScoresCsv sc) ]
    /\ precision sc = 0%Q
    /\ (recall sc == 0)%Q
    /\ (f1 sc == 0)%Q
    /\ (accuracy sc
        == QN (count_occ Z.eq_dec y_true 0%Z) / QN (nrows test))%Q.
Proof.
  intros Hin Hzero Hne.
  destruct (evaluator_input_lengths Hin) as [L1 L2].
  destruct (@counts_all_negative y_true y_pred Hzero ltac:(congruence))
    as [Htp [Hpred Hacc]].
  exists (to_csv (crosstab y_true y_pred "Actual" "Predicted")), (scores_of y_true y_pred).
  split; [exact (main_succeeds dir Hin) |]. simpl.
  rewrite Htp, Hpred, Hacc. simpl.
  split; [reflexivity |].
  split.
  { unfold prf_divide. destruct (Nat.eqb (true_sum y_true y_pred) 0); reflexivity. }
  split.
  { unfold prf_divide.
    destruct (Nat.eqb (true_sum y_true y_pred + 0) 0); reflexivity. }
  rewrite Qmake_Qdiv, Zpos_of_nat, L1 by lia. reflexivity.
Qed.

Lemma X6_all_negative_predictions_witness :
  exists cm sc,
    main test2 threshold_pipeline "results" 123
    = Ok [ (path_join "results" "confusion_matrix.csv", CrosstabCsv cm);
           (path_join "results" "test_scores.csv", ScoresCsv sc) ]
    /\ precision sc = 0%Q
    /\ (recall sc == 0)%Q
    /\ (f1 sc == 0)%Q
    /\ (accuracy sc
        == QN (count_occ Z.eq_dec [1; 0]%Z 0%Z) / QN (nrows test2))%Q.
Proof.
  apply (X6_all_negative_predictions "results" test2_input).
  - repeat constructor.
  - simpl. lia.
Defined.

Lemma counts_perfect (y : list Z) :
  count_rows Z.eqb y y = List.length y
  /\ tp_sum y y = count_occ Z.eq_dec y 1%Z
  /\ pred_sum y y = count_occ Z.eq_dec y 1%Z
  /\ true_sum y y = count_occ Z.eq_dec y 1%Z.
Proof.
  unfold tp_sum, pred_sum, true_sum, count_rows, pos_label.
  induction y as [| a t [H1 [H2 [H3 H4]]]]; simpl; auto.
  rewrite Z.eqb_refl. simpl.
  destruct (Z.eq_dec a 1) as [-> | Hne]; simpl.
  - rewrite H1, H2, H3, H4. auto.
  - apply Z.eqb_neq in Hne. rewrite Hne. simpl.
    rewrite H1, H2, H3, H4. auto.
Qed.

Lemma prf_divide_same (k : nat) : k <> 0 -> (prf_divide k k == 1)%Q.
Proof.
  intros H. unfold prf_divide.
  destruct (Nat.eqb_spec k 0); [contradiction |].
  unfold Qeq; simpl. rewrite Zpos_of_nat by auto. lia.
Qed.

(** X7: a pipeline whose predictions equal the actual labels gets
    accuracy 1; precision, recall and f1 are 1 when some row is positive
    and 0 (the value of a ratio without denominator) when none is. *)
Theorem X7_perfect_predictions
  (test : DataFrame) (fit : Pipeline) (dir : string) (seed : Z)
  (y : list Z) :
  evaluator_input test fit seed y y ->
  nrows test <> 0 ->
  exists cm sc,
    main test fit dir seed
    = Ok [ (path_join dir "confusion_matrix.csv", CrosstabCsv cm);
           (path_join dir "test_scores.csv", ScoresCsv sc) ]
    /\ (accuracy sc == 1)%Q
    /\ (In 1%Z y ->
        (precision sc == 1)%Q /\ (recall sc == 1)%Q /\ (f1 sc == 1)%Q)
    /\ (~ In 1%Z y ->
        precision sc = 0%Q /\ recall sc = 0%Q /\ f1 sc = 0%Q).
Proof.
  intros Hin Hne.
  destruct (evaluator_input_lengths Hin) as [L1 _].
  destruct (counts_perfect y) as [Hacc [Htp [Hpred Htrue]]].
  exists (to_csv (crosstab y y "Actual" "Predicted")), (scores_of y y).
  split; [exact (main_succeeds dir Hin) |]. simpl.
  rewrite Hacc, Htp, Hpred, Htrue.
  split.
  { unfold Qeq; simpl. rewrite Zpos_of_nat by lia. lia. }
  split.
  - intros H1. apply (count_occ_In Z.eq_dec) in H1.
    split; [apply prf_divide_same; lia |].
    split; [apply prf_divide_same; lia |].
    replace (count_occ Z.eq_dec y 1%Z + (count_occ Z.eq_dec y 1%Z + 0))
      with (count_occ Z.eq_dec y 1%Z + count_occ Z.eq_dec y 1%Z) by lia.
    apply prf_divide_same. lia.
  - intros H0. apply (count_occ_not_In Z.eq_dec) in H0. rewrite H0.
    auto.
Qed.

Lemma X7_perfect_predictions_witness :
  exists cm sc,
    main [("ejection_fraction"%string, IntCol [20; 60]%Z);
          ("DEATH_EVENT"%string, IntCol [1; 0]%Z)]
         threshold_pipeline "results" 123
    = Ok [ (path_join "results" "confusion_matrix.csv", CrosstabCsv cm);
           (path_join "results" "test_scores.csv", ScoresCsv sc) ]
    /\ (accuracy sc == 1)%Q
    /\ (In 1%Z [1; 0]%Z ->
        (precision sc == 1)%Q /\ (recall sc == 1)%Q /\ (f1 sc == 1)%Q)
    /\ (~ In 1%Z [1; 0]%Z ->
        precision sc = 0%Q /\ recall sc = 0%Q /\ f1 sc = 0%Q).
Proof.
  apply (@X7_perfect_predictions
           [("ejection_fraction"%string, IntCol [20; 60]%Z);
            ("DEATH_EVENT"%string, IntCol [1; 0]%Z)]
           threshold_pipeline "results" 123 [1; 0]%Z).
  - constructor.
    + repeat constructor.
    + unfold valid_seed. lia.
    + exists (IntCol [1; 0]%Z). split; reflexivity.
    + reflexivity.
    + reflexivity.
    + unfold binary.
      repeat (apply Forall_cons;
              [first [left; reflexivity | right; reflexivity] |]).
      apply Forall_nil.
    + unfold binary.
      repeat (apply Forall_cons;
              [first [left; reflexivity | right; reflexivity] |]).
      apply Forall_nil.
  - simpl. lia.
Defined.

End EvaluatorFiles.

(* ===================================================================== *)
(** * preprocess_data: failures and repeated calls *)
(* ===================================================================== *)

Unset Implicit Arguments.

Section PreprocessFailures.
Import Pandas Preprocessing CorrelationAnalysis CorrelationSamples.

Local Open Scope result_scope.

Lemma in_unique_labels (c : string) (l : list string) :
  In c (unique_labels l) <-> In c l.
Proof.
  induction l as [| a t IH]; simpl; [tauto |].
  rewrite filter_In, IH.
  destruct (String.eqb_spec a c) as [-> | Hne]; simpl.
  - tauto.
  - intuition congruence.
Qed.

Lemma filter_all {A : Type} (f : A -> bool) (l : list A) :
  List.length (filter f l) = List.length l -> filter f l = l.
Proof.
  induction l as [| a t IH]; simpl; auto.
  destruct (f a); simpl; intros H.
  - f_equal. apply IH. lia.
  - pose proof (filter_length_le f t). lia.
Qed.

(** The labels the message names are the listed labels that are not
    columns. *)
Lemma in_labels_in_message (df : DataFrame) (cols : list string) (c : string) :
  In c (labels_in_message df cols)
  <-> In c cols /\ has_column df c = false.
Proof.
  unfold labels_in_message.
  destruct (Nat.eqb_spec (List.length (not_found df cols)) (List.length cols))
    as [E | _].
  - apply filter_all in E. fold (not_found df cols) in E.
    rewrite <- E at 1. unfold not_found. rewrite filter_In.
    now rewrite negb_true_iff.
  - rewrite in_unique_labels. unfold not_found. rewrite filter_In.
    now rewrite negb_true_iff.
Qed.

Lemma getitems_not_found (df : DataFrame) (cols : list string) :
  not_found df cols <> [] ->
  getitems df cols = Raise (KeyErrorNotInIndex (labels_in_message df cols)).
Proof.
  unfold getitems. destruct (not_found df cols); [contradiction | reflexivity].
Qed.

Lemma cast_binary_not_found (df : DataFrame) (cols : list string) :
  not_found df cols <> [] ->
  cast_binary df cols = Raise (KeyErrorNotInIndex (labels_in_message df cols)).
Proof.
  intros H. unfold cast_binary. now rewrite (getitems_not_found _ _ H).
Qed.

(** X8: when the training frame lacks some of [binary_columns], the call
    raises [KeyError] at line 30, both frames are left as they were, and
    the labels the message names are the listed columns that the training
    frame lacks. *)
Theorem X8_missing_binary_column_in_train
  (st : Frames) (num bin : list string) :
  not_found (train_df st) bin <> [] ->
  preprocess_data st num bin
  = (Raise (KeyErrorNotInIndex (labels_in_message (train_df st) bin)), st)
  /\ (forall c, In c (labels_in_message (train_df st) bin)
                <-> In c bin /\ has_column (train_df st) c = false).
Proof.
  intros H. split; [| intros c; apply in_labels_in_message].
  unfold preprocess_data.
  now rewrite (cast_binary_not_found _ _ H).
Qed.

Lemma X8_missing_binary_column_in_train_witness :
  preprocess_data (mkFrames [("age"%string, IntCol [40; 50]%Z)] small_test)
                  ["age"%string] ["sex"%string; "smoking"%string]
  = (Raise (KeyErrorNotInIndex ["sex"%string; "smoking"%string]),
     mkFrames [("age"%string, IntCol [40; 50]%Z)] small_test)
  /\ (forall c, In c ["sex"%string; "smoking"%string]
                <-> In c ["sex"%string; "smoking"%string]
                    /\ has_column [("age"%string, IntCol [40; 50]%Z)] c = false).
Proof.
  apply (X8_missing_binary_column_in_train
           (mkFrames [("age"%string, IntCol [40; 50]%Z)] small_test)
           ["age"%string] ["sex"%string; "smoking"%string]).
  discriminate.
Defined.

(** X9: when only the test frame lacks some of [binary_columns], the call
    raises [KeyError] at line 31, after line 30 has been carried out: the
    caller's training frame has its binary columns cast to boolean, the
    test frame is untouched.  The labels the message names are the listed
    columns that the test frame lacks. *)
Theorem X9_missing_binary_column_in_test
  (st : Frames) (num bin : list string) :
  not_found (train_df st) bin = [] ->
  not_found (test_df st) bin <> [] ->
  exists train',
    preprocess_data st num bin
    = (Raise (KeyErrorNotInIndex (labels_in_message (test_df st) bin)),
       mkFrames train' (test_df st))
    /\ map fst train' = map fst (train_df st)
    /\ (forall b, In b bin ->
        exists s, getitem (train_df st) b = Ok s
                  /\ getitem train' b = Ok (astype_bool s))
    /\ (forall b, ~ In b bin -> getitem train' b = getitem (train_df st) b)
    /\ (forall c, In c (labels_in_message (test_df st) bin)
                  <-> In c bin /\ has_column (test_df st) c = false).
Proof.
  intros Htr Hte.
  destruct (cast_binary_total (train_df st) bin) as [train' E1].
  { now apply not_found_nil. }
  exists train'.
  destruct (cast_binary_spec _ _ E1) as [N [O I]].
  split; [| split; [exact N |]; split; [exact I |]; split; [exact O |];
            intros c; apply in_labels_in_message].
  unfold preprocess_data. rewrite E1; simpl.
  now rewrite (cast_binary_not_found _ _ Hte).
Qed.

Lemma X9_missing_binary_column_in_test_witness :
  exists train',
    preprocess_data (mkFrames small_train [("age"%string, IntCol [45; 65]%Z)])
                    ["age"%string] ["sex"%string]
    = (Raise (KeyErrorNotInIndex ["sex"%string]),
       mkFrames train' [("age"%string, IntCol [45; 65]%Z)])
    /\ map fst train' = map fst small_train
    /\ (forall b, In b ["sex"%string] ->
        exists s, getitem small_train b = Ok s
                  /\ getitem train' b = Ok (astype_bool s))
    /\ (forall b, ~ In b ["sex"%string] ->
        getitem train' b = getitem small_train b)
    /\ (forall c, In c ["sex"%string]
                  <-> In c ["sex"%string]
                      /\ has_column [("age"%string, IntCol [45; 65]%Z)] c = false).
Proof.
  apply (X9_missing_binary_column_in_test
           (mkFrames small_train [("age"%string, IntCol [45; 65]%Z)])
           ["age"%string] ["sex"%string]);
    [reflexivity | discriminate].
Defined.

(** ** A second call *)

Lemma setitem_same (df : DataFrame) (name : string) (s : Series) :
  getitem df name = Ok s -> setitem df name s = df.
Proof.
  induction df as [| [n old] rest IH]; simpl; intros H.
  - discriminate.
  - destruct (String.eqb n name) eqn:E.
    + now injection H as ->.
    + now rewrite IH.
Qed.

Lemma setitems_same (df : DataFrame) (sel : list (string * Series)) :
  Forall (fun cs => getitem df (fst cs) = Ok (snd cs)) sel ->
  setitems df sel = df.
Proof.
  unfold setitems.
  induction 1 as [| [n s] t Hn _ IH]; simpl; auto.
  simpl in Hn. now rewrite (setitem_same _ _ _ Hn).
Qed.

(** Casting a frame whose listed columns are boolean changes nothing. *)
Lemma cast_binary_fixed (df : DataFrame) (cols : list string) :
  (forall c, In c cols -> exists l, getitem df c = Ok (BoolCol l)) ->
  cast_binary df cols = Ok df.
Proof.
  intros H.
  destruct (cast_binary_total df cols) as [df' E].
  { intros c Hc. destruct (H c Hc) as [l Hl].
    apply has_column_getitem. eauto. }
  rewrite E. f_equal.
  unfold cast_binary in E.
  destruct (getitems df cols) as [sel |] eqn:Es; simpl in E; try discriminate.
  injection E as <-.
  destruct (getitems_names _ _ Es) as [Hn Hv].
  apply setitems_same. unfold astype_bool_all.
  rewrite Forall_map. rewrite Forall_forall in *.
  intros [n s] Hns. simpl. specialize (Hv _ Hns). simpl in Hv.
  assert (Hc : In n cols).
  { rewrite <- Hn. apply in_map_iff. exists (n, s). auto. }
  destruct (H n Hc) as [l Hl]. rewrite Hl in Hv. injection Hv as <-.
  exact Hl.
Qed.

(** X10: the boolean cast is done once.  Calling [preprocess_data] again
    on the frames a returning call has left gives the same tables and
    names and leaves those frames as they are. *)
Theorem X10_second_call_changes_nothing
  (st st' : Frames) (num bin : list string)
  (out : Table * Table * list string) :
  preprocess_data st num bin = (Ok out, st') ->
  preprocess_data st' num bin = (Ok out, st').
Proof.
  intros H.
  destruct (preprocess_data_ok_inv _ _ _ H) as [C1 [C2 Hft]].
  assert (B : forall df df', cast_binary df bin = Ok df' ->
                             cast_binary df' bin = Ok df').
  { intros df df' E. apply cast_binary_fixed. intros c Hc.
    destruct (cast_binary_spec _ _ E) as [_ [_ I]].
    destruct (I c Hc) as [s [_ Hs]].
    destruct (astype_bool s) as [zs | qs | l] eqn:Ea.
    - pose proof (astype_bool_dtype s) as D. rewrite Ea in D. discriminate.
    - pose proof (astype_bool_dtype s) as D. rewrite Ea in D. discriminate.
    - eauto. }
  unfold preprocess_data.
  rewrite (B _ _ C1); simpl. rewrite (B _ _ C2); simpl.
  destruct st' as [tr te]; simpl in *. now rewrite Hft.
Qed.

Lemma X10_second_call_changes_nothing_witness :
  exists out st',
    preprocess_data (mkFrames small_train small_test)
                    ["age"%string] ["sex"%string] = (Ok out, st')
    /\ preprocess_data st' ["age"%string] ["sex"%string] = (Ok out, st').
Proof.
  do 2 eexists. split; [reflexivity |].
  eapply (X10_second_call_changes_nothing
            (mkFrames small_train small_test) _
            ["age"%string] ["sex"%string]).
  reflexivity.
Defined.

End PreprocessFailures.

(* ===================================================================== *)
(** * preprocess_data: the tables it returns *)
(* ===================================================================== *)

Section PreprocessTables.
Import Pandas Preprocessing CorrelationAnalysis CorrelationSamples.

Local Open Scope result_scope.

Lemma scaled_names (X : DataFrame) (l : list (string * ScalerParams))
      (a : list (string * list R)) :
  Forall2 (fun cp col => scaled_column X cp = Ok col) l a ->
  map fst a = map (fun cp => ("standardscaler__" ++ fst cp)%string) l.
Proof.
  induction 1 as [| cp col l a H _ IH]; simpl; auto.
  rewrite IH. f_equal.
  unfold scaled_column in H.
  destruct (select_fitted X (fst cp)) as [s |]; simpl in H; try discriminate.
  destruct (scaler_transform (snd cp) (to_floats s)); simpl in H;
    try discriminate.
  now injection H as <-.
Qed.

Lemma encoded_names (X : DataFrame) (l : list (string * list bool))
      (b : list (list (string * list R))) :
  Forall2 (fun cc blk => encoded_columns UnknownIgnore X cc = Ok blk) l b ->
  map fst (List.concat b)
  = flat_map (fun cc : string * list bool =>
                map (fun k => ("onehotencoder__" ++ fst cc ++ "_" ++ bool_repr k)%string)
                    (kept_categories (snd cc))) l.
Proof.
  induction 1 as [| cc blk l b H _ IH]; simpl; auto.
  rewrite map_app, IH. f_equal.
  unfold encoded_columns in H.
  destruct (select_fitted X (fst cc)) as [s |]; simpl in H; try discriminate.
  destruct (bool_values s) as [v |]; simpl in H; try discriminate.
  destruct v as [| v0 vs]; simpl in H; try discriminate.
  injection H as <-.
  unfold encode_columns. rewrite !map_map. reflexivity.
Qed.

Lemma passed_names (X : DataFrame) (l : list string)
      (c : list (string * list R)) :
  Forall2 (fun n col => passed_column X n = Ok col) l c ->
  map fst c = map (fun n => ("remainder__" ++ n)%string) l.
Proof.
  induction 1 as [| n col l c H _ IH]; simpl; auto.
  rewrite IH. f_equal.
  unfold passed_column in H.
  destruct (select_fitted X n); simpl in H; try discriminate.
  now injection H as <-.
Qed.

Lemma transform_names (t : ColumnTransformer) (X : DataFrame) (tab : Table) :
  handle_unknown t = UnknownIgnore ->
  transform t X = Ok tab ->
  map fst tab = get_feature_names_out t.
Proof.
  intros Hhu H.
  destruct (transform_inv _ _ H) as [a [b [c [-> [Ha [Hb Hc]]]]]].
  rewrite Hhu in Hb.
  unfold get_feature_names_out.
  rewrite !map_app.
  now rewrite (scaled_names _ _ _ Ha), (encoded_names _ _ _ Hb),
    (passed_names _ _ _ Hc).
Qed.

(** X11: the two tables a call returns have the same columns in the same
    order, and the list of names returned with them is that list of
    columns (lines 46-50). *)
Theorem X11_tables_share_their_columns
  (st st' : Frames) (num bin : list string)
  (train_scaled test_scaled : Table) (names : list string) :
  preprocess_data st num bin = (Ok (train_scaled, test_scaled, names), st') ->
  map fst train_scaled = names /\ map fst test_scaled = names.
Proof.
  intros H.
  destruct (preprocess_data_ok_inv _ _ _ H) as [_ [_ Hft]].
  destruct (fit_transform_inv _ _ _ Hft) as [t [Hfit [Htr [Hte ->]]]].
  destruct (fit_inv _ _ _ _ Hfit) as [Hhu _].
  split; eapply transform_names; eauto.
Qed.

Lemma X11_tables_share_their_columns_witness :
  exists train_scaled test_scaled names st',
    preprocess_data (mkFrames one_sex_train small_test)
                    ["age"%string] ["sex"%string]
    = (Ok (train_scaled, test_scaled, names), st')
    /\ map fst train_scaled = names /\ map fst test_scaled = names.
Proof.
  do 4 eexists. split; [reflexivity |].
  eapply (X11_tables_share_their_columns
            (mkFrames one_sex_train small_test) _
            ["age"%string] ["sex"%string]).
  reflexivity.
Defined.

(** After the cast every column of a well-formed frame still has one
    entry per row. *)
Lemma cast_binary_lengths (df df' : DataFrame) (bin : list string) :
  cast_binary df bin = Ok df' -> well_formed df ->
  forall c s, getitem df' c = Ok s -> series_length s = nrows df.
Proof.
  intros E Hwf c s Hg.
  destruct (cast_binary_spec _ _ E) as [_ [O I]].
  destruct (in_dec string_dec c bin) as [Hc | Hc].
  - destruct (I c Hc) as [s0 [G0 G1]].
    rewrite G1 in Hg. injection Hg as <-.
    rewrite astype_bool_length. eapply getitem_length; eauto.
  - rewrite (O c Hc) in Hg. eapply getitem_length; eauto.
Qed.

Lemma Forall2_Forall_right {A B : Type} (P : A -> B -> Prop) (Q : B -> Prop)
      (l : list A) (l' : list B) :
  (forall x y, P x y -> Q y) -> Forall2 P l l' -> Forall Q l'.
Proof.
  intros H. induction 1; constructor; eauto.
Qed.

Lemma transform_lengths (t : ColumnTransformer) (X : DataFrame) (tab : Table)
      (n : nat) :
  (forall c s, getitem X c = Ok s -> series_length s = n) ->
  transform t X = Ok tab ->
  Forall (fun col => List.length (snd col) = n) tab.
Proof.
  intros HX H.
  destruct (transform_inv _ _ H) as [a [b [c [-> [Ha [Hb Hc]]]]]].
  apply Forall_app. split; [| apply Forall_app; split].
  - eapply Forall2_Forall_right; [| exact Ha].
    intros cp col Hcol. simpl in Hcol.
    unfold scaled_column in Hcol.
    destruct (select_fitted X (fst cp)) as [s |] eqn:Es; simpl in Hcol;
      try discriminate.
    apply select_fitted_ok in Es.
    unfold scaler_transform in Hcol.
    destruct (to_floats s) as [| q qs] eqn:Ef; simpl in Hcol;
      try discriminate.
    injection Hcol as <-. simpl.
    rewrite length_map, <- (HX _ _ Es), <- to_floats_length, Ef. reflexivity.
  - apply Forall_concat.
    eapply Forall2_Forall_right; [| exact Hb].
    intros cc blk Hblk. simpl in Hblk.
    unfold encoded_columns in Hblk.
    destruct (select_fitted X (fst cc)) as [s |] eqn:Es; simpl in Hblk;
      try discriminate.
    apply select_fitted_ok in Es.
    destruct s as [zs | qs | v]; simpl in Hblk; try discriminate.
    assert (Hv : List.length v = n) by (rewrite <- (HX _ _ Es); reflexivity).
    destruct (encoder_transform bool_compare (handle_unknown t) (snd cc) v)
      as [cols |] eqn:Ee; simpl in Hblk; try discriminate.
    injection Hblk as <-.
    assert (Hcols : cols = encode_columns bool_compare (snd cc) v).
    { unfold encoder_transform in Ee.
      destruct v; try discriminate.
      destruct (handle_unknown t).
      - destruct (forallb _ _); congruence.
      - congruence. }
    subst cols. unfold encode_columns.
    rewrite Forall_map, Forall_map, Forall_forall. intros k _. simpl.
    now rewrite !length_map.
  - eapply Forall2_Forall_right; [| exact Hc].
    intros m col Hcol. simpl in Hcol.
    unfold passed_column in Hcol.
    destruct (select_fitted X m) as [s |] eqn:Es; simpl in Hcol; try discriminate.
    apply select_fitted_ok in Es. injection Hcol as <-. simpl.
    now rewrite length_map, to_floats_length, (HX _ _ Es).
Qed.

(** X12: the tables keep the rows: on well-formed frames every column of
    the transformed training table has one entry per training row, and
    every column of the transformed test table one entry per test row. *)
Theorem X12_tables_keep_the_rows
  (st st' : Frames) (num bin : list string)
  (train_scaled test_scaled : Table) (names : list string) :
  well_formed (train_df st) -> well_formed (test_df st) ->
  preprocess_data st num bin = (Ok (train_scaled, test_scaled, names), st') ->
  Forall (fun col => List.length (snd col) = nrows (train_df st)) train_scaled
  /\ Forall (fun col => List.length (snd col) = nrows (test_df st)) test_scaled.
Proof.
  intros W1 W2 H.
  destruct (preprocess_data_ok_inv _ _ _ H) as [C1 [C2 Hft]].
  destruct (fit_transform_inv _ _ _ Hft) as [t [_ [Htr [Hte _]]]].
  split.
  - eapply transform_lengths; [| exact Htr].
    exact (cast_binary_lengths _ _ _ C1 W1).
  - eapply transform_lengths; [| exact Hte].
    exact (cast_binary_lengths _ _ _ C2 W2).
Qed.

Lemma X12_tables_keep_the_rows_witness :
  exists train_scaled test_scaled names st',
    preprocess_data (mkFrames small_train small_test)
                    ["age"%string] ["sex"%string]
    = (Ok (train_scaled, test_scaled, names), st')
    /\ Forall (fun col => List.length (snd col) = nrows small_train) train_scaled
    /\ Forall (fun col => List.length (snd col) = nrows small_test) test_scaled.
Proof.
  do 4 eexists. split; [reflexivity |].
  eapply (X12_tables_keep_the_rows
            (mkFrames small_train small_test) _
            ["age"%string] ["sex"%string]).
  - repeat constructor.
  - repeat constructor.
  - reflexivity.
Defined.

End PreprocessTables.

(* ===================================================================== *)
(** * preprocess_data: standardised columns *)
(* ===================================================================== *)

Section Standardisation.
Import Pandas Preprocessing CorrelationAnalysis CorrelationSamples.

Local Open Scope R_scope.

Lemma Q2R_of_Z (z : Z) : Q2R (inject_Z z) = IZR z.
Proof. unfold Q2R; simpl. field. Qed.

Lemma Q2R_of_nat (n : nat) : Q2R (inject_Z (Z.of_nat n)) = INR n.
Proof. now rewrite Q2R_of_Z, INR_IZR_INZ. Qed.

Lemma Q2R_Qsum (l : list Q) : Q2R (Qsum l) = Rsum (map Q2R l).
Proof.
  unfold Qsum, Rsum. induction l as [| q t IH]; simpl.
  - unfold Q2R; simpl. field.
  - now rewrite Q2R_plus, IH.
Qed.

Lemma Q2R_ratio (a : Q) (n : nat) :
  n <> 0%nat -> Q2R (a / inject_Z (Z.of_nat n)) = Q2R a / INR n.
Proof.
  intros Hn. rewrite Q2R_div.
  - now rewrite Q2R_of_nat.
  - intros E. apply Hn.
    assert (H : (Z.of_nat n = 0)%Z).
    { unfold Qeq in E; simpl in E. lia. }
    lia.
Qed.

Lemma Q2R_Qmean (x : list Q) :
  x <> [] -> Q2R (Qmean x) = Rmean (map Q2R x).
Proof.
  intros Hx. unfold Qmean, Rmean.
  rewrite Q2R_ratio, Q2R_Qsum, length_map; auto.
  destruct x; [contradiction | discriminate].
Qed.

Lemma Q2R_Qvar (x : list Q) :
  x <> [] ->
  Q2R (Qvar x)
  = Rsum (map (fun q => (Q2R q - Q2R (Qmean x)) * (Q2R q - Q2R (Qmean x))) x)
    / INR (List.length x).
Proof.
  intros Hx. unfold Qvar.
  rewrite Q2R_ratio, Q2R_Qsum, map_map.
  - f_equal. f_equal. apply map_ext. intros q.
    now rewrite Q2R_mult, Q2R_minus.
  - destruct x; [contradiction | discriminate].
Qed.

Lemma Rsum_shift_scale (f : Q -> R) (m s : R) (x : list Q) :
  s <> 0 ->
  Rsum (map (fun q => (f q - m) / s) x)
  = (Rsum (map f x) - INR (List.length x) * m) / s.
Proof.
  intros Hs. unfold Rsum.
  induction x as [| q t IH].
  - simpl. field. exact Hs.
  - cbn [map fold_right List.length]. rewrite IH, S_INR. field. exact Hs.
Qed.

Lemma Rsum_squares_scale (g : Q -> R) (s : R) (x : list Q) :
  s <> 0 ->
  Rsum (map (fun q => (g q / s - 0) * (g q / s - 0)) x)
  = Rsum (map (fun q => g q * g q) x) / (s * s).
Proof.
  intros Hs. unfold Rsum.
  induction x as [| q t IH].
  - simpl. field. exact Hs.
  - cbn [map fold_right]. rewrite IH. field. exact Hs.
Qed.

Lemma Rsum_nonneg_zero (l : list R) :
  Forall (fun v => 0 <= v) l -> Rsum l = 0 -> Forall (fun v => v = 0) l.
Proof.
  unfold Rsum. induction 1 as [| v t Hv Ht IH]; simpl; intros H.
  - constructor.
  - pose proof (@Rsum_nonneg t Ht) as Hs. unfold Rsum in Hs.
    constructor; [lra | apply IH; lra].
Qed.

(** A column of variance zero is constant for the scaler. *)
Lemma is_constant_feature_zero (var mean : Q) (n : nat) :
  (var == 0)%Q -> is_constant_feature var mean n = true.
Proof.
  intros H. unfold is_constant_feature. apply Qle_bool_iff.
  rewrite H.
  set (a := (inject_Z (Z.of_nat n) * mean * eps)%Q).
  set (b := (inject_Z (Z.of_nat n) * eps)%Q).
  assert (Ha : (0 <= a * a)%Q) by nra.
  lra.
Qed.

Lemma varying_feature_positive (var mean : Q) (n : nat) :
  0 <= Q2R var -> is_constant_feature var mean n = false -> 0 < Q2R var.
Proof.
  intros Hv E.
  destruct Hv as [Hv | Hv]; [exact Hv |].
  exfalso. rewrite is_constant_feature_zero in E; [discriminate |].
  apply eqR_Qeq. rewrite <- Hv. unfold Q2R; simpl. field.
Qed.

Lemma scale_nonzero (p : ScalerParams) : 0 <= Q2R (var_ p) -> scale_ p <> 0.
Proof.
  intros Hv. unfold scale_.
  destruct (is_constant_feature (var_ p) (mean_ p) (n_samples_seen_ p)) eqn:E;
    [lra |].
  apply Rgt_not_eq, sqrt_lt_R0.
  exact (varying_feature_positive _ _ _ Hv E).
Qed.

(** What [StandardScaler] does to the column it was fitted on. *)
Lemma standardize_fitted_column (x : list Q) :
  x <> [] ->
  let p := mkScaler (Qmean x) (Qvar x) (List.length x) in
  let col := map (standardize p) x in
  Rmean col = 0
  /\ (is_constant_feature (Qvar x) (Qmean x) (List.length x) = true ->
      col = map (fun q => Q2R q - Q2R (Qmean x)) x)
  /\ (Qeq_bool (Qvar x) 0 = true -> Forall (fun v => v = 0) col)
  /\ (is_constant_feature (Qvar x) (Qmean x) (List.length x) = false ->
      Rvar col = 1).
Proof.
  intros Hx p col.
  assert (Hn : INR (List.length x) <> 0).
  { apply not_0_INR. destruct x; [contradiction | discriminate]. }
  pose proof (Q2R_Qvar x Hx) as HV.
  set (sq := Rsum (map (fun q => (Q2R q - Q2R (Qmean x))
                                 * (Q2R q - Q2R (Qmean x))) x)) in *.
  assert (Hsq : 0 <= sq).
  { unfold sq. apply Rsum_nonneg. rewrite Forall_map, Forall_forall.
    intros q _. apply Rle_0_sqr. }
  assert (HV0 : 0 <= Q2R (var_ p)).
  { simpl. rewrite HV. apply Rmult_le_pos; auto.
    apply Rlt_le, Rinv_0_lt_compat.
    destruct (Rle_lt_or_eq_dec 0 (INR (List.length x)) (pos_INR _)); auto.
    congruence. }
  pose proof (scale_nonzero p HV0) as Hs.
  assert (Hmean : Rmean col = 0).
  { unfold Rmean, col, standardize. rewrite length_map.
    rewrite (Rsum_shift_scale Q2R (Q2R (mean_ p)) (scale_ p) x Hs).
    simpl mean_. rewrite (Q2R_Qmean x Hx). unfold Rmean.
    rewrite length_map. field. split; assumption. }
  split; [exact Hmean |]. split.
  { intros E. unfold col. apply map_ext. intros q.
    unfold standardize, scale_. simpl. rewrite E. field. }
  split.
  - intros E.
    assert (Hz : sq = 0).
    { apply Qeq_bool_eq in E. apply Qeq_eqR in E.
      rewrite HV in E. replace (Q2R 0) with 0 in E by (unfold Q2R; simpl; field).
      apply (Rmult_eq_compat_r (INR (List.length x))) in E.
      unfold Rdiv in E. rewrite Rmult_assoc, Rinv_l in E by exact Hn. lra. }
    assert (Hall : Forall (fun v => v = 0)
                     (map (fun q => (Q2R q - Q2R (Qmean x))
                                    * (Q2R q - Q2R (Qmean x))) x)).
    { apply Rsum_nonneg_zero; auto.
      rewrite Forall_map, Forall_forall. intros q _. apply Rle_0_sqr. }
    unfold col. rewrite Forall_map in *. rewrite Forall_forall in *.
    intros q Hq. specialize (Hall q Hq). simpl in Hall.
    unfold standardize, scale_. simpl.
    rewrite (is_constant_feature_zero _ _ _ (Qeq_bool_eq _ _ E)).
    assert (Q2R q - Q2R (Qmean x) = 0) by nra.
    rewrite H. field.
  - intros E. unfold Rvar, ssqdm. rewrite Hmean.
    unfold col. rewrite map_map, length_map.
    unfold standardize.
    rewrite (Rsum_squares_scale (fun q => Q2R q - Q2R (mean_ p)) (scale_ p) x Hs).
    simpl mean_. fold sq.
    assert (Hss : scale_ p * scale_ p = Q2R (Qvar x)).
    { unfold scale_, p. cbn [var_ mean_ n_samples_seen_]. rewrite E.
      apply sqrt_sqrt. exact HV0. }
    rewrite Hss, HV.
    assert (Hsq0 : sq <> 0).
    { intros Z0. pose proof (varying_feature_positive _ _ _ HV0 E) as Hpos.
      simpl in Hpos. rewrite HV, Z0 in Hpos. unfold Rdiv in Hpos.
      rewrite Rmult_0_l in Hpos. lra. }
    field. split; assumption.
Qed.

Lemma scaled_train_block (num : list string) (train : DataFrame)
      (params : list (string * ScalerParams)) (a : list (string * list R)) :
  Forall2 (fun c cp =>
             fst cp = c
             /\ exists s, getitem train c = Ok s
                          /\ snd cp = mkScaler (Qmean (to_floats s))
                                               (Qvar (to_floats s))
                                               (List.length (to_floats s)))
          num params ->
  Forall2 (fun cp col => scaled_column train cp = Ok col) params a ->
  Forall2 (fun c col =>
             exists s,
               getitem train c = Ok s
               /\ to_floats s <> []
               /\ col = (("standardscaler__" ++ c)%string,
                         map (standardize
                                (mkScaler (Qmean (to_floats s))
                                          (Qvar (to_floats s))
                                          (List.length (to_floats s))))
                             (to_floats s)))
          num a.
Proof.
  intros Hfit. revert a.
  induction Hfit as [| c cp num' params' [Hn [s [Hg Hp]]] _ IH];
    intros a Ha; inversion Ha as [| ? col ? a' Hcol Ha']; subst.
  - constructor.
  - constructor; auto.
    unfold scaled_column in Hcol.
    destruct (select_fitted train (fst cp)) as [s' |] eqn:Es; simpl in Hcol;
      try discriminate.
    apply select_fitted_ok in Es.
    assert (s' = s) by congruence. subst s'.
    unfold scaler_transform in Hcol.
    destruct (to_floats s) as [| q qs] eqn:Ef; simpl in Hcol;
      try discriminate.
    injection Hcol as <-.
    exists s. rewrite Hp, Ef. repeat split; auto. discriminate.
Qed.

(** X13: in exact arithmetic, every numeric column of the transformed
    training table has mean 0.  Its population variance is 1 unless the
    scaler finds the training column constant, that is unless
    [var <= n * eps * var + (n * mean * eps) ** 2]; such a column is only
    centred, and it is all zeros when its variance is zero. *)
Theorem X13_scaled_train_columns_are_standard
  (st st' : Frames) (num bin : list string)
  (train_scaled test_scaled : Table) (names : list string) :
  preprocess_data st num bin = (Ok (train_scaled, test_scaled, names), st') ->
  exists scaled rest,
    train_scaled = scaled ++ rest
    /\ Forall2
         (fun c col =>
            exists s,
              getitem (train_df st') c = Ok s
              /\ fst col = ("standardscaler__" ++ c)%string
              /\ Rmean (snd col) = 0
              /\ (is_constant_feature (Qvar (to_floats s)) (Qmean (to_floats s))
                                      (List.length (to_floats s)) = false ->
                  Rvar (snd col) = 1)
              /\ (is_constant_feature (Qvar (to_floats s)) (Qmean (to_floats s))
                                      (List.length (to_floats s)) = true ->
                  snd col = map (fun q => Q2R q - Q2R (Qmean (to_floats s)))
                                (to_floats s))
              /\ (Qeq_bool (Qvar (to_floats s)) 0 = true ->
                  Forall (fun v => v = 0) (snd col)))
         num scaled.
Proof.
  intros H.
  destruct (preprocess_data_ok_inv _ _ _ H) as [_ [_ Hft]].
  destruct (fit_transform_inv _ _ _ Hft) as [t [Hfit [Htr _]]].
  destruct (fit_inv _ _ _ _ Hfit) as [_ [Hsc _]].
  destruct (transform_inv _ _ Htr) as [a [b [c [-> [Ha _]]]]].
  exists a, (List.concat b ++ c). split; [reflexivity |].
  pose proof (scaled_train_block _ _ _ _ Hsc Ha) as Hblock.
  eapply Forall2_impl; [| exact Hblock].
  intros n col [s [Hg [Hne ->]]]. exists s.
  destruct (standardize_fitted_column (to_floats s) Hne) as [M [K [Z V]]].
  simpl. auto 10.
Qed.

Lemma X13_scaled_train_columns_are_standard_witness :
  exists train_scaled test_scaled names st',
    preprocess_data (mkFrames small_train small_test)
                    ["age"%string] ["sex"%string]
    = (Ok (train_scaled, test_scaled, names), st')
    /\ exists scaled rest,
        train_scaled = scaled ++ rest
        /\ Forall2
             (fun c col =>
                exists s,
                  getitem (train_df st') c = Ok s
                  /\ fst col = ("standardscaler__" ++ c)%string
                  /\ Rmean (snd col) = 0
                  /\ (is_constant_feature (Qvar (to_floats s)) (Qmean (to_floats s))
                                          (List.length (to_floats s)) = false ->
                      Rvar (snd col) = 1)
                  /\ (is_constant_feature (Qvar (to_floats s)) (Qmean (to_floats s))
                                          (List.length (to_floats s)) = true ->
                      snd col = map (fun q => Q2R q - Q2R (Qmean (to_floats s)))
                                    (to_floats s))
                  /\ (Qeq_bool (Qvar (to_floats s)) 0 = true ->
                      Forall (fun v => v = 0) (snd col)))
             ["age"%string] scaled.
Proof.
  do 4 eexists. split; [reflexivity |].
  eapply (X13_scaled_train_columns_are_standard
            (mkFrames small_train small_test) _
            ["age"%string] ["sex"%string]).
  reflexivity.
Defined.

End Standardisation.

(* ===================================================================== *)
(** * The correlation matrix: degenerate columns *)
(* ===================================================================== *)

Section CorrelationRange.
Import Pandas Preprocessing CorrelationAnalysis CorrelationSamples.

Local Open Scope R_scope.

Lemma Rsum_constant (v : R) (x : list R) :
  Forall (fun u => u = v) x -> Rsum x = INR (List.length x) * v.
Proof.
  unfold Rsum. induction 1 as [| u t -> _ IH].
  - simpl. ring.
  - cbn [fold_right List.length]. rewrite IH, S_INR. ring.
Qed.

Lemma ssqdm_constant (v : R) (x : list R) :
  Forall (fun u => u = v) x -> ssqdm x = 0.
Proof.
  intros H. unfold ssqdm.
  destruct x as [| u t]; [reflexivity |].
  assert (Hm : Rmean (u :: t) = v).
  { unfold Rmean. rewrite (Rsum_constant v _ H). field.
    apply not_0_INR. discriminate. }
  rewrite Hm.
  assert (Hz : Forall (fun w => w = 0)
                 (map (fun w => (w - v) * (w - v)) (u :: t))).
  { rewrite Forall_map. eapply Forall_impl; [| exact H].
    intros w ->. simpl. ring. }
  rewrite (Rsum_constant 0 _ Hz). ring.
Qed.

Lemma pearson_constant (x y : list R) :
  ssqdm x = 0 -> pearson x y = None /\ pearson y x = None.
Proof.
  intros H. unfold pearson.
  rewrite H, Rmult_0_l, Rmult_0_r, sqrt_0.
  destruct (Req_dec_T 0 0) as [_ | N]; [auto | contradiction].
Qed.

(** X15: a column that holds one value throughout has no correlation with
    any column, itself included: its whole row and its whole column of the
    matrix are NaN.  (So is the scaled form of a constant training column,
    and the encoded form of a binary column with one category.) *)
Theorem X15_constant_column_is_nan
  (df : Table) (i j : nat) (ci : string * list R) (v : R) :
  nth_error df i = Some ci ->
  Forall (fun u => u = v) (snd ci) ->
  (j < List.length df)%nat ->
  entry (corr df) i j = Some None /\ entry (corr df) j i = Some None.
Proof.
  intros Hi Hconst Hj.
  destruct (nth_error df j) as [cj |] eqn:Ej;
    [| apply nth_error_None in Ej; lia].
  rewrite (entry_corr _ _ _ Hi Ej), (entry_corr _ _ _ Ej Hi).
  destruct (pearson_constant (snd ci) (snd cj) (ssqdm_constant v _ Hconst))
    as [H1 H2].
  now rewrite H1, H2.
Qed.

Lemma X15_constant_column_is_nan_witness :
  entry (corr [("a"%string, [1; 1; 1]); ("b"%string, [1; 0; 4])]) 0 1
  = Some None
  /\ entry (corr [("a"%string, [1; 1; 1]); ("b"%string, [1; 0; 4])]) 1 0
     = Some None.
Proof.
  apply (X15_constant_column_is_nan
           [("a"%string, [1; 1; 1]); ("b"%string, [1; 0; 4])] 0 1
           ("a"%string, [1; 1; 1]) 1).
  - reflexivity.
  - repeat constructor.
  - simpl. lia.
Defined.

End CorrelationRange.

(* ===================================================================== *)
(** * plot_correlation_matrix *)
(* ===================================================================== *)

Section Plot.
Import Pandas Preprocessing CorrelationAnalysis CorrelationSamples.







(** ** The data of the chart *)



















End Plot.

(* ===================================================================== *)
(** * The correlation matrix: symmetry and diagonal *)
(* ===================================================================== *)

Section CorrelationMatrix.
Import Pandas Preprocessing CorrelationAnalysis CorrelationSamples.
Import PrimFloat Nancorr.











End CorrelationMatrix.

(* ===================================================================== *)
(** * The number of output columns *)
(* ===================================================================== *)

Section OutputColumns.
Import Pandas Preprocessing CorrelationAnalysis CorrelationSamples.

Local Open Scope result_scope.

(** A boolean column with at least one row keeps exactly one category
    under [drop='if_binary']. *)
Lemma one_kept_category (v : list bool) :
  v <> [] -> List.length (kept_categories (categories_of bool_compare v)) = 1.
Proof.
  intros Hv. rewrite bool_categories.
  destruct (existsb negb v) eqn:E1, (existsb (fun b => b) v) eqn:E2;
    try reflexivity.
  exfalso. destruct v as [| b t]; [contradiction |].
  simpl in E1, E2. destruct b; simpl in *; discriminate.
Qed.

Lemma encoders_keep_one (train : DataFrame) (bin : list string)
      (encs : list (string * list bool)) (b : list (list (string * list R))) :
  Forall2 (fun c cc =>
             fst cc = c
             /\ exists l, getitem train c = Ok (BoolCol l)
                          /\ snd cc = categories_of bool_compare l)
          bin encs ->
  Forall2 (fun cc blk => encoded_columns UnknownIgnore train cc = Ok blk) encs b ->
  List.length
    (flat_map (fun cc : string * list bool =>
                 map (fun k => ("onehotencoder__" ++ fst cc ++ "_" ++ bool_repr k)%string)
                     (kept_categories (snd cc))) encs)
  = List.length bin.
Proof.
  intros Hfit. revert b.
  induction Hfit as [| c cc bin' encs' [Hn [l [Hg Hc]]] _ IH];
    intros b Hb; inversion Hb as [| ? blk ? b' Hblk Hb']; subst.
  - reflexivity.
  - cbn [flat_map]. rewrite length_app, length_map, (IH b' Hb').
    cbn [List.length].
    unfold encoded_columns in Hblk.
    destruct (select_fitted train (fst cc)) as [s |] eqn:Es; simpl in Hblk;
      try discriminate.
    apply select_fitted_ok in Es. rewrite Hg in Es. injection Es as <-.
    simpl in Hblk. rewrite Hc.
    rewrite one_kept_category; [reflexivity |].
    intros ->. simpl in Hblk. discriminate.
Qed.

Lemma output_columns_count
  (st st' : Frames) (num bin : list string)
  (train_scaled test_scaled : Table) (names : list string) :
  preprocess_data st num bin = (Ok (train_scaled, test_scaled, names), st') ->
  List.length names
  = List.length num + List.length bin
    + List.length (filter (fun c => negb (mem_string c num || mem_string c bin))
                          (map fst (train_df st)))
  /\ List.length train_scaled = List.length names
  /\ List.length test_scaled = List.length names.
Proof.
  intros H.
  destruct (preprocess_data_ok_inv _ _ _ H) as [C1 [_ Hft]].
  destruct (fit_transform_inv _ _ _ Hft) as [t [Hfit [Htr [Hte ->]]]].
  destruct (fit_inv _ _ _ _ Hfit) as [Hhu [Hsc [Hen Hre]]].
  destruct (cast_binary_spec _ _ C1) as [N _].
  split.
  - destruct (transform_inv _ _ Htr) as [a [b [c [_ [_ [Hb _]]]]]].
    rewrite Hhu in Hb.
    unfold get_feature_names_out.
    rewrite !length_app, !length_map.
    rewrite (encoders_keep_one _ _ _ _ Hen Hb).
    rewrite <- (Forall2_length Hsc), Hre, N. lia.
  - pose proof (transform_names _ _ _ Hhu Htr) as E1.
    pose proof (transform_names _ _ _ Hhu Hte) as E2.
    apply (f_equal (@List.length string)) in E1, E2.
    rewrite length_map in E1, E2. auto.
Qed.

(** X20: the tables have one column per numeric column, one column per
    binary column, whether the training rows show one category or both,
    and one column per other column of the training frame. *)
Theorem X20_number_of_output_columns
  (st st' : Frames) (num bin : list string)
  (train_scaled test_scaled : Table) (names : list string) :
  preprocess_data st num bin = (Ok (train_scaled, test_scaled, names), st') ->
  List.length names
  = List.length num + List.length bin
    + List.length (filter (fun c => negb (mem_string c num || mem_string c bin))
                          (map fst (train_df st)))
  /\ List.length train_scaled = List.length names
  /\ List.length test_scaled = List.length names.
Proof.
  apply output_columns_count.
Qed.

Lemma X20_number_of_output_columns_witness :
  exists train_scaled test_scaled names st',
    preprocess_data (mkFrames one_sex_train small_test)
                    ["age"%string] ["sex"%string]
    = (Ok (train_scaled, test_scaled, names), st')
    /\ List.length names
       = List.length ["age"%string] + List.length ["sex"%string]
         + List.length
             (filter (fun c => negb (mem_string c ["age"%string]
                                     || mem_string c ["sex"%string]))
                     (map fst one_sex_train))
    /\ List.length train_scaled = List.length names
    /\ List.length test_scaled = List.length names.
Proof.
  do 4 eexists. split; [reflexivity |].
  eapply (X20_number_of_output_columns
            (mkFrames one_sex_train small_test) _
            ["age"%string] ["sex"%string]).
  reflexivity.
Defined.

End OutputColumns.

(* ===================================================================== *)
(** * The correlation script: how a run ends *)
(* ===================================================================== *)

Section CorrelationRuns.
Import Pandas Preprocessing CorrelationAnalysis CorrelationSamples.




(** X22: when the training file lacks some of the five binary columns, the
    run dies of the [KeyError] of line 30, whose message names the missing
    ones: the traceback goes to standard error and the status is 1, and
    nothing has been printed, created, saved or shown. *)
Theorem X22_missing_column_ends_the_run
  (train test : DataFrame) (output_file : option string) (threshold : Q)
  (w : World) :
  not_found train binary_columns <> [] ->
  main train test output_file threshold w
  = (mkWorld (stdout w)
             (stderr w
              ++ [Traceback (KeyErrorNotInIndex
                               (labels_in_message train binary_columns))])
             (dirs w) (files w) (shown w),
     Exited 1)
  /\ (forall c, In c (labels_in_message train binary_columns)
                <-> In c binary_columns /\ has_column train c = false).
Proof.
  intros H. split; [| intros c; apply in_labels_in_message].
  unfold main, preprocess_data.
  cbn [train_df].
  now rewrite (cast_binary_not_found _ _ H).
Qed.

Lemma X22_missing_column_ends_the_run_witness :
  main small_train small_test (Some "heatmap.png"%string) (92 # 100) empty_world
  = (mkWorld []
             [Traceback (KeyErrorNotInIndex
                           ["anaemia"; "diabetes"; "high_blood_pressure";
                            "smoking"]%string)]
             [] [] [],
     Exited 1)
  /\ (forall c, In c (labels_in_message small_train binary_columns)
                <-> In c binary_columns /\ has_column small_train c = false).
Proof.
  apply (X22_missing_column_ends_the_run
           small_train small_test (Some "heatmap.png"%string) (92 # 100)
           empty_world).
  discriminate.
Defined.



End CorrelationRuns.
